(** * Bulk-import pipeline of the IT assets backend

    A shallow embedding of [uploadExcel] and [bulkCreateAssets] of the asset
    controller, of the generic error handler, and of the pieces of the
    JavaScript runtime they call (string methods, truthiness, [Date]);
    then of [createAsset], of the pagination and exact-match filters of the
    listing handlers, and of the earlier revision of the two import
    handlers.

    Conventions.
    - A JS object used as a record ([asset], a spreadsheet row after
      mapping) is a [gmap string value]; reading a key that is not there
      gives [undefined].
    - A raw spreadsheet row is the list of its [(header, cell)] pairs in
      [Object.keys] order: two headers may map to one schema field, and the
      later one then overwrites the earlier.
    - A JS string is a [string] whose characters are its code units below
      256; the result of [toUpperCase], which can leave that range, is the
      list of its code units.  Numeric cells are integers; a fractional
      cell behaves here as any non-zero number does (truthy, not a string).
    - [new Date()] reads a clock; the clock is a function from the number
      of reads made so far to the time value returned, and code that reads
      it threads that counter. *)

From Stdlib Require Import ZArith String Ascii List Lia Bool.
From Stdlib Require Import DecimalString DecimalNat DecimalFacts.
From stdpp Require Import gmap strings list fin_maps.

Open Scope string_scope.
Open Scope list_scope.

(** ** Strings *)

Module JsString.

Definition code (c : ascii) : nat := nat_of_ascii c.

(** [String.prototype.toLowerCase] on code units below 256: A-Z and the
    Latin-1 capitals (all of 192..222 but the multiplication sign 215). *)
Definition toLowerChar (c : ascii) : ascii :=
  let n := code c in
  if (((65 <=? n) && (n <=? 90)) || ((192 <=? n) && (n <=? 222) && negb (n =? 215)))%nat
  then ascii_of_nat (n + 32) else c.

Fixpoint toLowerCase (s : string) : string :=
  match s with
  | EmptyString => EmptyString
  | String c s' => String (toLowerChar c) (toLowerCase s')
  end.

(** The code units of a string. *)
Fixpoint units (s : string) : list nat :=
  match s with
  | EmptyString => []
  | String c s' => code c :: units s'
  end.

(** The code units of [c.toUpperCase()] for a code unit below 256: a-z and
    the Latin-1 small letters (224..254 but the division sign 247) lose 32,
    the sharp s (223) becomes SS, and the capitals of the micro sign (181)
    and of y with diaeresis (255) are U+039C and U+0178, above 255. *)
Definition toUpperUnits (c : ascii) : list nat :=
  let n := code c in
  if (((97 <=? n) && (n <=? 122))
      || ((224 <=? n) && (n <=? 254) && negb (n =? 247)))%nat
  then [(n - 32)%nat]
  else if (n =? 223)%nat then [83; 83]%nat
  else if (n =? 181)%nat then [924%nat]
  else if (n =? 255)%nat then [376%nat]
  else [n].

(** [String.prototype.toUpperCase], as the code units of the result: they
    need not be below 256, and there may be more of them than of [s]. *)
Fixpoint toUpperCase (s : string) : list nat :=
  match s with
  | EmptyString => []
  | String c s' => toUpperUnits c ++ toUpperCase s'
  end.

(** White space and line terminators removed by [trim]: TAB, LF, VT, FF,
    CR, SP and NBSP. *)
Definition isWhiteSpace (c : ascii) : bool :=
  let n := code c in
  (((9 <=? n) && (n <=? 13)) || (n =? 32) || (n =? 160))%nat.

Fixpoint trimStart (s : string) : string :=
  match s with
  | EmptyString => EmptyString
  | String c s' => if isWhiteSpace c then trimStart s' else s
  end.

(** [trimEnd s] keeps a character when it is not white space or when
    something is kept after it. *)
Fixpoint trimEnd (s : string) : string :=
  match s with
  | EmptyString => EmptyString
  | String c s' =>
      match trimEnd s' with
      | EmptyString => if isWhiteSpace c then EmptyString else String c EmptyString
      | r => String c r
      end
  end.

Definition trim (s : string) : string := trimEnd (trimStart s).

Fixpoint startsWith (p s : string) : bool :=
  match p, s with
  | EmptyString, _ => true
  | String a p', String b s' => Ascii.eqb a b && startsWith p' s'
  | String _ _, EmptyString => false
  end.

(** [hay.includes(needle)] *)
Fixpoint includes (needle hay : string) : bool :=
  startsWith needle hay ||
  match hay with
  | EmptyString => false
  | String _ hay' => includes needle hay'
  end.

(** [s.slice(a, b)] for [0 <= a <= b] *)
Definition slice (a b : nat) (s : string) : string := String.substring a (b - a) s.

(** [s.replace(/c/g, '')] for a one-character pattern *)
Fixpoint removeAll (c : ascii) (s : string) : string :=
  match s with
  | EmptyString => EmptyString
  | String x s' => if Ascii.eqb x c then removeAll c s' else String x (removeAll c s')
  end.

Fixpoint repeat (c : ascii) (n : nat) : string :=
  match n with
  | O => EmptyString
  | S n' => String c (repeat c n')
  end.

(** [s.padStart(n, c)] for a one-character filler *)
Definition padStart (n : nat) (c : ascii) (s : string) : string :=
  repeat c (n - String.length s) +:+ s.

(** [String(n)] for a non-negative integer *)
Definition ofNat (n : nat) : string := NilZero.string_of_uint (Nat.to_uint n).

(** [String(n)] for an integer *)
Definition ofZ (n : Z) : string :=
  match n with
  | Zneg p => String "-" (ofNat (Pos.to_nat p))
  | _ => ofNat (Z.to_nat n)
  end.

End JsString.

(** ** Values *)

Inductive value : Type :=
| VUndefined
| VNull
| VBool (b : bool)
| VNum (n : Z)
| VStr (s : string)
| VDate (t : Z).

(** ToBoolean *)
Definition truthy (v : value) : bool :=
  match v with
  | VUndefined | VNull => false
  | VBool b => b
  | VNum n => negb (n =? 0)%Z
  | VStr s => negb (String.eqb s "")
  | VDate _ => true
  end.

(** [v === 'lit'] *)
Definition strictEqStr (v : value) (lit : string) : bool :=
  match v with
  | VStr s => String.eqb s lit
  | _ => false
  end.

(** [o[k]] *)
Definition get (o : gmap string value) (k : string) : value :=
  default VUndefined (o !! k).

(** ** Dates *)

Module JsDate.

Open Scope Z_scope.

Definition msPerDay : Z := 86400000.

(** Year, month (1..12) and day of month of a day number counted from
    1970-01-01, in the proleptic Gregorian calendar. *)
Definition civilFromDays (days : Z) : Z * Z * Z :=
  let z := days + 719468 in
  let era := z / 146097 in
  let doe := z - era * 146097 in
  let yoe := (doe - doe / 1460 + doe / 36524 - doe / 146096) / 365 in
  let doy := doe - (365 * yoe + yoe / 4 - yoe / 100) in
  let mp := (5 * doy + 2) / 153 in
  let d := doy - (153 * mp + 2) / 5 + 1 in
  let m := if mp <? 10 then mp + 3 else mp - 9 in
  ((yoe + era * 400 + (if m <=? 2 then 1 else 0)), m, d).

Definition digit (n : Z) : ascii := ascii_of_nat (48 + Z.to_nat (n mod 10)).

Definition d2 (n : Z) : string :=
  String (digit (n / 10)) (String (digit n) EmptyString).
Definition d3 (n : Z) : string := String (digit (n / 100)) (d2 n).
Definition d4 (n : Z) : string := String (digit (n / 1000)) (d3 n).
Definition d6 (n : Z) : string :=
  String (digit (n / 100000)) (String (digit (n / 10000)) (d4 n)).

(** The year of an ISO string: four digits from 0 to 9999, a sign and six
    digits outside. *)
Definition isoYear (y : Z) : string :=
  if (0 <=? y) && (y <=? 9999) then d4 y
  else String (if y <? 0 then "-"%char else "+"%char) (d6 (Z.abs y)).

(** [new Date(t).toISOString()] for a time value [t] (milliseconds since
    the epoch, UTC). *)
Definition toISOString (t : Z) : string :=
  let '(y, m, d) := civilFromDays (t / msPerDay) in
  let r := t mod msPerDay in
  isoYear y +:+ "-" +:+ d2 m +:+ "-" +:+ d2 d +:+ "T"
  +:+ d2 (r / 3600000) +:+ ":" +:+ d2 (r / 60000 mod 60) +:+ ":"
  +:+ d2 (r / 1000 mod 60) +:+ "." +:+ d3 (r mod 1000) +:+ "Z".

End JsDate.


(** ** Records, errors and the clock *)

(** An asset under construction, as the controller builds it:
    [const asset = { createdBy }] and then [asset[schemaField] = ...]. *)
Abbreviation asset := (gmap string value).

(** A row of [XLSX.utils.sheet_to_json]: header and cell, in key order. *)
Definition rawRow : Type := list (string * value).

(** One element of [err.writeErrors]. *)
Record writeError : Type := {
  we_index : nat;
  we_errmsg : option string;
  we_message : option string;
}.

(** A thrown JS error, with the properties the controller and the error
    handler read from it. *)
Record error : Type := {
  err_name : string;
  err_message : option string;
  err_statusCode : option Z;
  err_code : option Z;
  err_keyValue : option (list string);
  err_errors : option (list string);
  err_insertedDocs : option (list asset);
  err_writeErrors : option (list writeError);
}.

Definition typeError (msg : string) : error :=
  {| err_name := "TypeError"; err_message := Some msg;
     err_statusCode := None; err_code := None; err_keyValue := None;
     err_errors := None; err_insertedDocs := None; err_writeErrors := None |}.

(** Computations that read the clock and may throw: the state is the
    number of clock reads made so far. *)
Definition M (A : Type) : Type := nat -> error + (A * nat).

Definition ret {A} (a : A) : M A := fun n => inr (a, n).
Definition throw {A} (e : error) : M A := fun _ => inl e.
Definition bind {A B} (c : M A) (k : A -> M B) : M B :=
  fun n => match c n with
           | inl e => inl e
           | inr (a, n') => k a n'
           end.
Definition liftE {A} (r : error + A) : M A :=
  fun n => match r with inl e => inl e | inr a => inr (a, n) end.

Notation "'do' x <- c1 ; c2" := (bind c1 (fun x => c2))
  (at level 10, x name, c1 at level 100, c2 at level 200).

(** ** The spreadsheet import: column mapping, normalisation, filter *)

Definition columnMapEntries : list (string * string) :=
  [ ("serialnumber", "serialNumber"); ("serial number", "serialNumber"); ("serial_number", "serialNumber");
    ("sn", "serialNumber"); ("sr no", "serialNumber"); ("sr.no", "serialNumber");
    ("sr. no", "serialNumber"); ("srno", "serialNumber"); ("sl no", "serialNumber");
    ("sl.no", "serialNumber"); ("slno", "serialNumber"); ("asset id", "serialNumber");
    ("assetid", "serialNumber"); ("asset_id", "serialNumber"); ("companyname", "companyName");
    ("company name", "companyName"); ("company", "companyName"); ("organization", "companyName");
    ("org", "companyName"); ("firm", "companyName"); ("branch", "branch");
    ("location", "branch"); ("site", "branch"); ("office", "branch");
    ("department", "department"); ("dept", "department"); ("division", "department");
    ("team", "department"); ("username", "userName"); ("user name", "userName");
    ("user", "userName"); ("name", "userName"); ("employee", "userName");
    ("employee name", "userName"); ("employeename", "userName"); ("assigned to", "userName");
    ("assignedto", "userName"); ("assigned", "userName"); ("brand", "brand");
    ("make", "brand"); ("manufacturer", "brand"); ("vendor", "brand");
    ("device", "device"); ("device type", "device"); ("devicetype", "device");
    ("type", "device"); ("asset type", "device"); ("assettype", "device");
    ("equipment", "device"); ("category", "device"); ("deviceserialno", "deviceSerialNo");
    ("device serial no", "deviceSerialNo"); ("device serial", "deviceSerialNo"); ("device_serial", "deviceSerialNo");
    ("device serial number", "deviceSerialNo"); ("deviceserialnumber", "deviceSerialNo"); ("equipment serial", "deviceSerialNo");
    ("equipment serial no", "deviceSerialNo"); ("asset serial", "deviceSerialNo"); ("asset serial no", "deviceSerialNo");
    ("serial no", "deviceSerialNo"); ("serialno", "deviceSerialNo"); ("product serial", "deviceSerialNo");
    ("device s.no", "deviceSerialNo"); ("device sno", "deviceSerialNo"); ("operatingsystem", "operatingSystem");
    ("operating system", "operatingSystem"); ("os", "operatingSystem"); ("dateofpurchase", "dateOfPurchase");
    ("date of purchase", "dateOfPurchase"); ("purchase date", "dateOfPurchase"); ("purchasedate", "dateOfPurchase");
    ("purchase_date", "dateOfPurchase"); ("purchased on", "dateOfPurchase"); ("date", "dateOfPurchase");
    ("bought on", "dateOfPurchase"); ("acquisition date", "dateOfPurchase"); ("purchase", "dateOfPurchase");
    ("remark", "remark"); ("remarks", "remark"); ("notes", "remark");
    ("comment", "remark"); ("comments", "remark"); ("description", "remark");
    ("status", "status"); ("state", "status"); ("condition", "status") ].

(** What [columnMap[key]] is for the keys an object literal inherits from
    [Object.prototype]: a lower-cased header can spell two of them,
    [constructor] (the function [Object]) and [__proto__] (the prototype
    object).  Both values are truthy and differ from every string, and
    [asset[schemaField] = ...] converts them to the property keys given
    here. *)
Definition inheritedColumns : list (string * string) :=
  [ ("constructor", "function Object() { [native code] }");
    ("__proto__", "[object Object]") ].

(** The object literal [columnMap]: a later entry for a key replaces an
    earlier one, and an own key would hide an inherited one. *)
Definition columnMap : gmap string string :=
  foldl (fun m kv => <[kv.1 := kv.2]> m) (list_to_map inheritedColumns)
        columnMapEntries.

Definition textFields : list string :=
  ["companyName"; "branch"; "department"; "userName"; "brand"; "device";
   "deviceSerialNo"; "operatingSystem"; "remark"].

Definition validDevices : list string :=
  ["Desktop"; "Laptop"; "Tablet"; "Monitor"; "Printer"; "Scanner"; "Server";
   "Network Device"; "Other"; "NA"].

(** [DEVICES] of the request validator: the device enum of the schema. *)
Definition DEVICES : list string :=
  ["Desktop"; "Laptop"; "Tablet"; "Monitor"; "Printer"; "Scanner"; "Server";
   "Network Device"; "Other"].

Definition meaningfulFields : list string :=
  ["companyName"; "branch"; "department"; "userName"; "brand"; "device";
   "deviceSerialNo"].

Section Upload.

(** [clock k] is the time value of the [k]-th [new Date()] of the request. *)
Variable clock : nat -> Z.
(** [Date.parse] on a string, [None] when the result is NaN. *)
Variable dateParse : string -> option Z.

Definition newDate : M Z := fun n => inr (clock n, S n).

(** The time value of [new Date(v)], [None] for an invalid date. *)
Definition dateOf (v : value) : option Z :=
  match v with
  | VStr s => dateParse s
  | VNum n => if (Z.abs n <=? 8640000000000000)%Z then Some n else None
  | VBool b => Some (if b then 1 else 0)%Z
  | VNull => Some 0%Z
  | VUndefined => None
  | VDate t => Some t
  end.

(** [typeof value === 'string' ? value.trim() : value] *)
Definition trimCell (v : value) : value :=
  match v with
  | VStr s => VStr (JsString.trim s)
  | _ => v
  end.

(** What [asset[schemaField]] receives from a cell. *)
Definition cellValue (schemaField : string) (v : value) : value :=
  if String.eqb schemaField "dateOfPurchase" && truthy v then
    match v with
    | VDate _ => v
    | _ => match dateOf v with
           | None => VNull
           | Some t => VDate t
           end
    end
  else trimCell v.

(** The body of [Object.keys(row).forEach(key => ...)]. *)
Definition mapColumn (a : asset) (kv : string * value) : asset :=
  let normalizedKey := JsString.trim (JsString.toLowerCase kv.1) in
  match columnMap !! normalizedKey with
  | Some schemaField =>
      if truthy (VStr schemaField)
      then <[schemaField := cellValue schemaField kv.2]> a
      else a
  | None => a
  end.

Definition mapColumns (createdBy : value) (row : rawRow) : asset :=
  foldl mapColumn {["createdBy" := createdBy]} row.

(** The body of [textFields.forEach(field => ...)]. *)
Definition defaultText (a : asset) (field : string) : asset :=
  if negb (truthy (get a field)) || strictEqStr (get a field) ""
  then <[field := VStr "NA"]> a
  else a.

(** The device step.  [asset.device.toLowerCase()] is a call of
    [undefined] when the device is a truthy value that is not a string. *)
Definition normalizeDevice (a : asset) : error + asset :=
  if truthy (get a "device") then
    match get a "device" with
    | VStr dev =>
        let matchedDevice :=
          List.find (fun d => String.eqb (JsString.toLowerCase d)
                                         (JsString.toLowerCase dev))
                    validDevices in
        inr (<["device" := match matchedDevice with
                           | Some d => if truthy (VStr d) then VStr d else VStr "Other"
                           | None => VStr "Other"
                           end]> a)
    | _ => inl (typeError "asset.device.toLowerCase is not a function")
    end
  else inr (<["device" := VStr "Other"]> a).

Definition defaultStatus (a : asset) : asset :=
  if negb (truthy (get a "status")) || strictEqStr (get a "status") ""
  then <["status" := VStr "Active"]> a
  else a.

Definition defaultDate (a : asset) : M asset :=
  if negb (truthy (get a "dateOfPurchase"))
  then do now <- newDate; ret (<["dateOfPurchase" := VDate now]> a)
  else ret a.

Definition dateStr (now : Z) : string :=
  JsString.removeAll "-" (JsString.slice 0 10 (JsDate.toISOString now)).

Definition timeStr (now : Z) : string :=
  JsString.removeAll ":" (JsString.slice 11 19 (JsDate.toISOString now)).

(** The template literal of the generated serial. *)
Definition generatedSerial (now : Z) (index : nat) : string :=
  "IT-" +:+ dateStr now +:+ "-" +:+ timeStr now +:+ "-"
  +:+ JsString.padStart 4 "0" (JsString.ofNat (index + 1)).

Definition needsSerial (a : asset) : bool :=
  negb (truthy (get a "serialNumber"))
  || strictEqStr (get a "serialNumber") ""
  || strictEqStr (get a "serialNumber") "NA".

Definition defaultSerial (index : nat) (a : asset) : M asset :=
  if needsSerial a
  then do now <- newDate;
       ret (<["serialNumber" := VStr (generatedSerial now index)]> a)
  else ret a.

(** The callback of [rawData.map((row, index) => ...)]. *)
Definition transformRow (createdBy : value) (row : rawRow) (index : nat) : M asset :=
  let a := mapColumns createdBy row in
  let a := foldl defaultText a textFields in
  do a <- liftE (normalizeDevice a);
  let a := defaultStatus a in
  do a <- defaultDate a;
  do a <- defaultSerial index a;
  ret (<["_rowIndex" := VNum (Z.of_nat index + 2)]> a).

Fixpoint transformRows (createdBy : value) (rows : list rawRow) (index : nat)
  : M (list asset) :=
  match rows with
  | [] => ret []
  | row :: rest =>
      do a <- transformRow createdBy row index;
      do l <- transformRows createdBy rest (S index);
      ret (a :: l)
  end.

(** The predicate of [assets.filter(asset => ...)]. *)
Definition hasData (a : asset) : bool :=
  existsb (fun f => truthy (get a f)
                    && negb (strictEqStr (get a f) "NA")
                    && negb (strictEqStr (get a f) ""))
          meaningfulFields.

(** [validAssets]: the rows kept, each with [_rowIndex] deleted. *)
Definition validAssetsOf (assets : list asset) : list asset :=
  delete "_rowIndex" <$> List.filter hasData assets.

End Upload.

(** ** Responses and the generic error handler *)

(** A member of a response body. *)
Inductive datum : Type :=
| DNum (n : Z)
| DStr (s : string)
| DStrings (l : list string)
| DObjects (l : list (gmap string value)).

(** What [res.status(status).json(...)] sends.  [data] is [None] for
    [null] and for a body without [data]. *)
Record response : Type := {
  status : Z;
  success : bool;
  data : option (gmap string datum);
  message : string;
}.

(** The helper [send] of the controller. *)
Definition send (status : Z) (data : option (gmap string datum)) (message : string)
  : response :=
  {| status := status; success := (status <? 400)%Z; data := data;
     message := message |}.

(** How a handler ends: it sends a response or calls [next(err)]. *)
Inductive outcome : Type :=
| Sent (r : response)
| Next (e : error).

(** [x || d] on an optional string *)
Definition orElse (x : option string) (d : string) : string :=
  match x with
  | Some s => if String.eqb s "" then d else s
  | None => d
  end.

(** The error-handling middleware.  It throws itself when it reads the
    keys of an [undefined] [keyValue] or [errors]. *)
Definition errorHandler (err : error) : error + response :=
  let status := match err_statusCode err with
                | Some c => if (c =? 0)%Z then 500%Z else c
                | None => 500%Z
                end in
  let message := orElse (err_message err) "Server Error" in
  let '(status, message) :=
    if String.eqb (err_name err) "CastError"
    then (400%Z, "Invalid ID format") else (status, message) in
  let step2 :=
    match err_code err with
    | Some 11000%Z =>
        match err_keyValue err with
        | Some keys => inr (409%Z, "Duplicate: " +:+ List.hd "undefined" keys)
        | None => inl (typeError "Cannot convert undefined or null to object")
        end
    | _ => inr (status, message)
    end in
  match step2 with
  | inl e => inl e
  | inr (status, message) =>
      if String.eqb (err_name err) "ValidationError" then
        match err_errors err with
        | Some msgs =>
            inr {| status := 400; success := false; data := None;
                   message := String.concat ", " msgs |}
        | None => inl (typeError "Cannot convert undefined or null to object")
        end
      else inr {| status := status; success := false; data := None;
                  message := message |}
  end.

(** ** The handlers, over any store *)

Definition batchSize : nat := 500.

(** [results] of [uploadExcel]. *)
Record results : Type := {
  inserted : list asset;
  errors : list (gmap string value);
}.

(** The body of an upload request: [req.file] with what reading it gives
    ([XLSX.read] throws, or [sheet_to_json] returns the rows), and
    [req.body.createdBy]. *)
Record uploadRequest : Type := {
  up_file : option (error + list rawRow);
  up_createdBy : value;
}.

(** [req.body.assets] of a bulk request. *)
Inductive assetsField : Type :=
| Missing
| NotAnArray (v : value)
| AnArray (l : list asset).

Record bulkRequest : Type := {
  bk_assets : assetsField;
  bk_createdBy : value;
}.

(** The entry of [results.errors] made from a write error of a batch. *)
Definition insertErrorOf (batch : list asset) (e : writeError) : gmap string value :=
  {[ "serialNumber" := match batch !! we_index e with
                       | Some a => get a "serialNumber"
                       | None => VUndefined
                       end;
     "message" := match we_errmsg e with
                  | Some m => if JsString.includes "duplicate" m
                              then VStr "Duplicate serial number"
                              else VStr m
                  | None => VUndefined
                  end ]}.

(** The entry of [errors] of a bulk response. *)
Definition bulkErrorOf (e : writeError) : gmap string value :=
  {[ "index" := VNum (Z.of_nat (we_index e));
     "message" := match we_errmsg e with
                  | Some m => if String.eqb m "" then
                                match we_message e with
                                | Some m' => VStr m'
                                | None => VUndefined
                                end
                              else VStr m
                  | None => match we_message e with
                            | Some m' => VStr m'
                            | None => VUndefined
                            end
                  end ]}.

Definition expectedColumns : list string :=
  ["companyName"; "branch"; "department"; "userName"; "brand"; "device";
   "deviceSerialNo"; "dateOfPurchase"; "operatingSystem"; "remark"; "status"].

Section Handlers.

(** The store: its state and [Asset.insertMany(docs, { ordered: false })],
    which resolves with the inserted documents or rejects with an error. *)
Variable S : Type.
Variable insertMany : S -> list asset -> (error + list asset) * S.
Variable clock : nat -> Z.
Variable dateParse : string -> option Z.

(** One turn of the batch loop: the [try] and its [catch]. *)
Definition insertBatch (st : S) (batch : list asset) (r : results) : S * results :=
  match insertMany st batch with
  | (inr docs, st') =>
      (st', {| inserted := inserted r ++ docs; errors := errors r |})
  | (inl err, st') =>
      let ins := match err_insertedDocs err with
                 | Some d => inserted r ++ d
                 | None => inserted r
                 end in
      let errs := match err_writeErrors err with
                  | Some w => errors r ++ (insertErrorOf batch <$> w)
                  | None => errors r
                  end in
      (st', {| inserted := ins; errors := errs |})
  end.

(** [for (let i = 0; i < validAssets.length; i += batchSize)], started at
    [i]; [None] when [fuel] turns are not enough. *)
Fixpoint insertLoop (fuel i : nat) (validAssets : list asset) (st : S) (r : results)
  : option (S * results) :=
  if (i <? length validAssets)%nat then
    match fuel with
    | O => None
    | Datatypes.S fuel' =>
        let batch := take batchSize (drop i validAssets) in
        let '(st', r') := insertBatch st batch r in
        insertLoop fuel' (i + batchSize) validAssets st' r'
    end
  else Some (st, r).

(** The [catch] of [uploadExcel]. *)
Definition uploadCatch (err : error) : outcome :=
  match err_message err with
  | Some m => if JsString.includes "Encrypted" m
              then Sent (send 400 None "Cannot read password-protected Excel files")
              else Next err
  | None => Next err
  end.

Definition uploadExcel (req : uploadRequest) (st : S) : option (outcome * S) :=
  match up_file req with
  | None => Some (Sent (send 400 None "Please upload an Excel file"), st)
  | Some parsed =>
      let createdBy := up_createdBy req in
      if negb (truthy createdBy)
      then Some (Sent (send 400 None "createdBy (user ID) is required"), st)
      else
        match parsed with
        | inl err => Some (uploadCatch err, st)
        | inr rawData =>
            if (length rawData =? 0)%nat
            then Some (Sent (send 400 None "Excel file is empty"), st)
            else if (5000 <? length rawData)%nat
            then Some (Sent (send 400 None "Maximum 5000 records allowed per file"), st)
            else
              match transformRows clock dateParse createdBy rawData 0 0 with
              | inl err => Some (uploadCatch err, st)
              | inr (assets, _) =>
                  let validAssets := validAssetsOf assets in
                  if (length validAssets =? 0)%nat then
                    let detectedHeaders :=
                      match rawData with
                      | row :: _ => row.*1
                      | [] => []
                      end in
                    Some (Sent (send 400
                      (Some {[ "detectedHeaders" := DStrings detectedHeaders;
                               "message" := DStr "All rows appear to be empty. Make sure your Excel has data in at least one of these columns.";
                               "expectedColumns" := DStrings expectedColumns ]})
                      "No valid records found. Check that your Excel has data."), st)
                  else
                    match insertLoop (length validAssets) 0 validAssets st
                            {| inserted := []; errors := [] |} with
                    | None => None
                    | Some (st', r) =>
                        let created := JsString.ofNat (length (inserted r)) in
                        let failed := JsString.ofNat (length (errors r)) in
                        Some (Sent (send 201
                          (Some {[ "totalRows" := DNum (Z.of_nat (length rawData));
                                   "created" := DNum (Z.of_nat (length (inserted r)));
                                   "failed" := DNum (Z.of_nat (length (errors r)));
                                   "skippedEmptyRows" :=
                                     DNum (Z.of_nat (length rawData)
                                           - Z.of_nat (length validAssets));
                                   "insertErrors" := DObjects (take 50 (errors r)) ]})
                          ("Excel processed: " +:+ created +:+ " created, "
                           +:+ failed +:+ " failed")), st')
                    end
              end
        end
  end.

(** [assets.map(asset => ({ ...asset, createdBy }))] *)
Definition assetsWithCreator (assets : list asset) (createdBy : value) : list asset :=
  (fun a => <["createdBy" := createdBy]> a) <$> assets.

Definition bulkCreateAssets (req : bulkRequest) (st : S) : outcome * S :=
  match bk_assets req with
  | Missing | NotAnArray _ => (Sent (send 400 None "Provide an array of assets"), st)
  | AnArray assets =>
      if (length assets =? 0)%nat
      then (Sent (send 400 None "Provide an array of assets"), st)
      else if (1000 <? length assets)%nat
      then (Sent (send 400 None "Maximum 1000 assets allowed per batch"), st)
      else if negb (truthy (bk_createdBy req))
      then (Sent (send 400 None "createdBy (user ID) is required"), st)
      else
        let finish (inserted : list asset) (errors : list writeError) (st' : S) :=
          (Sent (send 201
             (Some {[ "created" := DNum (Z.of_nat (length inserted));
                      "failed" := DNum (Z.of_nat (length errors));
                      "assets" := DObjects inserted;
                      "errors" := DObjects (bulkErrorOf <$> errors) ]})
             (JsString.ofNat (length inserted) +:+ " assets created, "
              +:+ JsString.ofNat (length errors) +:+ " failed")), st') in
        match insertMany st (assetsWithCreator assets (bk_createdBy req)) with
        | (inr docs, st') => finish docs [] st'
        | (inl err, st') =>
            match err_insertedDocs err with
            | Some docs => finish docs (default [] (err_writeErrors err)) st'
            | None => (Next err, st')
            end
        end
  end.

(** What the client receives: the handler's response, or the error
    handler's when the handler called [next(err)]. *)
Definition served (o : outcome) : error + response :=
  match o with
  | Sent r => inr r
  | Next e => errorHandler e
  end.

End Handlers.

(** A store that also keeps the batches handed to [insertMany], in call
    order. *)
Definition recording {S : Type}
    (insertMany : S -> list asset -> (error + list asset) * S)
    (st : S * list (list asset)) (batch : list asset)
  : (error + list asset) * (S * list (list asset)) :=
  let '(r, s') := insertMany st.1 batch in
  (r, (s', st.2 ++ [batch])).

(** ** The asset store *)

Module AssetStore.
Section AssetStore.

(** [v.toString()] for a number, a boolean or a date, which the cast of a
    String path calls: a function of the runtime (the text of a date
    depends on the time zone of the host). *)
Variable toString : value -> string.
(** The document the model builds from a record it accepts. *)
Variable document : asset -> asset.
(** The text of the database's write error for a record it refuses for
    another reason than the unique index, if it refuses it. *)
Variable constraintError : asset -> option string.
(** The text of the duplicate-key error for a serial number. *)
Variable duplicateErrmsg : list nat -> string.
(** What [insertMany] does with a batch in which a record fails the
    validation of the schema; the schema does not say. *)
Variable invalidOutcome : list asset -> list asset -> (error + list asset) * list asset.

(** The cast of a path of type String: [null] and [undefined] stay, a
    string is itself, any other value is its [toString()]. *)
Definition castString (v : value) : option string :=
  match v with
  | VUndefined | VNull => None
  | VStr s => Some s
  | _ => Some (toString v)
  end.

(** The path [serialNumber: { type: String, required: true, unique: true,
    trim: true, uppercase: true }] of the schema: the serial number the
    document of a record holds, cast, trimmed and in upper case (trimming
    and upper-casing commute); [None] when there is none or it is empty,
    and [required] fails. *)
Definition serialKey (a : asset) : option (list nat) :=
  match castString (get a "serialNumber") with
  | Some s =>
      match JsString.toUpperCase (JsString.trim s) with
      | [] => None
      | k => Some k
      end
  | None => None
  end.

Definition serialKeys (st : list asset) : list (list nat) := omap serialKey st.

(** The verdict on one record with the serial number [k], when the
    documents of the records [st] are persisted: the text of the write
    error, or the record. *)
Definition accept (st : list asset) (k : list nat) (a : asset) : string + asset :=
  match constraintError a with
  | Some msg => inl msg
  | None =>
      if bool_decide (k ∈ serialKeys st) then inl (duplicateErrmsg k) else inr a
  end.

(** Every record of the batch is tried, whatever happened to the ones
    before it ([ordered: false]); [index] is the position of the head of
    [batch].  [None] when a record has no serial number. *)
Fixpoint insertEach (index : nat) (batch : list asset) (st : list asset)
  : option (list asset * list asset * list writeError) :=
  match batch with
  | [] => Some (st, [], [])
  | a :: rest =>
      match serialKey a with
      | None => None
      | Some k =>
          match accept st k a with
          | inl msg =>
              match insertEach (S index) rest st with
              | Some (st', docs, errs) =>
                  Some (st', docs,
                        {| we_index := index; we_errmsg := Some msg;
                           we_message := None |} :: errs)
              | None => None
              end
          | inr doc =>
              match insertEach (S index) rest (st ++ [doc]) with
              | Some (st', docs, errs) => Some (st', doc :: docs, errs)
              | None => None
              end
          end
      end
  end.

Definition bulkWriteError (docs : list asset) (errs : list writeError) : error :=
  {| err_name := "BulkWriteError"; err_message := None;
     err_statusCode := None; err_code := None; err_keyValue := None;
     err_errors := None;
     err_insertedDocs := Some docs; err_writeErrors := Some errs |}.

(** [Asset.insertMany(batch, { ordered: false })] on the collection of the
    Asset model.  The state is the list of the records whose documents are
    persisted.  The unique index on [serialNumber] refuses a record whose
    serial number, as the schema normalises it, is that of a persisted
    document; a refusal does not block the records after it; the call
    resolves with the documents when no record was refused and rejects
    with the documents inserted and the write errors [{index, errmsg}]
    otherwise, which is the shape the [catch] of the handlers reads. *)
Definition insertMany (st : list asset) (batch : list asset)
  : (error + list asset) * list asset :=
  match insertEach 0 batch st with
  | None => invalidOutcome st batch
  | Some (st', docs, errs) =>
      match errs with
      | [] => (inr (document <$> docs), st')
      | _ => (inl (bulkWriteError (document <$> docs) errs), st')
      end
  end.

End AssetStore.
End AssetStore.

(** ** Reading a row by schema field *)

(** Whether the header [key] is an alias of [field]. *)
Definition mapsTo (field key : string) : bool :=
  bool_decide (columnMap !! JsString.trim (JsString.toLowerCase key) = Some field).

(** The cell of the last column of [row] whose header is an alias of
    [field]; [None] when the row has no such column. *)
Definition lastMapped (field : string) (row : rawRow) : option value :=
  foldl (fun acc kv => if mapsTo field kv.1 then Some kv.2 else acc) None row.

(** The value of [asset[field]] once the columns are mapped. *)
Definition mappedValue (dateParse : string -> option Z) (field : string) (row : rawRow)
  : value :=
  default VUndefined (cellValue dateParse field <$> lastMapped field row).

(** The same for a field other than the date: the trimmed cell. *)
Definition mappedText (field : string) (row : rawRow) : value :=
  default VUndefined (trimCell <$> lastMapped field row).

(** A text field after the defaults. *)
Definition textOrNA (v : value) : value := if truthy v then v else VStr "NA".

(** The device cell is absent, falsy, or a string: the device step can
    call [toLowerCase] on it. *)
Definition deviceCallable (row : rawRow) : bool :=
  match textOrNA (mappedText "device" row) with
  | VStr _ => true
  | _ => false
  end.

(** The serial cell is absent, empty, or the placeholder. *)
Definition serialMissing (row : rawRow) : bool :=
  negb (truthy (mappedText "serialNumber" row))
  || strictEqStr (mappedText "serialNumber" row) "NA".

(** The device the device step writes for the text [dev]. *)
Definition deviceFor (dev : string) : string :=
  match List.find (fun d => String.eqb (JsString.toLowerCase d)
                                       (JsString.toLowerCase dev))
                  validDevices with
  | Some d => d
  | None => "Other"
  end.



(** The asset before the device step. *)
Definition defaulted (dateParse : string -> option Z) (createdBy : value)
    (row : rawRow) : asset :=
  foldl defaultText (mapColumns dateParse createdBy row) textFields.

(** The schema fields the column map can name. *)
Definition schemaFields : list string :=
  ["serialNumber"; "companyName"; "branch"; "department"; "userName"; "brand";
   "device"; "deviceSerialNo"; "operatingSystem"; "dateOfPurchase"; "remark";
   "status"].

(** The keys a header can write besides the schema fields: those of the
    inherited columns. *)
Definition inheritedFields : list string := inheritedColumns.*2.

(** Every key the column map can name. *)
Definition columnFields : list string := schemaFields ++ inheritedFields.

(** What [transformRow] returns for [row], field by field: [a] is the
    asset, [n] the number of clock reads before the row and [n'] after. *)
Record rowResult (clock : nat -> Z) (dateParse : string -> option Z)
    (createdBy : value) (row : rawRow) (index n : nat) (a : asset) (n' : nat)
  : Prop := {
  rr_text : forall f, f ∈ textFields -> f ≠ "device" ->
      get a f = textOrNA (mappedText f row);
  rr_device : exists dev,
      textOrNA (mappedText "device" row) = VStr dev
      /\ get a "device" = VStr (deviceFor dev);
  rr_status :
      get a "status"
      = if truthy (mappedText "status" row) then mappedText "status" row
        else VStr "Active";
  rr_date :
      get a "dateOfPurchase"
      = if truthy (mappedValue dateParse "dateOfPurchase" row)
        then mappedValue dateParse "dateOfPurchase" row
        else VDate (clock n);
  rr_serial :
      get a "serialNumber"
      = if serialMissing row
        then VStr (generatedSerial
                     (clock (if truthy (mappedValue dateParse "dateOfPurchase" row)
                             then n else S n)) index)
        else mappedText "serialNumber" row;
  rr_rowIndex : get a "_rowIndex" = VNum (Z.of_nat index + 2);
  rr_createdBy : get a "createdBy" = createdBy;
  rr_reads :
      n' = (n + (if truthy (mappedValue dateParse "dateOfPurchase" row) then 0 else 1)
            + (if serialMissing row then 1 else 0))%nat;
}.

(** ** Reading a generated serial back *)

Fixpoint hasDash (s : string) : bool :=
  match s with
  | EmptyString => false
  | String x s' => Ascii.eqb x "-" || hasDash s'
  end.

(** The part of [s] after its last hyphen. *)
Fixpoint lastField (s : string) : string :=
  match s with
  | EmptyString => EmptyString
  | String x s' =>
      if hasDash s' then lastField s'
      else if Ascii.eqb x "-" then s' else s
  end.

(** The number a string of decimal digits denotes. *)
Definition parseDigits (s : string) : option nat :=
  Nat.of_uint <$> NilEmpty.uint_of_string s.

(** The row number a generated serial ends with. *)
Definition serialIndex (serial : string) : option nat :=
  parseDigits (lastField serial).

(** The UTC calendar date of a time value. *)
Definition utcDate (now : Z) : Z * Z * Z :=
  JsDate.civilFromDays (now / JsDate.msPerDay).

(** The milliseconds of a time value since the start of its UTC day. *)
Definition utcTime (now : Z) : Z := (now mod JsDate.msPerDay)%Z.

(** ** Sample inputs *)

Definition sampleClock (k : nat) : Z := (1793664000123 + 1000 * Z.of_nat k)%Z.

(** A [Date.parse] that knows one date and rejects the rest. *)
Definition sampleDateParse (s : string) : option Z :=
  if String.eqb s "2024-01-15" then Some 1705276800000%Z else None.

Definition rowBlankDevice : rawRow :=
  [("Company", VStr "Acme"); ("Device", VStr "")].

Definition rowLowercaseDevice : rawRow :=
  [("Company", VStr "Acme"); ("Device Type", VStr " laptop ")].

Definition rowNumericDevice : rawRow :=
  [("Company", VStr "Acme"); ("Device", VNum 5)].

Definition rowBadDate : rawRow :=
  [("Sr No", VStr "A-1"); ("User", VStr "Jane"); ("Purchase Date", VStr "soon")].

Definition rowNoSerial : rawRow :=
  [("Sr No", VStr ""); ("Company", VStr "Acme"); ("Dept", VStr "Eng");
   ("User", VStr "Jane")].

(** A row without serial number whose device cell is a number. *)
Definition rowNoSerialNumericDevice : rawRow :=
  [("Sr No", VStr ""); ("Company", VStr "Acme"); ("Device", VNum 5)].

(** A row with a header that spells an inherited key of [columnMap]. *)
Definition rowConstructor : rawRow :=
  [("Company", VStr "Acme"); ("Constructor", VStr " x ")].

Definition rowAllBlank : rawRow :=
  [("Sr No", VStr ""); ("Company", VStr "  "); ("Dept", VStr "");
   ("Colour", VStr "red")].

(** Whether the guards of [bulkCreateAssets] reject the request. *)
Definition bulkRejected (req : bulkRequest) : Prop :=
  match bk_assets req with
  | Missing | NotAnArray _ => True
  | AnArray assets =>
      assets = [] \/ (1000 < length assets)%nat \/ truthy (bk_createdBy req) = false
  end.

(** A connection failure: an error without [insertedDocs] and without
    [writeErrors]. *)
Definition networkError : error :=
  {| err_name := "MongoNetworkError"; err_message := Some "connection lost";
     err_statusCode := None; err_code := None; err_keyValue := None;
     err_errors := None; err_insertedDocs := None; err_writeErrors := None |}.

(** A store that cannot be reached: every [insertMany] rejects. *)
Definition storeDown (st : list asset) (batch : list asset)
  : (error + list asset) * list asset :=
  (inl networkError, st).

Definition sampleAsset : asset :=
  {[ "serialNumber" := VStr "it-001"; "companyName" := VStr "Acme";
     "createdBy" := VStr "someone-else" ]}.

Definition sampleBulk : bulkRequest :=
  {| bk_assets := AnArray [sampleAsset]; bk_createdBy := VStr "u1" |}.


Definition sampleUpload (rows : list rawRow) : uploadRequest :=
  {| up_file := Some (inr rows); up_createdBy := VStr "u1" |}.

(** The body of the 400 response of [uploadExcel] when no row is kept. *)
Definition noValidRecords (rawData : list rawRow) : response :=
  send 400
    (Some {[ "detectedHeaders" := DStrings (match rawData with
                                            | row :: _ => row.*1
                                            | [] => []
                                            end);
             "message" := DStr "All rows appear to be empty. Make sure your Excel has data in at least one of these columns.";
             "expectedColumns" := DStrings expectedColumns ]})
    "No valid records found. Check that your Excel has data.".




(** A sample of the store's parameters: the text of a duplicate-key error,
    no other refusal by the database, the text of numbers and booleans
    (the samples hold no date), documents that are the records, and a
    validation error for a batch with an invalid record. *)
Definition sampleDuplicateErrmsg (k : list nat) : string :=
  "E11000 duplicate key error collection: it_assets_db.assets index: serialNumber_1".

Definition noConstraint (a : asset) : option string := None.

Definition sampleToString (v : value) : string :=
  match v with
  | VNum n => JsString.ofZ n
  | VBool true => "true"
  | VBool false => "false"
  | _ => ""
  end.

Definition sampleDocument (a : asset) : asset := a.

Definition sampleInvalid (st batch : list asset) : (error + list asset) * list asset :=
  (inl {| err_name := "ValidationError";
          err_message := Some "Asset validation failed";
          err_statusCode := None; err_code := None; err_keyValue := None;
          err_errors := Some ["Path `serialNumber` is required."];
          err_insertedDocs := None; err_writeErrors := None |}, st).

Definition sampleInsertMany : list asset -> list asset -> (error + list asset) * list asset :=
  AssetStore.insertMany sampleToString sampleDocument noConstraint
    sampleDuplicateErrmsg sampleInvalid.

Definition sampleStore : list asset :=
  [ {[ "serialNumber" := VStr "IT-001"; "companyName" := VStr "Acme" ]} ].


(** The field [f] of the row a normaliser run returned; [None] when the
    run threw or the row has no such field. *)
Definition rowField (run : error + (asset * nat)) (f : string) : option value :=
  match run with
  | inr (a, _) => a !! f
  | inl _ => None
  end.

(** The rows [transformRows] returns for two sample rows, and the clock
    reads it makes. *)
Definition sampleRows : list rawRow := [rowNoSerial; rowAllBlank].

Definition sampleAssets : list asset :=
  match transformRows sampleClock sampleDateParse (VStr "u1") sampleRows 0 0 with
  | inr (assets, _) => assets
  | inl _ => []
  end.

Definition sampleReads : nat :=
  match transformRows sampleClock sampleDateParse (VStr "u1") sampleRows 0 0 with
  | inr (_, n) => n
  | inl _ => 0%nat
  end.

(** The keys of a normalised row. *)
Definition rowKeys : list string :=
  ["createdBy"; "serialNumber"; "companyName"; "branch"; "department"; "userName";
   "brand"; "device"; "deviceSerialNo"; "operatingSystem"; "dateOfPurchase";
   "remark"; "status"; "_rowIndex"].

(** ** Listing: pagination and exact-match filters *)

Module Listing.

(** A number of the listing arithmetic: an integer, or NaN ([None]).  The
    code computes with doubles, which agree with the integers here as long
    as every number is at most [maxSafeInteger] in absolute value; beyond
    it the code rounds. *)
Definition num : Type := option Z.

(** [Number.MAX_SAFE_INTEGER], 2^53 - 1. *)
Definition maxSafeInteger : Z := 9007199254740991.

(** The largest page whose [skip] and [nextPage] are exact for every page
    size up to 100. *)
Definition maxSafePage : Z := 90071992547409.

(** The value of a digit in a radix, as [parseInt] reads it. *)
Definition digitVal (radix : Z) (c : ascii) : option Z :=
  let n := Z.of_nat (nat_of_ascii c) in
  let v := if ((48 <=? n) && (n <=? 57))%Z then Some (n - 48)%Z
           else if ((97 <=? n) && (n <=? 122))%Z then Some (n - 87)%Z
           else if ((65 <=? n) && (n <=? 90))%Z then Some (n - 55)%Z
           else None in
  match v with
  | Some d => if (d <? radix)%Z then Some d else None
  | None => None
  end.

(** The number written by the longest prefix of digits of [s]; [acc] is
    what has been read so far, [None] while no digit has been. *)
Fixpoint digitsPrefix (radix : Z) (acc : option Z) (s : string) : option Z :=
  match s with
  | EmptyString => acc
  | String c s' =>
      match digitVal radix c with
      | Some d => digitsPrefix radix (Some (default 0%Z acc * radix + d)%Z) s'
      | None => acc
      end
  end.

(** [parseInt(s)] without a radix: leading white space, a sign, "0x" or
    "0X" for radix 16, then the digits; NaN when there is no digit.  The
    result is the integer the digits write, which is the number of the
    code up to [maxSafeInteger]. *)
Definition parseInt (s : string) : num :=
  let s1 := JsString.trimStart s in
  let '(sign, s2) :=
    match s1 with
    | String "-" r => ((-1)%Z, r)
    | String "+" r => (1%Z, r)
    | _ => (1%Z, s1)
    end in
  let '(radix, s3) :=
    match s2 with
    | String "0" (String "x" r) | String "0" (String "X" r) => (16%Z, r)
    | _ => (10%Z, s2)
    end in
  match digitsPrefix radix None s3 with
  | Some v => Some (sign * v)%Z
  | None => None
  end.

(** [Math.max(a, x)] and [Math.min(a, x)] for a number [a]. *)
Definition mathMax (a : Z) (x : num) : num := Z.max a <$> x.
Definition mathMin (a : Z) (x : num) : num := Z.min a <$> x.

(** [x < y]: false when either is NaN. *)
Definition lt (x y : num) : bool :=
  match x, y with
  | Some a, Some b => (a <? b)%Z
  | _, _ => false
  end.

(** [Math.ceil(total / pageLimit)] for a count and a limit of at least 1. *)
Definition ceilDiv (total : Z) (pageLimit : num) : num :=
  (fun l => (- ((- total) / l))%Z) <$> pageLimit.

Record pagination : Type := {
  currentPage : num;
  totalPages : num;
  totalItems : Z;
  itemsPerPage : num;
  itemsOnPage : nat;
  hasNextPage : bool;
  hasPrevPage : bool;
  nextPage : option num;
  prevPage : option num;
}.

(** [page] and [limit] are the query parameters as strings, [None] when
    absent (they then default to 1 and 20). *)
Definition currentPageOf (page : option string) : num :=
  mathMax 1 (parseInt (default "1" page)).

Definition pageLimitOf (limit : option string) : num :=
  mathMax 1 (mathMin 100 (parseInt (default "20" limit))).

(** [skip]: the number of documents before the page. *)
Definition skipOf (page limit : option string) : num :=
  match currentPageOf page, pageLimitOf limit with
  | Some c, Some l => Some ((c - 1) * l)%Z
  | _, _ => None
  end.

(** The [pagination] object of [getAllAssets], for [total] matching
    documents of which [onPage] were fetched. *)
Definition paginate (page limit : option string) (total : Z) (onPage : nat)
  : pagination :=
  let currentPage := currentPageOf page in
  let pageLimit := pageLimitOf limit in
  let totalPages := ceilDiv total pageLimit in
  {| currentPage := currentPage;
     totalPages := totalPages;
     totalItems := total;
     itemsPerPage := pageLimit;
     itemsOnPage := onPage;
     hasNextPage := lt currentPage totalPages;
     hasPrevPage := lt (Some 1%Z) currentPage;
     nextPage := if lt currentPage totalPages
                 then Some ((fun c => c + 1)%Z <$> currentPage) else None;
     prevPage := if lt (Some 1%Z) currentPage
                 then Some ((fun c => c - 1)%Z <$> currentPage) else None |}.

(** [s.split(sep)] for a one-character separator. *)
Fixpoint split (sep : ascii) (s : string) : list string :=
  match s with
  | EmptyString => [EmptyString]
  | String c s' =>
      if Ascii.eqb c sep then EmptyString :: split sep s'
      else match split sep s' with
           | h :: t => String c h :: t
           | [] => [String c EmptyString]
           end
  end.

(** A query parameter: a string, or the array or object the query parser
    makes of a repeated or bracketed key. *)
Inductive queryParam : Type :=
| QString (s : string)
| QOther.

(** What [query[f]] is set to. *)
Inductive condition : Type :=
| CEq (v : option string)
| CIn (values : list string).

(** [filters[f].split(',').map(v => v.trim()).filter(Boolean)] *)
Definition valuesOf (raw : string) : list string :=
  List.filter (fun v => negb (String.eqb v ""))
              (JsString.trim <$> split "," raw).

(** [values.length > 1 ? { $in: values } : values[0]] *)
Definition conditionOf (raw : string) : condition :=
  let values := valuesOf raw in
  if (1 <? length values)%nat then CIn values else CEq (head values).

(** The body of the [forEach] over the exact-match fields. *)
Definition exactFilter (filters : gmap string queryParam)
    (query : error + gmap string condition) (f : string)
  : error + gmap string condition :=
  match query with
  | inl e => inl e
  | inr q =>
      match filters !! f with
      | Some (QString raw) =>
          if negb (String.eqb raw "") then inr (<[f := conditionOf raw]> q)
          else inr q
      | Some QOther => inl (typeError "filters[f].split is not a function")
      | None => inr q
      end
  end.

Definition exactFilters (fields : list string) (filters : gmap string queryParam)
  : error + gmap string condition :=
  foldl (exactFilter filters) (inr ∅) fields.

(** The exact-match fields of [getAllAssets] and of [exportAssets]. *)
Definition listFields : list string :=
  ["companyName"; "branch"; "department"; "status"; "device"; "brand";
   "operatingSystem"].

Definition exportFields : list string :=
  ["companyName"; "branch"; "department"; "status"; "device"; "brand"].

End Listing.

(** ** Creating one asset *)

Module SingleAsset.

(** What [send] sends when the data is a document. *)
Record response : Type := {
  status : Z;
  success : bool;
  data : option asset;
  message : string;
}.

Definition send (status : Z) (data : option asset) (message : string) : response :=
  {| status := status; success := (status <? 400)%Z; data := data;
     message := message |}.

Inductive outcome : Type :=
| Sent (r : response)
| Next (e : error).

(** [v.toUpperCase()] for a value of the request body, as code units. *)
Definition toUpperCaseOf (v : value) : error + list nat :=
  match v with
  | VStr s => inr (JsString.toUpperCase s)
  | VUndefined =>
      inl (typeError "Cannot read properties of undefined (reading 'toUpperCase')")
  | VNull =>
      inl (typeError "Cannot read properties of null (reading 'toUpperCase')")
  | _ => inl (typeError "serialNumber.toUpperCase is not a function")
  end.

Section Handlers.

(** The store: [Asset.exists({ serialNumber })], which resolves to whether
    a document has the serial (given by its code units) or rejects, and
    [Asset.create(doc)]. *)
Variable S : Type.
Variable existsSerial : S -> list nat -> error + bool.
Variable create : S -> asset -> (error + asset) * S.

Definition createAsset (body : asset) (st : S) : outcome * S :=
  let serialNumber := get body "serialNumber" in
  let createdBy := get body "createdBy" in
  if negb (truthy createdBy)
  then (Sent (send 400 None "createdBy (user ID) is required"), st)
  else
    match toUpperCaseOf serialNumber with
    | inl e => (Next e, st)
    | inr upper =>
        match existsSerial st upper with
        | inl e => (Next e, st)
        | inr true =>
            (Sent (send 409 None "Asset with this serial number already exists"), st)
        | inr false =>
            match create st body with
            | (inr doc, st') => (Sent (send 201 (Some doc) "Asset created"), st')
            | (inl e, st') => (Next e, st')
            end
        end
    end.

End Handlers.

(** A [create] that also keeps the documents it is handed. *)
Definition recordingCreate {S : Type} (create : S -> asset -> (error + asset) * S)
    (st : S * list asset) (doc : asset) : (error + asset) * (S * list asset) :=
  let '(r, s') := create st.1 doc in
  (r, (s', st.2 ++ [doc])).

End SingleAsset.

(** ** The earlier revision of the controller *)

Module Earlier.

(** The body of the 201 response of the earlier [bulkCreateAssets]. *)
Record bulkBody : Type := {
  bb_created : nat;
  bb_assets : list asset;
}.

Record bulkResponse : Type := {
  br_status : Z;
  br_success : bool;
  br_data : option bulkBody;
  br_message : string;
}.

Definition sendBulk (status : Z) (data : option bulkBody) (message : string)
  : bulkResponse :=
  {| br_status := status; br_success := (status <? 400)%Z; br_data := data;
     br_message := message |}.

Inductive bulkOutcome : Type :=
| BulkSent (r : bulkResponse)
| BulkNext (e : error).

Definition columnMapEntries : list (string * string) :=
  [ ("serialnumber", "serialNumber"); ("serial number", "serialNumber"); ("serial_number", "serialNumber");
     ("sn", "serialNumber"); ("companyname", "companyName"); ("company name", "companyName");
     ("company", "companyName"); ("branch", "branch"); ("department", "department");
     ("dept", "department"); ("username", "userName"); ("user name", "userName");
     ("user", "userName"); ("name", "userName"); ("brand", "brand");
     ("device", "device"); ("device type", "device"); ("devicetype", "device");
     ("deviceserialno", "deviceSerialNo"); ("device serial no", "deviceSerialNo"); ("device serial", "deviceSerialNo");
     ("device_serial", "deviceSerialNo"); ("operatingsystem", "operatingSystem"); ("operating system", "operatingSystem");
     ("os", "operatingSystem"); ("dateofpurchase", "dateOfPurchase"); ("date of purchase", "dateOfPurchase");
     ("purchase date", "dateOfPurchase"); ("purchasedate", "dateOfPurchase"); ("remark", "remark");
     ("remarks", "remark"); ("notes", "remark"); ("comment", "remark");
     ("status", "status") ].

(** The object literal [columnMap] of the earlier revision, with the two
    inherited keys as in [inheritedColumns]. *)
Definition columnMap : gmap string string :=
  foldl (fun m kv => <[kv.1 := kv.2]> m) (list_to_map inheritedColumns)
        columnMapEntries.

Definition requiredFields : list string :=
  ["serialNumber"; "companyName"; "branch"; "department"; "userName"; "brand";
   "device"; "deviceSerialNo"; "dateOfPurchase"].

(** An entry of [validationErrors]. *)
Record validationError : Type := {
  ve_row : value;
  ve_missing : list string;
  ve_serialNumber : value;
}.

(** The data of the responses of the earlier [uploadExcel]. *)
Inductive uploadBody : Type :=
| NoValid (validationErrors : list validationError)
| Report (totalRows created failed : nat)
         (validationErrors : list validationError)
         (insertErrors : list (gmap string value)).

Record uploadResponse : Type := {
  ur_status : Z;
  ur_success : bool;
  ur_data : option uploadBody;
  ur_message : string;
}.

Definition sendUpload (status : Z) (data : option uploadBody) (message : string)
  : uploadResponse :=
  {| ur_status := status; ur_success := (status <? 400)%Z; ur_data := data;
     ur_message := message |}.

Inductive uploadOutcome : Type :=
| UploadSent (r : uploadResponse)
| UploadNext (e : error).

Section Handlers.

Variable S : Type.
Variable insertMany : S -> list asset -> (error + list asset) * S.
Variable dateParse : string -> option Z.

(** The earlier [bulkCreateAssets]: at most 100 assets, no [createdBy]. *)
Definition bulkCreateAssets (assets : assetsField) (st : S) : bulkOutcome * S :=
  match assets with
  | Missing | NotAnArray _ => (BulkSent (sendBulk 400 None "Provide an array of assets"), st)
  | AnArray assets =>
      if (length assets =? 0)%nat
      then (BulkSent (sendBulk 400 None "Provide an array of assets"), st)
      else if (100 <? length assets)%nat
      then (BulkSent (sendBulk 400 None "Maximum 100 assets allowed"), st)
      else
        let finish (inserted : list asset) (st' : S) :=
          (BulkSent (sendBulk 201
             (Some {| bb_created := length inserted; bb_assets := inserted |})
             (JsString.ofNat (length inserted) +:+ " assets created")), st') in
        match insertMany st assets with
        | (inr docs, st') => finish docs st'
        | (inl err, st') =>
            match err_insertedDocs err with
            | Some docs => finish docs st'
            | None => (BulkNext err, st')
            end
        end
  end.

(** The body of [Object.keys(row).forEach] of the earlier [uploadExcel]. *)
Definition mapColumn (a : asset) (kv : string * value) : asset :=
  let normalizedKey := JsString.trim (JsString.toLowerCase kv.1) in
  match columnMap !! normalizedKey with
  | Some schemaField =>
      if truthy (VStr schemaField)
      then <[schemaField := cellValue dateParse schemaField kv.2]> a
      else a
  | None => a
  end.

(** The callback of [rawData.map]: the mapped columns and the row number,
    with no default. *)
Definition transformRow (createdBy : value) (row : rawRow) (index : nat) : asset :=
  <["_rowIndex" := VNum (Z.of_nat index + 2)]>
    (foldl mapColumn {["createdBy" := createdBy]} row).

Definition transformRows (createdBy : value) (rows : list rawRow) : list asset :=
  imap (fun index row => transformRow createdBy row index) rows.

(** [requiredFields.filter(f => !asset[f])] *)
Definition missingOf (a : asset) : list string :=
  List.filter (fun f => negb (truthy (get a f))) requiredFields.

(** The body of [assets.forEach] that sorts the rows into [validAssets]
    and [validationErrors]. *)
Definition validateRow (acc : list asset * list validationError) (a : asset)
  : list asset * list validationError :=
  let missing := missingOf a in
  if negb (length missing =? 0)%nat then
    (acc.1,
     acc.2 ++ [ {| ve_row := get a "_rowIndex"; ve_missing := missing;
                   ve_serialNumber := if truthy (get a "serialNumber")
                                      then get a "serialNumber"
                                      else VStr "N/A" |} ])
  else (acc.1 ++ [delete "_rowIndex" a], acc.2).

Definition validate (assets : list asset) : list asset * list validationError :=
  foldl validateRow ([], []) assets.

Definition uploadCatch (err : error) : uploadOutcome :=
  match err_message err with
  | Some m => if JsString.includes "Encrypted" m
              then UploadSent (sendUpload 400 None
                                 "Cannot read password-protected Excel files")
              else UploadNext err
  | None => UploadNext err
  end.

Definition uploadExcel (req : uploadRequest) (st : S) : option (uploadOutcome * S) :=
  match up_file req with
  | None => Some (UploadSent (sendUpload 400 None "Please upload an Excel file"), st)
  | Some parsed =>
      let createdBy := up_createdBy req in
      if negb (truthy createdBy)
      then Some (UploadSent (sendUpload 400 None "createdBy (user ID) is required"), st)
      else
        match parsed with
        | inl err => Some (uploadCatch err, st)
        | inr rawData =>
            if (length rawData =? 0)%nat
            then Some (UploadSent (sendUpload 400 None "Excel file is empty"), st)
            else if (5000 <? length rawData)%nat
            then Some (UploadSent (sendUpload 400 None
                                     "Maximum 5000 records allowed per file"), st)
            else
              let '(validAssets, validationErrors) :=
                validate (transformRows createdBy rawData) in
              if (length validAssets =? 0)%nat
              then Some (UploadSent (sendUpload 400 (Some (NoValid validationErrors))
                                       "No valid records found"), st)
              else
                match insertLoop S insertMany (length validAssets) 0 validAssets st
                        {| inserted := []; errors := [] |} with
                | None => None
                | Some (st', r) =>
                    let failed := (length (errors r) + length validationErrors)%nat in
                    Some (UploadSent (sendUpload 201
                      (Some (Report (length rawData) (length (inserted r)) failed
                               (take 50 validationErrors) (take 50 (errors r))))
                      ("Excel processed: " +:+ JsString.ofNat (length (inserted r))
                       +:+ " created, " +:+ JsString.ofNat failed +:+ " failed")), st')
                end
        end
  end.

End Handlers.

End Earlier.

(** Whether the character [c] occurs in [s]. *)
Fixpoint occurs (c : ascii) (s : string) : bool :=
  match s with
  | EmptyString => false
  | String x s' => Ascii.eqb x c || occurs c s'
  end.

(** What the exact-match filter [f] contributes to the query. *)
Definition exactCondition (filters : gmap string Listing.queryParam) (f : string)
  : option Listing.condition :=
  match filters !! f with
  | Some (Listing.QString raw) =>
      if String.eqb raw "" then None else Some (Listing.conditionOf raw)
  | _ => None
  end.

(** ** Sample inputs for the other handlers *)

(** A store of documents for [createAsset]: a serial exists when a document
    has it, and every document is accepted. *)
Definition sampleExists (st : list asset) (s : list nat) : error + bool :=
  inr (existsb (fun a => match a !! "serialNumber" with
                         | Some (VStr k) => bool_decide (JsString.units k = s)
                         | _ => false
                         end) st).

Definition sampleCreate (st : list asset) (doc : asset) : (error + asset) * list asset :=
  (inr doc, st ++ [doc]).

Definition sampleBody : asset :=
  {[ "serialNumber" := VStr "it-002"; "createdBy" := VStr "u1" ]}.

(** A store that accepts every batch. *)
Definition acceptAll (st : list asset) (batch : list asset)
  : (error + list asset) * list asset :=
  (inr batch, st ++ batch).

(** A row with every column the earlier revision requires. *)
Definition rowComplete : rawRow :=
  [("SN", VStr "A-1"); ("Company", VStr "Acme"); ("Branch", VStr "Pune");
   ("Dept", VStr "Eng"); ("User", VStr "Jane"); ("Brand", VStr "Dell");
   ("Device", VStr "Laptop"); ("Device Serial", VStr "D-1");
   ("Purchase Date", VStr "2024-01-15")].

(** Whether the row has every field the earlier revision requires. *)
Definition complete (a : asset) : bool :=
  forallb (fun f => truthy (get a f)) Earlier.requiredFields.

(** The entry of [validationErrors] for a row. *)
Definition rowError (a : asset) : Earlier.validationError :=
  {| Earlier.ve_row := get a "_rowIndex";
     Earlier.ve_missing := Earlier.missingOf a;
     Earlier.ve_serialNumber := if truthy (get a "serialNumber")
                                then get a "serialNumber" else VStr "N/A" |}.

(** * Properties *)

(** ** The column map *)

Lemma foldl_insert_lookup (entries : list (string * string)) :
  forall (m : gmap string string) k f,
    foldl (fun m kv => <[kv.1 := kv.2]> m) m entries !! k = Some f ->
    m !! k = Some f \/ (k, f) ∈ entries.
Proof.
  induction entries as [|[k' f'] entries IH]; intros m k f H; simpl in H.
  - by left.
  - apply IH in H as [H|H].
    + destruct (decide (k' = k)) as [->|Hne].
      * rewrite lookup_insert_eq in H. injection H as ->. right. apply list_elem_of_here.
      * rewrite lookup_insert_ne in H by done. by left.
    + right. by apply list_elem_of_further.
Qed.

Lemma columnMap_fields k f :
  columnMap !! k = Some f -> f ∈ columnFields.
Proof.
  intros H. unfold columnFields. apply elem_of_app.
  apply foldl_insert_lookup in H as [H|H].
  - right. apply elem_of_list_to_map_2 in H.
    unfold inheritedFields. apply list_elem_of_fmap. by exists (k, f).
  - left.
    assert (Forall (fun kv : string * string => kv.2 ∈ schemaFields) columnMapEntries)
      as HF.
    { apply (bool_decide_unpack _). vm_compute. exact I. }
    rewrite Forall_forall in HF. exact (HF _ H).
Qed.

#[local] Opaque columnMap.

(** ** Objects *)

Lemma truthy_get_Some (a : asset) f : truthy (get a f) = true -> a !! f = Some (get a f).
Proof. unfold get. destruct (a !! f); simpl; [done | discriminate]. Qed.

Lemma get_insert_eq (a : asset) f v : get (<[f := v]> a) f = v.
Proof. unfold get. by rewrite lookup_insert_eq. Qed.

Lemma get_insert_ne (a : asset) f g v : f ≠ g -> get (<[f := v]> a) g = get a g.
Proof. intros. unfold get. by rewrite lookup_insert_ne. Qed.

Lemma serial_test_simpl v :
  negb (truthy v) || strictEqStr v "" || strictEqStr v "NA"
  = negb (truthy v) || strictEqStr v "NA".
Proof.
  destruct v as [| |b|z|x|t]; simpl; try done.
  all: try (rewrite !orb_false_r; done).
  destruct (String.eqb_spec x ""); [by subst | done].
Qed.

Lemma textOrNA_truthy v : truthy (textOrNA v) = true.
Proof. unfold textOrNA. destruct (truthy v) eqn:E; done. Qed.

Lemma defaultText_get (a : asset) g f :
  get (defaultText a g) f = if decide (f = g) then textOrNA (get a f) else get a f.
Proof.
  unfold defaultText, textOrNA. case_decide as E.
  - subst g. destruct (truthy (get a f)) eqn:T; simpl.
    + destruct (get a f) eqn:G; simpl in *; try done.
      destruct (String.eqb_spec s ""); simpl in *; [discriminate | done].
    + by rewrite get_insert_eq.
  - destruct (negb _ || _); [|done]. by rewrite get_insert_ne.
Qed.

Lemma foldl_defaultText_get fields : forall (a : asset) f,
  get (foldl defaultText a fields) f
  = if decide (f ∈ fields) then textOrNA (get a f) else get a f.
Proof.
  induction fields as [|g fields IH]; intros a f.
  - simpl foldl. destruct (decide (f ∈ [])) as [E|E]; [by apply elem_of_nil in E | done].
  - simpl foldl. rewrite IH, defaultText_get.
    destruct (decide (f ∈ g :: fields)) as [Hin|Hout].
    + destruct (decide (f = g)) as [->|Hne].
      * destruct (decide (g ∈ fields)); [|done].
        unfold textOrNA at 1. by rewrite textOrNA_truthy.
      * apply elem_of_cons in Hin as [?|Hin]; [done|].
        by rewrite decide_True.
    + apply not_elem_of_cons in Hout as [Hne Hout].
      rewrite decide_False by done. by rewrite decide_False.
Qed.

Section Normaliser.
Variable clock : nat -> Z.
Variable dateParse : string -> option Z.

Lemma cellValue_text f v : f ≠ "dateOfPurchase" -> cellValue dateParse f v = trimCell v.
Proof.
  intros Hf. unfold cellValue. destruct (String.eqb_spec f "dateOfPurchase"); done.
Qed.

Lemma mapColumn_lookup (a : asset) kv f :
  f ≠ "" ->
  mapColumn dateParse a kv !! f
  = if mapsTo f kv.1 then Some (cellValue dateParse f kv.2) else a !! f.
Proof.
  intros Hf. unfold mapColumn, mapsTo.
  destruct (columnMap !! _) as [g|] eqn:Hg.
  - case_bool_decide as Heq.
    + injection Heq as ->. cbn [truthy]. destruct (String.eqb_spec f ""); [done|].
      cbn [negb]. by rewrite lookup_insert_eq.
    + destruct (truthy (VStr g)); [|done].
      rewrite lookup_insert_ne; [done | congruence].
  - case_bool_decide; [discriminate | done].
Qed.

Lemma foldl_mapColumn_lookup row : forall (a : asset) acc base f,
  f ≠ "" ->
  a !! f = from_option (fun v => Some (cellValue dateParse f v)) base acc ->
  foldl (mapColumn dateParse) a row !! f
  = from_option (fun v => Some (cellValue dateParse f v)) base
      (foldl (fun acc kv => if mapsTo f kv.1 then Some kv.2 else acc) acc row).
Proof.
  induction row as [|kv row IH]; intros a acc base f Hf Ha; simpl; [done|].
  apply IH; [done|]. rewrite mapColumn_lookup by done.
  destruct (mapsTo f kv.1); done.
Qed.

Lemma mapColumns_lookup_gen createdBy row f :
  f ≠ "" ->
  mapColumns dateParse createdBy row !! f
  = match lastMapped f row with
    | Some v => Some (cellValue dateParse f v)
    | None => ({["createdBy" := createdBy]} : asset) !! f
    end.
Proof.
  intros Hf. unfold mapColumns, lastMapped.
  rewrite (foldl_mapColumn_lookup row _ None
             (({["createdBy" := createdBy]} : asset) !! f)) by done.
  by destruct (foldl _ None row).
Qed.

Lemma mapColumns_lookup createdBy row f :
  f ≠ "" -> f ≠ "createdBy" ->
  mapColumns dateParse createdBy row !! f
  = cellValue dateParse f <$> lastMapped f row.
Proof.
  intros Hf Hc. rewrite mapColumns_lookup_gen by done.
  destruct (lastMapped f row); [done|]. by rewrite lookup_singleton_ne.
Qed.

Lemma mapsTo_columnFields f key : mapsTo f key = true -> f ∈ columnFields.
Proof.
  unfold mapsTo. intros H. apply bool_decide_eq_true in H.
  by apply columnMap_fields in H.
Qed.

Lemma lastMapped_unknown f row : f ∉ columnFields -> lastMapped f row = None.
Proof.
  intros Hf. unfold lastMapped.
  assert (forall kv : string * value, mapsTo f kv.1 = false) as Hm.
  { intros kv. destruct (mapsTo f kv.1) eqn:E; [|done].
    by apply mapsTo_columnFields in E. }
  induction row as [|kv row IH] using rev_ind; [done|].
  rewrite foldl_app. simpl. by rewrite Hm.
Qed.

Lemma mapColumns_createdBy createdBy row :
  mapColumns dateParse createdBy row !! "createdBy" = Some createdBy.
Proof.
  rewrite mapColumns_lookup_gen by done.
  rewrite lastMapped_unknown; [by rewrite lookup_singleton_eq|].
  cbv [columnFields schemaFields inheritedFields inheritedColumns fmap list_fmap
       snd app].
  rewrite !elem_of_cons, elem_of_nil. intuition discriminate.
Qed.

Lemma get_mapColumns createdBy row f :
  f ≠ "" -> f ≠ "createdBy" ->
  get (mapColumns dateParse createdBy row) f = mappedValue dateParse f row.
Proof. intros. unfold get, mappedValue. by rewrite mapColumns_lookup. Qed.

Lemma mappedValue_text f row :
  f ≠ "dateOfPurchase" -> mappedValue dateParse f row = mappedText f row.
Proof.
  intros Hf. unfold mappedValue, mappedText.
  destruct (lastMapped f row); simpl; [|done]. by rewrite cellValue_text.
Qed.

Lemma get_defaulted createdBy row f :
  f ≠ "" -> f ≠ "createdBy" ->
  get (defaulted dateParse createdBy row) f
  = if decide (f ∈ textFields) then textOrNA (mappedValue dateParse f row)
    else mappedValue dateParse f row.
Proof.
  intros. unfold defaulted. rewrite foldl_defaultText_get, get_mapColumns; done.
Qed.

Lemma normalizeDevice_inr (a : asset) dev :
  get a "device" = VStr dev -> dev ≠ "" ->
  normalizeDevice a = inr (<["device" := VStr (deviceFor dev)]> a).
Proof.
  intros Hd Hne. unfold normalizeDevice, deviceFor. rewrite Hd. cbn [truthy].
  destruct (String.eqb_spec dev ""); [done|]. cbn [negb].
  destruct (List.find _ validDevices) as [d|] eqn:Hf; [|done].
  apply find_some in Hf as [Hin _].
  assert (d ≠ "") as Hd'.
  { intros ->. cbv [validDevices In] in Hin. intuition discriminate. }
  destruct (String.eqb_spec d ""); done.
Qed.

Lemma normalizeDevice_inl (a : asset) :
  truthy (get a "device") = true ->
  (forall dev, get a "device" ≠ VStr dev) ->
  normalizeDevice a = inl (typeError "asset.device.toLowerCase is not a function").
Proof.
  intros Ht Hn. unfold normalizeDevice. rewrite Ht.
  destruct (get a "device"); try done. by destruct (Hn s).
Qed.

Lemma defaulted_device createdBy row :
  get (defaulted dateParse createdBy row) "device" = textOrNA (mappedText "device" row).
Proof.
  rewrite get_defaulted by done. rewrite decide_True by (vm_compute; set_solver).
  by rewrite mappedValue_text.
Qed.
Ltac get_insert :=
  repeat (rewrite get_insert_eq || rewrite get_insert_ne by done).

Lemma transformRow_throws createdBy row index n :
  deviceCallable row = false ->
  transformRow clock dateParse createdBy row index n
  = inl (typeError "asset.device.toLowerCase is not a function").
Proof.
  intros Hc. unfold transformRow, bind, liftE. fold (defaulted dateParse createdBy row).
  rewrite normalizeDevice_inl; [done | |].
  - rewrite defaulted_device. apply textOrNA_truthy.
  - intros dev. rewrite defaulted_device. unfold deviceCallable in Hc.
    intros E. by rewrite E in Hc.
Qed.

Lemma transformRow_returns createdBy row index n :
  deviceCallable row = true ->
  exists a n',
    transformRow clock dateParse createdBy row index n = inr (a, n')
    /\ rowResult clock dateParse createdBy row index n a n'.
Proof.
  intros Hc. unfold deviceCallable in Hc.
  destruct (textOrNA (mappedText "device" row)) as [| | | |dev|] eqn:Hdev; try done.
  assert (dev ≠ "") as Hne.
  { intros ->. pose proof (textOrNA_truthy (mappedText "device" row)) as T.
    by rewrite Hdev in T. }
  pose proof (defaulted_device createdBy row) as Hd. rewrite Hdev in Hd.
  unfold transformRow, bind, liftE. fold (defaulted dateParse createdBy row).
  rewrite (normalizeDevice_inr _ dev) by done.
  set (d := <["device" := VStr (deviceFor dev)]> (defaulted dateParse createdBy row)).
  assert (forall f, f ≠ "device" -> f ≠ "" -> f ≠ "createdBy" ->
            get d f = if decide (f ∈ textFields)
                      then textOrNA (mappedValue dateParse f row)
                      else mappedValue dateParse f row) as Hget.
  { intros f ? ? ?. unfold d. rewrite get_insert_ne by done. by apply get_defaulted. }
  assert (get d "status" = mappedText "status" row) as Hst.
  { rewrite Hget by done. rewrite decide_False.
    - by apply mappedValue_text.
    - cbv [textFields]. rewrite !elem_of_cons, elem_of_nil. intuition discriminate. }
  assert (get d "dateOfPurchase" = mappedValue dateParse "dateOfPurchase" row) as Hdt.
  { rewrite Hget by done. rewrite decide_False; [done|].
    cbv [textFields]. rewrite !elem_of_cons, elem_of_nil. intuition discriminate. }
  assert (get d "serialNumber" = mappedText "serialNumber" row) as Hsn.
  { rewrite Hget by done. rewrite decide_False.
    - by apply mappedValue_text.
    - cbv [textFields]. rewrite !elem_of_cons, elem_of_nil. intuition discriminate. }
  assert (get d "createdBy" = createdBy) as Hcb.
  { unfold d. rewrite get_insert_ne by done. unfold defaulted.
    rewrite foldl_defaultText_get. rewrite decide_False.
    - unfold get. by rewrite mapColumns_createdBy.
    - cbv [textFields]. rewrite !elem_of_cons, elem_of_nil. intuition discriminate. }
  assert (forall f, f ∈ textFields -> f ≠ "device" ->
            get d f = textOrNA (mappedText f row)) as Htx.
  { intros f Hin Hnd.
    assert (f ≠ "" /\ f ≠ "createdBy" /\ f ≠ "dateOfPurchase") as (? & ? & ?).
    { cbv [textFields] in Hin. rewrite !elem_of_cons, elem_of_nil in Hin.
      intuition congruence. }
    rewrite Hget by done. rewrite decide_True by done. by rewrite mappedValue_text. }
  assert (forall f, f ∈ textFields ->
            f ≠ "status" /\ f ≠ "dateOfPurchase" /\ f ≠ "serialNumber"
            /\ f ≠ "_rowIndex") as Hsep.
  { intros f Hin. cbv [textFields] in Hin. rewrite !elem_of_cons, elem_of_nil in Hin.
    intuition congruence. }
  assert (get d "device" = VStr (deviceFor dev)) as Hdv.
  { unfold d. by rewrite get_insert_eq. }
  clearbody d.
  unfold defaultStatus, defaultDate, defaultSerial, needsSerial, newDate, ret.
  rewrite Hst.
  set (s := if negb (truthy (mappedText "status" row))
               || strictEqStr (mappedText "status" row) ""
            then <["status" := VStr "Active"]> d else d).
  assert (forall f, f ≠ "status" -> get s f = get d f) as Hs.
  { intros f ?. unfold s. destruct (_ || _); [by rewrite get_insert_ne | done]. }
  assert (get s "status" = if truthy (mappedText "status" row)
                           then mappedText "status" row else VStr "Active") as Hss.
  { unfold s. destruct (truthy (mappedText "status" row)) eqn:T; simpl.
    - destruct (mappedText "status" row) eqn:E; simpl in *; try done.
      destruct (String.eqb_spec s0 ""); simpl in *; [discriminate | done].
    - by rewrite get_insert_eq. }
  clearbody s.
  rewrite (Hs "dateOfPurchase") by done. rewrite Hdt.
  destruct (truthy (mappedValue dateParse "dateOfPurchase" row)) eqn:Td; simpl.
  - rewrite (Hs "serialNumber") by done. rewrite Hsn.
    rewrite serial_test_simpl. fold (serialMissing row).
    destruct (serialMissing row) eqn:Em; simpl.
    + eexists _, _. split; [reflexivity|].
      split; rewrite ?Td, ?Em; try (get_insert; rewrite ?Hs by done; done || lia).
      * intros f Hin Hnd. destruct (Hsep f Hin) as (? & ? & ? & ?).
        get_insert. rewrite Hs by done. by apply Htx.
      * exists dev. split; [done|]. get_insert. by rewrite Hs.
    + eexists _, _. split; [reflexivity|].
      split; rewrite ?Td, ?Em; try (get_insert; rewrite ?Hs by done; done || lia).
      * intros f Hin Hnd. destruct (Hsep f Hin) as (? & ? & ? & ?).
        get_insert. rewrite Hs by done. by apply Htx.
      * exists dev. split; [done|]. get_insert. by rewrite Hs.
  - rewrite get_insert_ne by done. rewrite (Hs "serialNumber") by done. rewrite Hsn.
    rewrite serial_test_simpl. fold (serialMissing row).
    destruct (serialMissing row) eqn:Em; simpl.
    + eexists _, _. split; [reflexivity|].
      split; rewrite ?Td, ?Em; try (get_insert; rewrite ?Hs by done; done || lia).
      * intros f Hin Hnd. destruct (Hsep f Hin) as (? & ? & ? & ?).
        get_insert. rewrite Hs by done. by apply Htx.
      * exists dev. split; [done|]. get_insert. by rewrite Hs.
    + eexists _, _. split; [reflexivity|].
      split; rewrite ?Td, ?Em; try (get_insert; rewrite ?Hs by done; done || lia).
      * intros f Hin Hnd. destruct (Hsep f Hin) as (? & ? & ? & ?).
        get_insert. rewrite Hs by done. by apply Htx.
      * exists dev. split; [done|]. get_insert. by rewrite Hs.
Qed.

Lemma get_lookup (a : asset) f v : get a f = v -> v ≠ VUndefined -> a !! f = Some v.
Proof. unfold get. destruct (a !! f); simpl; intros; congruence. Qed.

Lemma deviceFor_cases dev :
  deviceFor dev = "Other"
  \/ (deviceFor dev ∈ validDevices
      /\ JsString.toLowerCase (deviceFor dev) = JsString.toLowerCase dev).
Proof.
  unfold deviceFor.
  destruct (List.find _ validDevices) as [d|] eqn:Hf; [|by left].
  apply find_some in Hf as [Hin Heq]. right. split.
  - by apply list_elem_of_In.
  - by apply String.eqb_eq.
Qed.

(** C2 (as amended).  The device step is defined for every row whose
    device cell is absent, falsy or a string, and then the device of the
    output row is a string: an element of [validDevices] (the device enum
    and the placeholder "NA") equal to the trimmed cell up to case, or
    "Other"; an absent or empty device cell gives "NA". *)
Theorem device_normalisation createdBy row index n :
  deviceCallable row = true ->
  exists a n' dev d,
    transformRow clock dateParse createdBy row index n = inr (a, n')
    /\ textOrNA (mappedText "device" row) = VStr dev
    /\ a !! "device" = Some (VStr d)
    /\ (d = "Other"
        \/ (d ∈ validDevices /\ JsString.toLowerCase d = JsString.toLowerCase dev))
    /\ (truthy (mappedText "device" row) = false -> d = "NA").
Proof.
  intros Hc. destruct (transformRow_returns createdBy row index n Hc) as (a & n' & Ha & R).
  destruct (rr_device _ _ _ _ _ _ _ _ R) as (dev & Hdev & Hd).
  exists a, n', dev, (deviceFor dev). split; [done|]. split; [done|].
  split; [by apply get_lookup|]. split; [apply deviceFor_cases|].
  intros Hf. unfold textOrNA in Hdev. rewrite Hf in Hdev. by injection Hdev as <-.
Qed.

(** C3 (as amended).  For a row whose device cell is absent, falsy or a
    string, the normaliser returns a row, and a date cell that is not a
    date and does not parse is recorded as [null] by the column mapping;
    the default-date step then replaces it, as it does an absent or a
    falsy cell, by the current time, and the date of the output row is
    never [null]. *)
Theorem unparseable_date_defaults createdBy row index n :
  deviceCallable row = true ->
  exists a n',
    transformRow clock dateParse createdBy row index n = inr (a, n')
    /\ (forall cell,
          lastMapped "dateOfPurchase" row = Some cell ->
          truthy cell = true -> (forall t, cell ≠ VDate t) ->
          dateOf dateParse cell = None ->
          mapColumns dateParse createdBy row !! "dateOfPurchase" = Some VNull
          /\ a !! "dateOfPurchase" = Some (VDate (clock n)))
    /\ (lastMapped "dateOfPurchase" row = None ->
          a !! "dateOfPurchase" = Some (VDate (clock n)))
    /\ (forall cell,
          lastMapped "dateOfPurchase" row = Some cell -> truthy cell = false ->
          a !! "dateOfPurchase" = Some (VDate (clock n)))
    /\ a !! "dateOfPurchase" ≠ Some VNull.
Proof.
  intros Hc. destruct (transformRow_returns createdBy row index n Hc) as (a & n' & Ha & R).
  exists a, n'. split; [done|].
  pose proof (rr_date _ _ _ _ _ _ _ _ R) as Hd.
  unfold mappedValue in Hd.
  assert (forall cell, truthy cell = true -> (forall t, cell ≠ VDate t) ->
            dateOf dateParse cell = None ->
            cellValue dateParse "dateOfPurchase" cell = VNull) as Hnull.
  { intros cell T Hnd Hp. unfold cellValue. simpl. rewrite T.
    destruct cell; try done; try (by rewrite Hp); try (by destruct (Hnd t)). }
  split; [|split; [|split]].
  - intros cell E T Hnd Hp. split.
    + rewrite mapColumns_lookup by done. rewrite E. simpl. by rewrite Hnull.
    + rewrite E in Hd. simpl in Hd. rewrite Hnull in Hd by done. simpl in Hd.
      by apply get_lookup.
  - intros E. rewrite E in Hd. simpl in Hd. by apply get_lookup.
  - intros cell E T. rewrite E in Hd. simpl in Hd. unfold cellValue in Hd.
    rewrite T, andb_false_r in Hd.
    assert (truthy (trimCell cell) = false) as T'.
    { destruct cell; simpl in *; try done.
      destruct (String.eqb_spec s ""); [by subst | done]. }
    rewrite T' in Hd. by apply get_lookup.
  - intros E. unfold get in Hd. rewrite E in Hd. simpl in Hd.
    destruct (truthy (default VUndefined _)) eqn:T.
    + rewrite <- Hd in T. done.
    + done.
Qed.

(** C4 (as amended).  For every row the normaliser returns for, each of
    the nine text fields of the output row is present and non-empty; each
    of the eight other than [device] holds the trimmed cell of the last
    column mapped to it when that is truthy and "NA" when the field is
    absent or empty; [device] holds the device the device step chose for
    its text. *)
Theorem text_fields_defaulted createdBy row index n :
  deviceCallable row = true ->
  exists a n',
    transformRow clock dateParse createdBy row index n = inr (a, n')
    /\ (forall f, f ∈ textFields ->
          exists v, a !! f = Some v /\ truthy v = true /\ v ≠ VStr "")
    /\ (forall f, f ∈ textFields -> f ≠ "device" ->
          a !! f = Some (match lastMapped f row with
                         | Some cell => if truthy (trimCell cell)
                                        then trimCell cell else VStr "NA"
                         | None => VStr "NA"
                         end))
    /\ (exists dev, textOrNA (mappedText "device" row) = VStr dev
                    /\ a !! "device" = Some (VStr (deviceFor dev))).
Proof.
  intros Hc. destruct (transformRow_returns createdBy row index n Hc) as (a & n' & Ha & R).
  exists a, n'. split; [done|].
  destruct (rr_device _ _ _ _ _ _ _ _ R) as (dev & Hdev & Hd).
  assert (deviceFor dev ≠ "") as Hne.
  { destruct (deviceFor_cases dev) as [->|[Hin _]]; [done|].
    intros E. rewrite E in Hin. cbv [validDevices] in Hin.
    rewrite !elem_of_cons, elem_of_nil in Hin. intuition discriminate. }
  assert (forall f, f ∈ textFields -> f ≠ "device" ->
            a !! f = Some (textOrNA (mappedText f row))) as Htx.
  { intros f Hin Hnd. apply get_lookup; [by apply (rr_text _ _ _ _ _ _ _ _ R)|].
    unfold textOrNA. destruct (truthy (mappedText f row)) eqn:T; [|done].
    intros E. by rewrite E in T. }
  split; [|split].
  - intros f Hin. destruct (decide (f = "device")) as [->|Hnd].
    + exists (VStr (deviceFor dev)). split; [by apply get_lookup|].
      simpl. destruct (String.eqb_spec (deviceFor dev) ""); [done|].
      split; [done | congruence].
    + exists (textOrNA (mappedText f row)). split; [by apply Htx|].
      pose proof (textOrNA_truthy (mappedText f row)) as T. split; [done|].
      intros E. by rewrite E in T.
  - intros f Hin Hnd. rewrite Htx by done. unfold textOrNA, mappedText.
    by destruct (lastMapped f row).
  - exists dev. split; [done|]. by apply get_lookup.
Qed.

End Normaliser.

(** ** Generated serials *)

Lemma hasDash_app p q : hasDash (p +:+ q) = hasDash p || hasDash q.
Proof.
  induction p as [|x p IH]; simpl; [done|]. by rewrite IH, orb_assoc.
Qed.

Lemma lastField_app p q : hasDash q = true -> lastField (p +:+ q) = lastField q.
Proof.
  intros Hq. induction p as [|x p IH]; simpl; [done|].
  by rewrite hasDash_app, Hq, orb_true_r.
Qed.

Lemma lastField_dash t : hasDash t = false -> lastField (String "-" t) = t.
Proof. intros Ht. simpl. by rewrite Ht. Qed.

Lemma digits_no_dash s d : NilEmpty.uint_of_string s = Some d -> hasDash s = false.
Proof.
  revert d. induction s as [|c s IH]; intros d H; simpl in *; [done|].
  destruct (NilEmpty.uint_of_string s) as [d'|]; [|done].
  rewrite (IH d') by done. rewrite orb_false_r.
  apply uint_of_char_spec in H.
  destruct H as [[-> _]|[[-> _]|[[-> _]|[[-> _]|[[-> _]|[[-> _]|[[-> _]|[[-> _]|[[-> _]|[-> _]]]]]]]]]];
    reflexivity.
Qed.

Lemma append_nil_l s : "" +:+ s = s.
Proof. reflexivity. Qed.

Lemma append_cons c p s : String c p +:+ s = String c (p +:+ s).
Proof. reflexivity. Qed.

Lemma uint_of_string_zeros k s :
  NilEmpty.uint_of_string (JsString.repeat "0" k +:+ s)
  = Nat.iter k Decimal.D0 <$> NilEmpty.uint_of_string s.
Proof.
  induction k as [|k IH]; cbn [JsString.repeat].
  - rewrite append_nil_l. destruct (NilEmpty.uint_of_string s); reflexivity.
  - rewrite append_cons. cbn [NilEmpty.uint_of_string]. rewrite IH.
    destruct (NilEmpty.uint_of_string s); reflexivity.
Qed.

Lemma of_uint_zeros k d : Nat.of_uint (Nat.iter k Decimal.D0 d) = Nat.of_uint d.
Proof. induction k as [|k IH]; simpl; [done|]. exact IH. Qed.

Lemma uint_of_string_ofNat n :
  exists d, NilEmpty.uint_of_string (JsString.ofNat n) = Some d /\ Nat.of_uint d = n.
Proof.
  unfold JsString.ofNat, NilZero.string_of_uint.
  pose proof (Unsigned.of_to n) as H.
  destruct (Nat.to_uint n) eqn:E;
    [ exists (Decimal.D0 Decimal.Nil); split; [reflexivity | by rewrite <- H]
    | eexists; split; [apply NilEmpty.usu | exact H] .. ].
Qed.

Lemma uint_of_string_padStart k n :
  exists d, NilEmpty.uint_of_string (JsString.padStart k "0" (JsString.ofNat n)) = Some d
            /\ Nat.of_uint d = n.
Proof.
  destruct (uint_of_string_ofNat n) as (d & Hd & Hn).
  unfold JsString.padStart. rewrite uint_of_string_zeros, Hd. simpl.
  eexists. split; [done|]. by rewrite of_uint_zeros.
Qed.

(** The row number can be read back from a generated serial, whatever
    the time it was generated at. *)
Lemma serialIndex_generatedSerial now index :
  serialIndex (generatedSerial now index) = Some (index + 1).
Proof.
  destruct (uint_of_string_padStart 4 (index + 1)) as (d & Hd & Hn).
  pose proof (digits_no_dash _ _ Hd) as Hnd.
  unfold serialIndex, generatedSerial.
  rewrite lastField_app.
  2:{ rewrite hasDash_app. simpl. by rewrite orb_true_r. }
  rewrite lastField_app.
  2:{ simpl. done. }
  replace ("-" +:+ timeStr now +:+ "-"
           +:+ JsString.padStart 4 "0" (JsString.ofNat (index + 1)))
    with (String "-" (timeStr now +:+ String "-"
           (JsString.padStart 4 "0" (JsString.ofNat (index + 1))))) by done.
  cbn [lastField]. rewrite hasDash_app. cbn [hasDash]. simpl (Ascii.eqb "-" "-").
  rewrite orb_true_r. rewrite lastField_app by (simpl; done).
  rewrite lastField_dash by done.
  unfold parseDigits. rewrite Hd. simpl. by rewrite Hn.
Qed.

Lemma generatedSerial_inj now1 now2 i j :
  generatedSerial now1 i = generatedSerial now2 j -> i = j.
Proof.
  intros E. pose proof (serialIndex_generatedSerial now1 i) as H1.
  rewrite E, serialIndex_generatedSerial in H1. injection H1. lia.
Qed.

Lemma digit_cases n :
  exists k, (k < 10)%nat /\ JsDate.digit n = ascii_of_nat (48 + k).
Proof.
  unfold JsDate.digit. exists (Z.to_nat (n mod 10)). split; [|done].
  pose proof (Z.mod_pos_bound n 10). lia.
Qed.

Lemma digit_not_dash n : Ascii.eqb (JsDate.digit n) "-" = false.
Proof.
  destruct (digit_cases n) as (k & Hk & ->).
  do 10 (destruct k as [|k]; [reflexivity|]). lia.
Qed.

Lemma digit_not_colon n : Ascii.eqb (JsDate.digit n) ":" = false.
Proof.
  destruct (digit_cases n) as (k & Hk & ->).
  do 10 (destruct k as [|k]; [reflexivity|]). lia.
Qed.

(** The date and time parts of a generated serial, for a time whose UTC
    year has four digits. *)
Lemma dateStr_digits now y m d :
  utcDate now = (y, m, d) -> (0 <= y <= 9999)%Z ->
  dateStr now = JsDate.d4 y +:+ JsDate.d2 m +:+ JsDate.d2 d.
Proof.
  intros E Hy. unfold dateStr, JsDate.toISOString. unfold utcDate in E. rewrite E.
  unfold JsDate.isoYear.
  replace ((0 <=? y)%Z && (y <=? 9999)%Z) with true by (symmetry; apply andb_true_iff; lia).
  unfold JsDate.d4, JsDate.d3, JsDate.d2, JsString.slice.
  rewrite !append_cons, !append_nil_l. cbn [String.substring Nat.sub].
  cbn [JsString.removeAll]. rewrite !digit_not_dash. reflexivity.
Qed.

Lemma timeStr_digits now y m d :
  utcDate now = (y, m, d) -> (0 <= y <= 9999)%Z ->
  timeStr now
  = JsDate.d2 (utcTime now / 3600000) +:+ JsDate.d2 (utcTime now / 60000 mod 60)
    +:+ JsDate.d2 (utcTime now / 1000 mod 60).
Proof.
  intros E Hy. unfold timeStr, JsDate.toISOString. unfold utcDate in E. rewrite E.
  unfold JsDate.isoYear, utcTime.
  replace ((0 <=? y)%Z && (y <=? 9999)%Z) with true by (symmetry; apply andb_true_iff; lia).
  unfold JsDate.d4, JsDate.d3, JsDate.d2, JsString.slice.
  rewrite !append_cons, !append_nil_l. cbn [String.substring Nat.sub].
  cbn [JsString.removeAll]. rewrite !digit_not_colon. reflexivity.
Qed.

Lemma padStart_length_4 n :
  (n <= 5000)%nat -> String.length (JsString.padStart 4 "0" (JsString.ofNat n)) = 4%nat.
Proof.
  intros Hn.
  assert (forallb (fun n => String.length (JsString.padStart 4 "0" (JsString.ofNat n)) =? 4)%nat
            (seq 0 (S 5000)) = true) as H by (vm_compute; reflexivity).
  rewrite forallb_forall in H. apply Nat.eqb_eq, H, in_seq. lia.
Qed.

Lemma strictEqStr_false v lit : strictEqStr v lit = false <-> v ≠ VStr lit.
Proof.
  destruct v; simpl; try (split; [done | done]).
  destruct (String.eqb_spec s lit); split; intros; congruence.
Qed.

Lemma meaningful_text f : f ∈ meaningfulFields -> f ∈ textFields.
Proof.
  cbv [meaningfulFields textFields]. rewrite !elem_of_cons, !elem_of_nil. tauto.
Qed.

(** ** All the rows of a sheet *)

Section Rows.
Variable clock : nat -> Z.
Variable dateParse : string -> option Z.

Lemma transformRows_returns createdBy rows : forall index n,
  Forall (fun row => deviceCallable row = true) rows ->
  exists assets n',
    transformRows clock dateParse createdBy rows index n = inr (assets, n')
    /\ length assets = length rows
    /\ forall i row, rows !! i = Some row ->
         exists a k k', assets !! i = Some a
                        /\ rowResult clock dateParse createdBy row (index + i) k a k'.
Proof.
  induction rows as [|row rows IH]; intros index n HF.
  - exists [], n. split; [done|]. split; [done|]. intros i row H. done.
  - apply Forall_cons in HF as [Hrow HF].
    destruct (transformRow_returns clock dateParse createdBy row index n Hrow)
      as (a & n1 & Ha & R).
    destruct (IH (S index) n1 HF) as (assets & n' & Hrest & Hlen & Hall).
    exists (a :: assets), n'. split.
    + cbn [transformRows]. unfold bind at 1. rewrite Ha.
      unfold bind at 1. rewrite Hrest. done.
    + split; [simpl; by rewrite Hlen|].
      intros [|i] r Hr; simpl in Hr.
      * injection Hr as <-. exists a, n, n1. split; [done|].
        by rewrite Nat.add_0_r.
      * destruct (Hall i r Hr) as (a' & k & k' & Hi & R').
        exists a', k, k'. split; [done|].
        by replace (index + S i)%nat with (S index + i)%nat by lia.
Qed.

Lemma transformRows_throws createdBy rows : forall index n,
  Exists (fun row => deviceCallable row = false) rows ->
  transformRows clock dateParse createdBy rows index n
  = inl (typeError "asset.device.toLowerCase is not a function").
Proof.
  induction rows as [|row rows IH]; intros index n HE.
  - by apply Exists_nil in HE.
  - cbn [transformRows]. unfold bind at 1.
    destruct (deviceCallable row) eqn:Hc.
    + destruct (transformRow_returns clock dateParse createdBy row index n Hc)
        as (a & n1 & Ha & _).
      rewrite Ha. unfold bind at 1. rewrite IH; [done|].
      apply Exists_cons in HE as [HE|HE]; [congruence | done].
    + by rewrite transformRow_throws.
Qed.

Lemma transformRows_inr createdBy rows index n assets n' :
  transformRows clock dateParse createdBy rows index n = inr (assets, n') ->
  Forall (fun row => deviceCallable row = true) rows.
Proof.
  intros H. apply Forall_forall. intros row Hin.
  destruct (deviceCallable row) eqn:Hc; [done|].
  rewrite transformRows_throws in H; [done|].
  apply Exists_exists. by exists row.
Qed.

(** What holds of the rows [transformRows] returns. *)
Lemma transformRows_rows createdBy rows index n assets n' :
  transformRows clock dateParse createdBy rows index n = inr (assets, n') ->
  length assets = length rows
  /\ forall i row, rows !! i = Some row ->
       exists a k k', assets !! i = Some a
                      /\ rowResult clock dateParse createdBy row (index + i) k a k'.
Proof.
  intros H. pose proof (transformRows_inr _ _ _ _ _ _ H) as HF.
  destruct (transformRows_returns createdBy rows index n HF) as (l & m & Hl & Hlen & Hall).
  rewrite H in Hl. injection Hl as <- <-. done.
Qed.

(** X23.  In an import whose device cells are all absent, falsy or
    strings, a row whose serial cell is absent, empty or "NA" gets the
    serial IT-<date>-<time>-<NNNN>: date and time are those of a reading
    [now] of the clock, eight and six digits when the UTC year of [now] has
    four, and NNNN is the row's 1-based index padded with zeros to four
    digits.  Two distinct rows of one import that both get a generated
    serial get different ones. *)
Theorem generated_serials createdBy rows :
  Forall (fun row => deviceCallable row = true) rows ->
  exists assets n',
    transformRows clock dateParse createdBy rows 0 0 = inr (assets, n')
    /\ (forall i row, rows !! i = Some row -> serialMissing row = true ->
          exists a now,
            assets !! i = Some a
            /\ (exists k, now = clock k)
            /\ a !! "serialNumber"
               = Some (VStr ("IT-" +:+ dateStr now +:+ "-" +:+ timeStr now +:+ "-"
                             +:+ JsString.padStart 4 "0" (JsString.ofNat (i + 1))))
            /\ ((i < 5000)%nat ->
                 String.length (JsString.padStart 4 "0" (JsString.ofNat (i + 1))) = 4%nat)
            /\ (forall y m d, utcDate now = (y, m, d) -> (0 <= y <= 9999)%Z ->
                  dateStr now = JsDate.d4 y +:+ JsDate.d2 m +:+ JsDate.d2 d
                  /\ timeStr now
                     = JsDate.d2 (utcTime now / 3600000)
                       +:+ JsDate.d2 (utcTime now / 60000 mod 60)
                       +:+ JsDate.d2 (utcTime now / 1000 mod 60)))
    /\ (forall i j ri rj ai aj,
          i ≠ j -> rows !! i = Some ri -> rows !! j = Some rj ->
          serialMissing ri = true -> serialMissing rj = true ->
          assets !! i = Some ai -> assets !! j = Some aj ->
          ai !! "serialNumber" ≠ aj !! "serialNumber").
Proof.
  intros HF.
  destruct (transformRows_returns createdBy rows 0 0 HF) as (assets & n' & H & Hlen & Hall).
  exists assets, n'. split; [done|].
  assert (forall i row a, rows !! i = Some row -> serialMissing row = true ->
            assets !! i = Some a ->
            exists k, a !! "serialNumber" = Some (VStr (generatedSerial (clock k) i))) as Hser.
  { intros i row a Hi Hm Ha. destruct (Hall i row Hi) as (a' & k & k' & Ha' & R).
    rewrite Ha in Ha'. injection Ha' as <-.
    pose proof (rr_serial _ _ _ _ _ _ _ _ R) as Hs. rewrite Hm in Hs. simpl in Hs.
    eexists. by apply get_lookup. }
  split.
  - intros i row Hi Hm. destruct (Hall i row Hi) as (a & k0 & k' & Ha & _).
    destruct (Hser i row a Hi Hm Ha) as (k & Hk).
    exists a, (clock k). split; [done|]. split; [by exists k|]. split; [exact Hk|].
    split.
    + intros Hlt. apply padStart_length_4. lia.
    + intros y m d E Hy. split; [by apply dateStr_digits | by eapply timeStr_digits].
  - intros i j ri rj ai aj Hne Hi Hj Hmi Hmj Hai Haj E.
    destruct (Hser i ri ai Hi Hmi Hai) as (ki & Hki).
    destruct (Hser j rj aj Hj Hmj Haj) as (kj & Hkj).
    rewrite Hki, Hkj in E.
    assert (generatedSerial (clock ki) i = generatedSerial (clock kj) j) as E'
      by congruence.
    by apply generatedSerial_inj in E'.
Qed.

Lemma rowResult_truthy createdBy row index n a n' f :
  rowResult clock dateParse createdBy row index n a n' ->
  f ∈ textFields -> truthy (get a f) = true.
Proof.
  intros R Hin. destruct (decide (f = "device")) as [->|Hnd].
  - destruct (rr_device _ _ _ _ _ _ _ _ R) as (dev & Hdev & Hd). rewrite Hd.
    destruct (deviceFor_cases dev) as [->|[Hv _]]; [done|].
    simpl. destruct (String.eqb_spec (deviceFor dev) "") as [E|]; [|done].
    rewrite E in Hv. cbv [validDevices] in Hv.
    rewrite !elem_of_cons, elem_of_nil in Hv. intuition discriminate.
  - rewrite (rr_text _ _ _ _ _ _ _ _ R) by done. apply textOrNA_truthy.
Qed.

(** The filter on a normalised row. *)
Lemma hasData_rowResult createdBy row index n a n' :
  rowResult clock dateParse createdBy row index n a n' ->
  hasData a = true
  <-> exists f v, f ∈ meaningfulFields /\ a !! f = Some v
                  /\ v ≠ VStr "NA" /\ v ≠ VStr "".
Proof.
  intros R. unfold hasData. rewrite existsb_exists. split.
  - intros (f & Hin & Hc). apply andb_true_iff in Hc as [Hc H3].
    apply andb_true_iff in Hc as [H1 H2].
    exists f, (get a f). split; [by apply list_elem_of_In|].
    split; [by apply truthy_get_Some|].
    split; apply strictEqStr_false; by apply negb_true_iff.
  - intros (f & v & Hin & Hv & Hna & Hne). exists f.
    split; [by apply list_elem_of_In|].
    assert (get a f = v) as Hg by (unfold get; by rewrite Hv).
    rewrite (rowResult_truthy _ _ _ _ _ _ _ R (meaningful_text _ Hin)).
    rewrite Hg. simpl.
    apply andb_true_iff. split; apply negb_true_iff; by apply strictEqStr_false.
Qed.

End Rows.

(** ** The bulk endpoint *)

Section Bulk.
Variable S : Type.
Variable insertMany : S -> list asset -> (error + list asset) * S.


Lemma bulk_rejected req st :
  bulkRejected req ->
  exists msg, bulkCreateAssets S insertMany req st = (Sent (send 400 None msg), st).
Proof.
  unfold bulkRejected, bulkCreateAssets. intros H.
  destruct (bk_assets req) as [|v|assets]; [eexists; reflexivity..|].
  destruct assets as [|a assets]; [eexists; reflexivity|].
  replace (length (a :: assets) =? 0)%nat with false by done.
  destruct (1000 <? length (a :: assets))%nat eqn:E; [eexists; reflexivity|].
  apply Nat.ltb_ge in E.
  destruct H as [H|[H|H]]; [done | simpl in *; lia |].
  rewrite H. eexists; reflexivity.
Qed.


(** C10.  Every record [bulkCreateAssets] hands to the store carries the
    [createdBy] of the request, whatever [createdBy] the element had, and
    is the element in every other field. *)
Theorem bulk_createdBy_overwritten req st log assets :
  bk_assets req = AnArray assets ->
  assets ≠ [] -> (length assets <= 1000)%nat -> truthy (bk_createdBy req) = true ->
  exists handed,
    (bulkCreateAssets (S * list (list asset)) (recording insertMany) req (st, log)).2.2
    = log ++ [handed]
    /\ length handed = length assets
    /\ forall i a, assets !! i = Some a ->
         exists a', handed !! i = Some a'
                    /\ a' !! "createdBy" = Some (bk_createdBy req)
                    /\ forall f, f ≠ "createdBy" -> a' !! f = a !! f.
Proof.
  intros Ha Hne Hlen T. exists (assetsWithCreator assets (bk_createdBy req)).
  split; [|split].
  - unfold bulkCreateAssets. rewrite Ha.
    destruct assets as [|a assets]; [done|].
    replace (length (a :: assets) =? 0)%nat with false by done.
    replace (1000 <? length (a :: assets))%nat with false
      by (symmetry; apply Nat.ltb_ge; exact Hlen).
    rewrite T. cbn [negb]. unfold recording at 1. cbn [fst snd].
    destruct (insertMany st _) as [[err|docs] st']; [|done].
    by destruct (err_insertedDocs err).
  - unfold assetsWithCreator. by rewrite length_fmap.
  - intros i a Hi. exists (<["createdBy" := bk_createdBy req]> a).
    split; [|split].
    + unfold assetsWithCreator. by rewrite list_lookup_fmap, Hi.
    + by rewrite lookup_insert_eq.
    + intros f Hf. by rewrite lookup_insert_ne.
Qed.

End Bulk.

(** A request the guards reject hands nothing to the store. *)
Lemma bulk_rejected_no_call (S : Type)
    (insertMany : S -> list asset -> (error + list asset) * S) req st log :
  bulkRejected req ->
  (bulkCreateAssets (S * list (list asset)) (recording insertMany) req (st, log)).2
  = (st, log).
Proof.
  intros H.
  destruct (bulk_rejected _ (recording insertMany) req (st, log) H) as (msg & E).
  by rewrite E.
Qed.

(** ** The batch loop *)

Section Loop.
Variable S : Type.
Variable insertMany : S -> list asset -> (error + list asset) * S.

Lemma insertLoop_unfold fuel i validAssets st r :
  insertLoop S insertMany fuel i validAssets st r
  = if (i <? length validAssets)%nat then
      match fuel with
      | O => None
      | Datatypes.S fuel' =>
          let '(st', r') :=
            insertBatch S insertMany st (take batchSize (drop i validAssets)) r in
          insertLoop S insertMany fuel' (i + batchSize) validAssets st' r'
      end
    else Some (st, r).
Proof. by destruct fuel. Qed.

(** The loop ends within as many turns as there are rows left. *)
Lemma insertLoop_total fuel : forall i validAssets st r,
  (length validAssets - i <= fuel)%nat ->
  exists st' r', insertLoop S insertMany fuel i validAssets st r = Some (st', r').
Proof.
  induction fuel as [|fuel IH]; intros i validAssets st r Hf;
    rewrite insertLoop_unfold; destruct (i <? length validAssets)%nat eqn:E.
  - apply Nat.ltb_lt in E. lia.
  - by eexists _, _.
  - apply Nat.ltb_lt in E.
    destruct (insertBatch S insertMany st _ r) as [st1 r1].
    apply IH. unfold batchSize. lia.
  - by eexists _, _.
Qed.

End Loop.

(** The batches the loop hands to the store are the rows from [i] on, cut
    in order into runs of [batchSize] rows, the last one possibly shorter. *)
Lemma insertLoop_recording (S : Type)
    (insertMany : S -> list asset -> (error + list asset) * S) fuel :
  forall i validAssets st log r st' log' r',
    insertLoop (S * list (list asset)) (recording insertMany) fuel i validAssets
      (st, log) r = Some ((st', log'), r') ->
    exists batches,
      log' = log ++ batches
      /\ concat batches = drop i validAssets
      /\ Forall (fun b => b ≠ [] /\ (length b <= batchSize)%nat) batches
      /\ forall k b, batches !! k = Some b ->
           b = take batchSize (drop (i + k * batchSize) validAssets).
Proof.
  induction fuel as [|fuel IH]; intros i validAssets st log r st' log' r' H;
    rewrite insertLoop_unfold in H;
    destruct (i <? length validAssets)%nat eqn:E; try done.
  - injection H as <- <- <-. exists []. rewrite app_nil_r.
    apply Nat.ltb_ge in E. rewrite drop_ge by done. by repeat split.
  - apply Nat.ltb_lt in E.
    destruct (insertBatch _ (recording insertMany) (st, log) _ r) as [[st1 log1] r1] eqn:B.
    assert (log1 = log ++ [take batchSize (drop i validAssets)]) as ->.
    { unfold insertBatch, recording in B. cbn [fst snd] in B.
      destruct (insertMany st _) as [[err|docs] st2]; by injection B as <- <- <-. }
    apply IH in H as (batches & -> & Hc & HF & Hk).
    exists (take batchSize (drop i validAssets) :: batches).
    split; [by rewrite <- app_assoc|]. split; [|split].
    + cbn [concat]. rewrite Hc. rewrite <- (drop_drop validAssets batchSize i).
      apply take_drop.
    + apply Forall_cons. split; [|done]. split.
      * intros E0. apply (f_equal length) in E0.
        rewrite length_take, length_drop in E0. cbn [length] in E0.
        unfold batchSize in E0. lia.
      * rewrite length_take. lia.
    + intros [|k] b Hb; simpl in Hb.
      * injection Hb as <-. by rewrite Nat.add_0_r.
      * apply Hk in Hb. rewrite Hb. do 2 f_equal. lia.
  - injection H as <- <- <-. exists []. rewrite app_nil_r.
    apply Nat.ltb_ge in E. rewrite drop_ge by done. by repeat split.
Qed.

(** ** Blank rows *)








(** ** The upload endpoint *)

Section UploadHandler.
Variable S : Type.
Variable insertMany : S -> list asset -> (error + list asset) * S.
Variable clock : nat -> Z.
Variable dateParse : string -> option Z.


(** The report of an upload that reaches the batch loop. *)
Lemma uploadExcel_inserted req st rawData assets n' :
  up_file req = Some (inr rawData) ->
  truthy (up_createdBy req) = true ->
  rawData ≠ [] -> (length rawData <= 5000)%nat ->
  transformRows clock dateParse (up_createdBy req) rawData 0 0 = inr (assets, n') ->
  validAssetsOf assets ≠ [] ->
  exists st' r msg,
    insertLoop S insertMany (length (validAssetsOf assets)) 0 (validAssetsOf assets) st
      {| inserted := []; errors := [] |} = Some (st', r)
    /\ uploadExcel S insertMany clock dateParse req st
       = Some (Sent (send 201
           (Some {[ "totalRows" := DNum (Z.of_nat (length rawData));
                    "created" := DNum (Z.of_nat (length (inserted r)));
                    "failed" := DNum (Z.of_nat (length (errors r)));
                    "skippedEmptyRows" :=
                      DNum (Z.of_nat (length rawData)
                            - Z.of_nat (length (validAssetsOf assets)));
                    "insertErrors" := DObjects (take 50 (errors r)) ]}) msg), st').
Proof.
  intros Hf T Hne Hlen Ht Hv.
  destruct (insertLoop_total S insertMany (length (validAssetsOf assets)) 0
              (validAssetsOf assets) st {| inserted := []; errors := [] |})
    as (st' & r & Hl); [lia|].
  exists st', r. eexists. split; [exact Hl|].
  unfold uploadExcel. rewrite Hf, T. cbn [negb].
  destruct rawData as [|row rest]; [done|].
  replace (length (row :: rest) =? 0)%nat with false by done.
  replace (5000 <? length (row :: rest))%nat with false
    by (symmetry; by apply Nat.ltb_ge).
  rewrite Ht.
  destruct (validAssetsOf assets) as [|v vs] eqn:Ev; [done|].
  replace (length (v :: vs) =? 0)%nat with false by done.
  rewrite Hl. reflexivity.
Qed.

Lemma validAssetsOf_length assets :
  length (validAssetsOf assets) = length (List.filter hasData assets).
Proof. unfold validAssetsOf. by rewrite length_fmap. Qed.

End UploadHandler.

Section Filter.
Variable S : Type.
Variable insertMany : S -> list asset -> (error + list asset) * S.
Variable clock : nat -> Z.
Variable dateParse : string -> option Z.

(** C6 (as amended).  The filter keeps a normalised row exactly when one
    of the seven fields holds a value other than "NA" and other than the
    empty string.  The rows it keeps, and no others, are handed to the
    store.  When it keeps a row, the 201 report counts the rows it drops
    in [skippedEmptyRows]; when it keeps none, the answer is the 400 of
    [noValidRecords], which has no counter, and the store is not called. *)
Theorem row_filter req st log rawData assets n' :
  up_file req = Some (inr rawData) ->
  truthy (up_createdBy req) = true ->
  rawData ≠ [] -> (length rawData <= 5000)%nat ->
  transformRows clock dateParse (up_createdBy req) rawData 0 0 = inr (assets, n') ->
  (forall a, a ∈ assets ->
     (hasData a = true
      <-> exists f v, f ∈ meaningfulFields /\ a !! f = Some v
                      /\ v ≠ VStr "NA" /\ v ≠ VStr ""))
  /\ (forall b, b ∈ validAssetsOf assets
                <-> exists a, a ∈ assets /\ hasData a = true
                              /\ b = delete "_rowIndex" a)
  /\ (validAssetsOf assets ≠ [] ->
      exists r st' handed body,
        uploadExcel (S * list (list asset)) (recording insertMany) clock dateParse
          req (st, log) = Some (Sent r, (st', log ++ handed))
        /\ status r = 201%Z
        /\ concat handed = validAssetsOf assets
        /\ data r = Some body
        /\ body !! "skippedEmptyRows"
           = Some (DNum (Z.of_nat
                (length (List.filter (fun a => negb (hasData a)) assets)))))
  /\ (validAssetsOf assets = [] ->
      uploadExcel (S * list (list asset)) (recording insertMany) clock dateParse
        req (st, log) = Some (Sent (noValidRecords rawData), (st, log))).
Proof.
  intros Hf T Hne Hlen Ht.
  destruct (transformRows_rows _ _ _ _ _ _ _ _ Ht) as (Hl & Hall).
  split; [|split; [|split]].
  4:{ intros Hv. unfold uploadExcel. rewrite Hf, T. cbn [negb].
      destruct rawData as [|row rest]; [done|].
      replace (length (row :: rest) =? 0)%nat with false by done.
      replace (5000 <? length (row :: rest))%nat with false
        by (symmetry; by apply Nat.ltb_ge).
      rewrite Ht. rewrite Hv. reflexivity. }
  - intros a Ha. apply list_elem_of_lookup in Ha as [i Hi].
    assert (is_Some (rawData !! i)) as [row Hrow].
    { apply lookup_lt_is_Some. rewrite <- Hl. by eapply lookup_lt_Some. }
    destruct (Hall i row Hrow) as (a' & k & k' & Ha' & R).
    rewrite Hi in Ha'. injection Ha' as <-.
    by eapply hasData_rowResult.
  - intros b. unfold validAssetsOf. rewrite list_elem_of_fmap. split.
    + intros (a & -> & Ha). apply list_elem_of_In, filter_In in Ha as [Ha Hd].
      exists a. split; [by apply list_elem_of_In|]. done.
    + intros (a & Ha & Hd & ->). exists a. split; [done|].
      apply list_elem_of_In, filter_In. split; [by apply list_elem_of_In | done].
  - intros Hv.
    destruct (uploadExcel_inserted _ (recording insertMany) clock dateParse
                req (st, log) rawData assets n' Hf T Hne Hlen Ht Hv)
      as ([st' log'] & r & msg & Hloop & Hup).
    apply insertLoop_recording in Hloop as (handed & -> & Hc & _).
    eexists _, st', handed, _. split; [exact Hup|].
    split; [done|]. split; [by rewrite Hc, drop_0|]. split; [reflexivity|].
    rewrite lookup_insert_ne by done. rewrite lookup_insert_ne by done.
    rewrite lookup_insert_ne by done. rewrite lookup_insert_eq.
    do 2 f_equal. rewrite validAssetsOf_length, <- Hl.
    pose proof (filter_length hasData assets). lia.
Qed.

End Filter.

(** ** The store and the batch inserter *)

Section StoreFacts.
Variable toString : value -> string.
Variable document : asset -> asset.
Variable constraintError : asset -> option string.
Variable duplicateErrmsg : list nat -> string.
Variable invalidOutcome : list asset -> list asset -> (error + list asset) * list asset.











End StoreFacts.

(** ** Unexpected store failures *)

(** C8, the upload at a failing input: the store rejects the only batch
    with a connection error, and [uploadExcel] answers 201 with a report
    of nothing created and nothing failed. *)
Theorem upload_swallows_store_failure :
  uploadExcel (list asset) storeDown sampleClock sampleDateParse
    (sampleUpload [rowNoSerial]) []
  = Some (Sent (send 201
      (Some {[ "totalRows" := DNum 1; "created" := DNum 0; "failed" := DNum 0;
               "skippedEmptyRows" := DNum 0; "insertErrors" := DObjects [] ]})
      "Excel processed: 0 created, 0 failed"), []).
Proof. vm_compute. reflexivity. Qed.

(** The bulk endpoint at the same failure: the error goes to [next], and
    the error handler answers 500. *)
Lemma bulk_forwards_store_failure :
  bulkCreateAssets (list asset) storeDown sampleBulk [] = (Next networkError, [])
  /\ served (Next networkError)
     = inr {| status := 500; success := false; data := None;
              message := "connection lost" |}.
Proof. split; vm_compute; reflexivity. Qed.

(** ** A row that is not normalised *)

(** C5, the normaliser at a failing input: the row has no serial number
    and its device cell is a number.  The device step throws before the
    serial step, so no serial is generated for the row; the upload ends
    in [next] with the TypeError, and the error handler answers 500. *)
Theorem numeric_device_blocks_serial :
  serialMissing rowNoSerialNumericDevice = true
  /\ transformRow sampleClock sampleDateParse (VStr "u1") rowNoSerialNumericDevice 0 0
     = inl (typeError "asset.device.toLowerCase is not a function")
  /\ uploadExcel (list asset) acceptAll sampleClock sampleDateParse
       (sampleUpload [rowNoSerialNumericDevice]) []
     = Some (Next (typeError "asset.device.toLowerCase is not a function"), [])
  /\ served (Next (typeError "asset.device.toLowerCase is not a function"))
     = inr {| status := 500; success := false; data := None;
              message := "asset.device.toLowerCase is not a function" |}.
Proof. repeat split; vm_compute; reflexivity. Qed.

(** ** The claims at sample inputs *)


Lemma device_normalisation_witness :
  deviceCallable rowLowercaseDevice = true
  /\ exists a n' dev d,
       transformRow sampleClock sampleDateParse (VStr "u1") rowLowercaseDevice 0 0
       = inr (a, n')
       /\ textOrNA (mappedText "device" rowLowercaseDevice) = VStr dev
       /\ a !! "device" = Some (VStr d)
       /\ (d = "Other"
           \/ (d ∈ validDevices
               /\ JsString.toLowerCase d = JsString.toLowerCase dev))
       /\ (truthy (mappedText "device" rowLowercaseDevice) = false -> d = "NA").
Proof.
  split; [vm_compute; reflexivity|].
  apply device_normalisation. vm_compute; reflexivity.
Defined.

(** C2 as stated fails: an empty device cell gives "NA", which is not
    "Other" and not in the device enum. *)
Lemma blank_device_is_NA :
  lastMapped "device" rowBlankDevice = Some (VStr "")
  /\ rowField (transformRow sampleClock sampleDateParse (VStr "u1") rowBlankDevice 0 0)
       "device" = Some (VStr "NA")
  /\ "NA" ≠ "Other"
  /\ "NA" ∉ DEVICES.
Proof.
  split; [vm_compute; reflexivity|]. split; [vm_compute; reflexivity|].
  split; [done|]. cbv [DEVICES]. rewrite !elem_of_cons, elem_of_nil.
  intuition discriminate.
Qed.

Lemma unparseable_date_defaults_witness :
  deviceCallable rowBadDate = true
  /\ exists a n',
       transformRow sampleClock sampleDateParse (VStr "u1") rowBadDate 0 0 = inr (a, n')
       /\ (forall cell,
             lastMapped "dateOfPurchase" rowBadDate = Some cell ->
             truthy cell = true -> (forall t, cell ≠ VDate t) ->
             dateOf sampleDateParse cell = None ->
             mapColumns sampleDateParse (VStr "u1") rowBadDate !! "dateOfPurchase"
             = Some VNull
             /\ a !! "dateOfPurchase" = Some (VDate (sampleClock 0)))
       /\ (lastMapped "dateOfPurchase" rowBadDate = None ->
             a !! "dateOfPurchase" = Some (VDate (sampleClock 0)))
       /\ (forall cell,
             lastMapped "dateOfPurchase" rowBadDate = Some cell -> truthy cell = false ->
             a !! "dateOfPurchase" = Some (VDate (sampleClock 0)))
       /\ a !! "dateOfPurchase" ≠ Some VNull.
Proof.
  split; [vm_compute; reflexivity|].
  apply unparseable_date_defaults. vm_compute; reflexivity.
Defined.

(** C3 as stated fails: the date cell "soon" does not parse, and the
    output row holds the time of the clock, not [null]. *)
Lemma unparseable_date_is_now :
  lastMapped "dateOfPurchase" rowBadDate = Some (VStr "soon")
  /\ dateOf sampleDateParse (VStr "soon") = None
  /\ rowField (transformRow sampleClock sampleDateParse (VStr "u1") rowBadDate 0 0)
       "dateOfPurchase" = Some (VDate (sampleClock 0))
  /\ VDate (sampleClock 0) ≠ VNull.
Proof.
  split; [vm_compute; reflexivity|]. split; [vm_compute; reflexivity|].
  split; [vm_compute; reflexivity | done].
Qed.

Lemma text_fields_defaulted_witness :
  deviceCallable rowLowercaseDevice = true
  /\ exists a n',
       transformRow sampleClock sampleDateParse (VStr "u1") rowLowercaseDevice 0 0
       = inr (a, n')
       /\ (forall f, f ∈ textFields ->
             exists v, a !! f = Some v /\ truthy v = true /\ v ≠ VStr "")
       /\ (forall f, f ∈ textFields -> f ≠ "device" ->
             a !! f = Some (match lastMapped f rowLowercaseDevice with
                            | Some cell => if truthy (trimCell cell)
                                           then trimCell cell else VStr "NA"
                            | None => VStr "NA"
                            end))
       /\ (exists dev, textOrNA (mappedText "device" rowLowercaseDevice) = VStr dev
                       /\ a !! "device" = Some (VStr (deviceFor dev))).
Proof.
  split; [vm_compute; reflexivity|].
  apply text_fields_defaulted. vm_compute; reflexivity.
Defined.

(** C4 as stated fails: the device cell " laptop " is trimmed to "laptop",
    and the output row holds "Laptop". *)
Lemma device_is_not_the_trimmed_cell :
  lastMapped "device" rowLowercaseDevice = Some (VStr " laptop ")
  /\ trimCell (VStr " laptop ") = VStr "laptop"
  /\ rowField (transformRow sampleClock sampleDateParse (VStr "u1")
                 rowLowercaseDevice 0 0) "device" = Some (VStr "Laptop")
  /\ VStr "Laptop" ≠ VStr "laptop".
Proof.
  split; [vm_compute; reflexivity|]. split; [vm_compute; reflexivity|].
  split; [vm_compute; reflexivity | done].
Qed.

Lemma sampleRows_transformed :
  transformRows sampleClock sampleDateParse (VStr "u1") sampleRows 0 0
  = inr (sampleAssets, sampleReads).
Proof.
  assert (Forall (fun row => deviceCallable row = true) sampleRows) as HF
    by repeat constructor.
  destruct (transformRows_returns sampleClock sampleDateParse (VStr "u1") sampleRows
              0 0 HF) as (assets & n' & Ht & _).
  unfold sampleAssets, sampleReads. by rewrite Ht.
Qed.

Lemma generated_serials_witness :
  Forall (fun row => deviceCallable row = true) sampleRows
  /\ exists a,
       sampleAssets !! 0%nat = Some a
       /\ a !! "serialNumber" = Some (VStr "IT-20261103-000001-0001")
       /\ forall aj, sampleAssets !! 1%nat = Some aj ->
            a !! "serialNumber" ≠ aj !! "serialNumber".
Proof.
  assert (Forall (fun row => deviceCallable row = true) sampleRows) as HF.
  { repeat constructor. }
  split; [exact HF|].
  destruct (generated_serials sampleClock sampleDateParse (VStr "u1") sampleRows HF)
    as (assets & n' & Ht & Hform & Hdist).
  assert (assets = sampleAssets) as ->.
  { unfold sampleAssets. by rewrite Ht. }
  destruct (Hform 0%nat rowNoSerial eq_refl eq_refl) as (a & now & Ha & _ & _ & _ & _).
  exists a. split; [exact Ha|]. split.
  - assert (sampleAssets !! 0%nat ≫= (fun a => a !! "serialNumber")
            = Some (VStr "IT-20261103-000001-0001")) as H by (vm_compute; reflexivity).
    rewrite Ha in H. exact H.
  - intros aj Haj.
    exact (Hdist 0%nat 1%nat rowNoSerial rowAllBlank a aj ltac:(lia) eq_refl eq_refl
             eq_refl eq_refl Ha Haj).
Defined.

Lemma row_filter_witness :
  transformRows sampleClock sampleDateParse (VStr "u1") sampleRows 0 0
  = inr (sampleAssets, sampleReads)
  /\ exists r st' handed body,
       uploadExcel (list asset * list (list asset))
         (recording sampleInsertMany)
         sampleClock sampleDateParse (sampleUpload sampleRows) ([], [])
       = Some (Sent r, (st', [] ++ handed))
       /\ status r = 201%Z
       /\ concat handed = validAssetsOf sampleAssets
       /\ data r = Some body
       /\ body !! "skippedEmptyRows"
          = Some (DNum (Z.of_nat
               (length (List.filter (fun a => negb (hasData a)) sampleAssets)))).
Proof.
  assert (transformRows sampleClock sampleDateParse (VStr "u1") sampleRows 0 0
          = inr (sampleAssets, sampleReads)) as Ht by apply sampleRows_transformed.
  split; [exact Ht|].
  refine (proj1 (proj2 (proj2 (row_filter (list asset)
            sampleInsertMany
            sampleClock sampleDateParse (sampleUpload sampleRows) [] [] sampleRows
            sampleAssets sampleReads eq_refl eq_refl _ _ Ht))) _).
  - done.
  - simpl. lia.
  - assert (length (validAssetsOf sampleAssets) = 1%nat) as H by (vm_compute; reflexivity).
    intros E. pose proof (eq_trans (eq_sym H) (f_equal length E)) as C.
    discriminate C.
Defined.

(** C6 as stated fails: both rows fail the test of the filter and are
    dropped, nothing is handed to the store, and the answer, a 400, has no
    [skippedEmptyRows]. *)
Lemma dropped_rows_not_counted :
  match transformRows sampleClock sampleDateParse (VStr "u1")
          [rowAllBlank; rowAllBlank] 0 0 with
  | inr (assets, _) => length assets = 2%nat /\ List.filter hasData assets = []
  | inl _ => False
  end
  /\ uploadExcel (list asset * list (list asset)) (recording acceptAll)
       sampleClock sampleDateParse (sampleUpload [rowAllBlank; rowAllBlank]) ([], [])
     = Some (Sent (noValidRecords [rowAllBlank; rowAllBlank]), ([], []))
  /\ status (noValidRecords [rowAllBlank; rowAllBlank]) = 400%Z
  /\ forall body,
       data (noValidRecords [rowAllBlank; rowAllBlank]) = Some body ->
       body !! "skippedEmptyRows" = None.
Proof.
  split; [vm_compute; split; reflexivity|].
  split; [vm_compute; reflexivity|]. split; [reflexivity|].
  intros body [= <-]. by rewrite !lookup_insert_ne, !lookup_singleton_ne.
Qed.




Lemma bulk_createdBy_overwritten_witness :
  exists handed,
    (bulkCreateAssets (list asset * list (list asset)) (recording storeDown)
       sampleBulk ([], [])).2.2 = [] ++ [handed]
    /\ length handed = 1%nat
    /\ forall i a, [sampleAsset] !! i = Some a ->
         exists a', handed !! i = Some a'
                    /\ a' !! "createdBy" = Some (VStr "u1")
                    /\ forall f, f ≠ "createdBy" -> a' !! f = a !! f.
Proof.
  apply (bulk_createdBy_overwritten (list asset) storeDown sampleBulk [] []
           [sampleAsset] eq_refl).
  - done.
  - simpl. lia.
  - reflexivity.
Defined.

(** * Further properties of the import *)

(** ** Device spellings *)

Lemma deviceFor_valid d dev :
  d ∈ validDevices ->
  JsString.toLowerCase dev = JsString.toLowerCase d ->
  deviceFor dev = d.
Proof.
  intros Hd E. unfold deviceFor. rewrite E.
  cbv [validDevices] in Hd. rewrite !elem_of_cons, elem_of_nil in Hd.
  destruct Hd as [->|[->|[->|[->|[->|[->|[->|[->|[->|[->|[]]]]]]]]]]]; reflexivity.
Qed.

Lemma normalizeDevice_text (a : asset) dev :
  get a "device" = VStr dev -> dev ≠ "" ->
  normalizeDevice a = inr (<["device" := VStr (deviceFor dev)]> a).
Proof.
  intros Hd Hne. unfold normalizeDevice, deviceFor. rewrite Hd. cbn [truthy].
  destruct (String.eqb_spec dev ""); [done|]. cbn [negb].
  destruct (List.find _ validDevices) as [d|] eqn:Hf; [|done].
  apply find_some in Hf as [Hin _].
  assert (d ≠ "") as Hd'.
  { intros ->. cbv [validDevices In] in Hin. intuition discriminate. }
  destruct (String.eqb_spec d ""); done.
Qed.

(** X1.  The device step is insensitive to letter case and idempotent: a
    row whose device is a text equal to one of the ten valid devices up to
    case gets that device in its own spelling; whenever the step returns,
    the device it has written is a valid device, and running the step
    again on the row changes nothing. *)
Theorem device_spelling_canonical (a : asset) :
  (forall dev d,
     get a "device" = VStr dev -> d ∈ validDevices ->
     JsString.toLowerCase dev = JsString.toLowerCase d ->
     normalizeDevice a = inr (<["device" := VStr d]> a))
  /\ (forall a',
        normalizeDevice a = inr a' ->
        (exists d, d ∈ validDevices /\ a' !! "device" = Some (VStr d))
        /\ normalizeDevice a' = inr a').
Proof.
  assert (forall d, d ∈ validDevices -> d ≠ "") as Hne.
  { intros d Hd ->. cbv [validDevices] in Hd.
    rewrite !elem_of_cons, elem_of_nil in Hd. intuition discriminate. }
  assert (forall dev, deviceFor dev ∈ validDevices) as Hin.
  { intros dev. destruct (deviceFor_cases dev) as [E|[H _]]; [|done].
    rewrite E. cbv [validDevices]. rewrite !elem_of_cons. tauto. }
  assert (forall (b : asset) d, d ∈ validDevices ->
            normalizeDevice (<["device" := VStr d]> b) = inr (<["device" := VStr d]> b))
    as Hidem.
  { intros b d Hd.
    rewrite (normalizeDevice_text _ d) by (by rewrite ?get_insert_eq; auto).
    rewrite (deviceFor_valid d d) by done. by rewrite insert_insert_eq. }
  split.
  - intros dev d Hg Hd E.
    rewrite (normalizeDevice_text a dev Hg).
    + by rewrite (deviceFor_valid d dev).
    + intros ->. destruct d; [by apply (Hne "") | discriminate E].
  - intros a' H.
    assert ("Other" ∈ validDevices) as Ho
      by (cbv [validDevices]; rewrite !elem_of_cons; tauto).
    assert (exists d, d ∈ validDevices /\ a' = <["device" := VStr d]> a)
      as (d & Hd & ->).
    { destruct (get a "device") as [| |b|n|dev|t] eqn:Hg.
      5:{ destruct (decide (dev = "")) as [->|Hd].
          - unfold normalizeDevice in H. rewrite Hg in H. cbn in H.
            injection H as <-. by exists "Other".
          - rewrite (normalizeDevice_text a dev Hg Hd) in H. injection H as <-.
            by exists (deviceFor dev). }
      all: unfold normalizeDevice in H; rewrite Hg in H; cbn [truthy] in H.
      - injection H as <-. by exists "Other".
      - injection H as <-. by exists "Other".
      - destruct b; [discriminate H|]. injection H as <-. by exists "Other".
      - destruct (n =? 0)%Z; cbn [negb] in H; [|discriminate H].
        injection H as <-. by exists "Other".
      - discriminate H. }
    split; [|by apply Hidem].
    exists d. split; [done | apply lookup_insert_eq].
Qed.

Lemma device_spelling_canonical_witness :
  "Network Device" ∈ validDevices
  /\ normalizeDevice {[ "device" := VStr "NETWORK device" ]}
     = inr (<["device" := VStr "Network Device"]>
              ({[ "device" := VStr "NETWORK device" ]} : asset)).
Proof.
  assert ("Network Device" ∈ validDevices) as H
    by (cbv [validDevices]; rewrite !elem_of_cons; tauto).
  split; [exact H|].
  exact (proj1 (device_spelling_canonical {[ "device" := VStr "NETWORK device" ]})
           "NETWORK device" "Network Device" eq_refl H eq_refl).
Defined.

(** ** Rows the import cannot read *)

Lemma deviceCallable_false row :
  deviceCallable row = false
  <-> exists v, lastMapped "device" row = Some v
                /\ truthy (trimCell v) = true /\ forall s, v ≠ VStr s.
Proof.
  unfold deviceCallable, textOrNA, mappedText.
  destruct (lastMapped "device" row) as [v|]; simpl.
  - destruct (truthy (trimCell v)) eqn:T.
    + destruct v; simpl in *; split; try done; try (intros _; by eexists).
      intros (w & [= <-] & _ & H). by destruct (H s).
    + split; [done|]. intros (w & [= <-] & ? & _). congruence.
  - split; [done|]. by intros (v & ? & _).
Qed.

Section UploadThrows.
Variable S : Type.
Variable insertMany : S -> list asset -> (error + list asset) * S.
Variable clock : nat -> Z.
Variable dateParse : string -> option Z.

(** X2.  One row whose device cell is a truthy value that is not a string
    (a number, [true], a date) makes [uploadExcel] call a method of a
    non-string: the whole upload ends in [next(err)] with a TypeError,
    nothing is handed to the store, and the error handler answers 500. *)
Theorem upload_device_not_a_string req st rawData row v :
  up_file req = Some (inr rawData) ->
  truthy (up_createdBy req) = true ->
  (length rawData <= 5000)%nat ->
  row ∈ rawData ->
  lastMapped "device" row = Some v ->
  truthy v = true -> (forall s, v ≠ VStr s) ->
  uploadExcel (S * list (list asset)) (recording insertMany) clock dateParse req (st, [])
  = Some (Next (typeError "asset.device.toLowerCase is not a function"), (st, []))
  /\ exists r, served (Next (typeError "asset.device.toLowerCase is not a function"))
               = inr r /\ status r = 500%Z /\ success r = false.
Proof.
  intros Hf T Hlen Hin Hv Tv Hns. split.
  - unfold uploadExcel. rewrite Hf, T. cbn [negb].
    destruct rawData as [|r0 rest]; [by apply elem_of_nil in Hin|].
    replace (length (r0 :: rest) =? 0)%nat with false by done.
    replace (5000 <? length (r0 :: rest))%nat with false
      by (symmetry; by apply Nat.ltb_ge).
    rewrite transformRows_throws; [reflexivity|].
    apply Exists_exists. exists row. split; [done|].
    apply deviceCallable_false. exists v. split; [done|]. split; [|done].
    destruct v; simpl in *; try done. by destruct (Hns s).
  - eexists. split; [reflexivity|]. done.
Qed.

End UploadThrows.

Lemma upload_device_not_a_string_witness :
  uploadExcel (list asset * list (list asset)) (recording storeDown)
    sampleClock sampleDateParse (sampleUpload [rowNoSerial; rowNumericDevice]) ([], [])
  = Some (Next (typeError "asset.device.toLowerCase is not a function"), ([], [])).
Proof.
  refine (proj1 (upload_device_not_a_string (list asset) storeDown sampleClock
            sampleDateParse (sampleUpload [rowNoSerial; rowNumericDevice]) []
            [rowNoSerial; rowNumericDevice] rowNumericDevice (VNum 5)
            eq_refl eq_refl _ _ _ eq_refl _)).
  - simpl. lia.
  - apply list_elem_of_further, list_elem_of_here.
  - vm_compute. reflexivity.
  - done.
Defined.

(** ** Serials *)

(** X3.  The row number comes back out of a generated serial: the digits
    after its last hyphen denote the 1-based index of the row, for every
    time of generation and every index. *)
Theorem generated_serial_round_trip now index :
  serialIndex (generatedSerial now index) = Some (index + 1)%nat.
Proof. apply serialIndex_generatedSerial. Qed.

(** ** The filter *)

Lemma existsb_agree {A} (p q : A -> bool) (l : list A) :
  (forall x, x ∈ l -> p x = q x) -> existsb p l = existsb q l.
Proof.
  induction l as [|x l IH]; intros H; [done|]. cbn [existsb].
  rewrite (H x) by apply list_elem_of_here.
  rewrite IH; [done|]. intros y Hy. apply H. by apply list_elem_of_further.
Qed.

Lemma hasData_delete_rowIndex a : hasData (delete "_rowIndex" a) = hasData a.
Proof.
  unfold hasData. apply existsb_agree.
  intros f Hf.
  assert (get (delete "_rowIndex" a) f = get a f) as ->; [|done].
  unfold get. rewrite lookup_delete_ne; [done|].
  cbv [meaningfulFields] in Hf. rewrite !elem_of_cons, elem_of_nil in Hf.
  intuition congruence.
Qed.

(** X4.  Filtering is idempotent: every kept row still passes the filter's
    test, so filtering the kept rows again keeps them all, and a kept row
    has no [_rowIndex]. *)
Theorem filter_idempotent assets :
  List.filter hasData (validAssetsOf assets) = validAssetsOf assets
  /\ validAssetsOf (validAssetsOf assets) = validAssetsOf assets
  /\ forall b, b ∈ validAssetsOf assets -> b !! "_rowIndex" = None.
Proof.
  assert (List.filter hasData (validAssetsOf assets) = validAssetsOf assets) as H1.
  { unfold validAssetsOf. induction assets as [|a assets IH]; [done|].
    cbn [List.filter]. destruct (hasData a) eqn:E; [|exact IH].
    cbn [fmap list_fmap List.filter]. rewrite hasData_delete_rowIndex, E.
    f_equal. exact IH. }
  split; [exact H1|]. split.
  - unfold validAssetsOf at 1. rewrite H1.
    unfold validAssetsOf. rewrite <- list_fmap_compose.
    apply list_fmap_ext. intros _ a _. simpl. by rewrite delete_delete_eq.
  - intros b Hb. unfold validAssetsOf in Hb.
    apply list_elem_of_fmap in Hb as (a & -> & _). apply lookup_delete_eq.
Qed.

(** ** The keys of a normalised row *)

Lemma defaultText_lookup_ne (a : asset) g f :
  f ≠ g -> defaultText a g !! f = a !! f.
Proof.
  intros Hne. unfold defaultText. destruct (_ || _); [|done].
  by rewrite lookup_insert_ne.
Qed.

Lemma foldl_defaultText_lookup_ne fields : forall (a : asset) f,
  f ∉ fields -> foldl defaultText a fields !! f = a !! f.
Proof.
  induction fields as [|g fields IH]; intros a f Hf; [done|].
  apply not_elem_of_cons in Hf as [Hne Hf]. cbn [foldl].
  rewrite IH by done. by apply defaultText_lookup_ne.
Qed.

Lemma normalizeDevice_lookup_ne (a d : asset) f :
  normalizeDevice a = inr d -> f ≠ "device" -> d !! f = a !! f.
Proof.
  unfold normalizeDevice. intros H Hne.
  destruct (truthy (get a "device")).
  - destruct (get a "device"); try done.
    injection H as <-. by rewrite lookup_insert_ne.
  - injection H as <-. by rewrite lookup_insert_ne.
Qed.

Lemma defaultStatus_lookup_ne (a : asset) f :
  f ≠ "status" -> defaultStatus a !! f = a !! f.
Proof.
  intros Hne. unfold defaultStatus. destruct (_ || _); [|done].
  by rewrite lookup_insert_ne.
Qed.

Section RowKeys.
Variable clock : nat -> Z.
Variable dateParse : string -> option Z.

(** The steps after the column mapping write only the text fields and the
    status, date, serial and row-index fields. *)
Lemma transformRow_lookup_other createdBy row index n a n' f :
  transformRow clock dateParse createdBy row index n = inr (a, n') ->
  f ∉ textFields -> f ≠ "status" -> f ≠ "dateOfPurchase" ->
  f ≠ "serialNumber" -> f ≠ "_rowIndex" ->
  a !! f = mapColumns dateParse createdBy row !! f.
Proof.
  intros H Htx Hst Hdt Hsn Hri.
  assert (f ≠ "device") as Hdv.
  { intros ->. apply Htx. cbv [textFields]. rewrite !elem_of_cons. tauto. }
  unfold transformRow, bind, liftE in H.
  destruct (normalizeDevice _) as [e|d] eqn:Hd; [done|].
  assert (defaultStatus d !! f = mapColumns dateParse createdBy row !! f) as Hs.
  { rewrite defaultStatus_lookup_ne by done.
    rewrite (normalizeDevice_lookup_ne _ _ _ Hd) by done.
    by apply foldl_defaultText_lookup_ne. }
  unfold defaultDate, defaultSerial, newDate, ret, bind in H.
  destruct (negb (truthy (get (defaultStatus d) "dateOfPurchase")));
    destruct (needsSerial _); injection H as <- <-;
    repeat (rewrite lookup_insert_ne by done); exact Hs.
Qed.

(** X5.  A normalised row has the fourteen keys of [rowKeys]: the creator,
    the twelve schema fields and the row index, whatever the columns of
    the sheet.  Besides them it can only have the two keys a header writes
    through a key that the object literal [columnMap] inherits, and has
    each exactly when a header of the row normalises to [constructor] or
    to [__proto__]; no other header adds a key. *)
Theorem normalised_row_keys createdBy row index n a n' :
  transformRow clock dateParse createdBy row index n = inr (a, n') ->
  forall f, is_Some (a !! f)
            <-> f ∈ rowKeys \/ (f ∈ inheritedFields /\ is_Some (lastMapped f row)).
Proof.
  intros H f.
  assert (deviceCallable row = true) as Hc.
  { destruct (deviceCallable row) eqn:E; [done|].
    by rewrite transformRow_throws in H. }
  destruct (transformRow_returns clock dateParse createdBy row index n Hc)
    as (a0 & n0 & Ha & R).
  rewrite H in Ha. injection Ha as <- <-.
  assert (forall g, truthy (get a g) = true -> is_Some (a !! g)) as Htr.
  { intros g T. rewrite (truthy_get_Some _ _ T). by eexists. }
  assert (f ∉ rowKeys ->
          a !! f = mapColumns dateParse createdBy row !! f
          /\ f ≠ "createdBy") as Hother.
  { intros Hout. cbv [rowKeys] in Hout. rewrite !not_elem_of_cons in Hout.
    destruct Hout as (? & ? & ? & ? & ? & ? & ? & ? & ? & ? & ? & ? & ? & ? & _).
    split; [|done].
    apply (transformRow_lookup_other _ _ _ _ _ _ _ H); try done.
    cbv [textFields]. rewrite !not_elem_of_cons. repeat split; try done.
    apply not_elem_of_nil. }
  assert (mapColumns dateParse createdBy row !! "" = None) as Hempty.
  { unfold mapColumns.
    assert (forall r (m : asset), m !! "" = None ->
              foldl (mapColumn dateParse) m r !! "" = None) as He.
    { induction r as [|kv r IH]; intros m Hm; [done|]. cbn [foldl].
      apply IH. unfold mapColumn.
      destruct (columnMap !! _) as [g|]; [|done].
      destruct (decide (g = "")) as [->|Hg]; [done|].
      destruct (truthy (VStr g)); [|done]. by rewrite lookup_insert_ne. }
    by apply He. }
  split.
  - intros Hs. destruct (decide (f ∈ rowKeys)) as [|Hout]; [by left|]. right.
    destruct (Hother Hout) as [E Hcb]. rewrite E in Hs.
    destruct (decide (f = "")) as [->|Hne]; [rewrite Hempty in Hs; by destruct Hs|].
    rewrite mapColumns_lookup in Hs by done.
    assert (is_Some (lastMapped f row)) as Hl.
    { destruct (lastMapped f row); [by eexists | by destruct Hs]. }
    split; [|done].
    destruct (decide (f ∈ columnFields)) as [Hcf|Hcf].
    + unfold columnFields in Hcf. apply elem_of_app in Hcf as [Hsf|Hi]; [|done].
      exfalso. apply Hout. cbv [schemaFields] in Hsf. cbv [rowKeys].
      rewrite !elem_of_cons, elem_of_nil in Hsf. rewrite !elem_of_cons. tauto.
    + rewrite (lastMapped_unknown _ _ Hcf) in Hl. by destruct Hl.
  - intros [Hin|[Hi Hl]].
    2:{ assert (f ∉ rowKeys) as Hout.
        { cbv [inheritedFields inheritedColumns fmap list_fmap snd] in Hi.
          rewrite !elem_of_cons, elem_of_nil in Hi.
          cbv [rowKeys]. rewrite !elem_of_cons, elem_of_nil.
          intuition (subst; discriminate). }
        destruct (Hother Hout) as [E Hcb]. rewrite E.
        assert (f ≠ "") as Hne.
        { intros ->. cbv [inheritedFields inheritedColumns fmap list_fmap snd] in Hi.
          rewrite !elem_of_cons, elem_of_nil in Hi.
          intuition discriminate. }
        rewrite mapColumns_lookup by done.
        destruct Hl as [v ->]. by eexists. }
    cbv [rowKeys] in Hin. rewrite !elem_of_cons, elem_of_nil in Hin.
    assert (forall g, g ∈ textFields -> is_Some (a !! g)) as Htext.
    { intros g Hg. apply Htr. by eapply rowResult_truthy. }
    assert (forall g, In g textFields -> is_Some (a !! g)) as Htext'.
    { intros g Hg. apply Htext. by apply list_elem_of_In. }
    destruct Hin as [->|[->|[->|[->|[->|[->|[->|[->|[->|[->|[->|[->|[->|[->|[]]]]]]]]]]]]]]];
      try (apply Htext'; cbv [textFields In]; tauto).
    + rewrite (transformRow_lookup_other _ _ _ _ _ _ _ H); try done.
      * rewrite mapColumns_createdBy. by eexists.
      * cbv [textFields]. rewrite !not_elem_of_cons. repeat split; try done.
        apply not_elem_of_nil.
    + pose proof (rr_serial _ _ _ _ _ _ _ _ R) as Hs.
      destruct (serialMissing row) eqn:Em.
      * rewrite (get_lookup _ _ _ Hs) by done. by eexists.
      * apply Htr. rewrite Hs. unfold serialMissing in Em.
        apply orb_false_iff in Em as [Em _]. by apply negb_false_iff in Em.
    + pose proof (rr_date _ _ _ _ _ _ _ _ R) as Hd.
      destruct (truthy (mappedValue dateParse "dateOfPurchase" row)) eqn:Td.
      * apply Htr. by rewrite Hd.
      * rewrite (get_lookup _ _ _ Hd) by done. by eexists.
    + pose proof (rr_status _ _ _ _ _ _ _ _ R) as Hs. apply Htr. rewrite Hs.
      by destruct (truthy (mappedText "status" row)) eqn:Ts.
    + pose proof (rr_rowIndex _ _ _ _ _ _ _ _ R) as Hr.
      rewrite (get_lookup _ _ _ Hr) by done. by eexists.
Qed.

End RowKeys.

Lemma normalised_row_keys_witness :
  exists a n',
    transformRow sampleClock sampleDateParse (VStr "u1") rowConstructor 0 0
    = inr (a, n')
    /\ is_Some (a !! "function Object() { [native code] }")
    /\ ~ is_Some (a !! "Constructor").
Proof.
  destruct (transformRow_returns sampleClock sampleDateParse (VStr "u1")
              rowConstructor 0 0 eq_refl) as (a & n' & Ha & _).
  exists a, n'. split; [exact Ha|].
  pose proof (normalised_row_keys sampleClock sampleDateParse (VStr "u1")
                rowConstructor 0 0 a n' Ha) as H.
  split.
  - apply (proj2 (H _)). right. split.
    + apply list_elem_of_here.
    + exists (VStr " x "). reflexivity.
  - intros Hs. apply (proj1 (H _)) in Hs as [Hs|[Hs _]].
    + cbv [rowKeys] in Hs. rewrite !elem_of_cons, elem_of_nil in Hs.
      intuition discriminate.
    + cbv [inheritedFields inheritedColumns fmap list_fmap snd] in Hs.
      rewrite !elem_of_cons, elem_of_nil in Hs. intuition discriminate.
Defined.

(** ** What every row is stamped with *)

Section Stamps.
Variable clock : nat -> Z.
Variable dateParse : string -> option Z.

Lemma transformRow_inr_result createdBy row index n a n' :
  transformRow clock dateParse createdBy row index n = inr (a, n') ->
  rowResult clock dateParse createdBy row index n a n'.
Proof.
  intros H.
  assert (deviceCallable row = true) as Hc.
  { destruct (deviceCallable row) eqn:E; [done|].
    by rewrite transformRow_throws in H. }
  destruct (transformRow_returns clock dateParse createdBy row index n Hc)
    as (a0 & n0 & Ha & R).
  rewrite H in Ha. by injection Ha as <- <-.
Qed.

Lemma transformRows_each createdBy rows : forall index n assets n',
  transformRows clock dateParse createdBy rows index n = inr (assets, n') ->
  forall i row a, rows !! i = Some row -> assets !! i = Some a ->
    exists k k', transformRow clock dateParse createdBy row (index + i) k = inr (a, k').
Proof.
  induction rows as [|r rows IH]; intros index n assets n' H i row a Hi Ha; [done|].
  cbn [transformRows] in H. unfold bind at 1 in H.
  destruct (transformRow clock dateParse createdBy r index n) as [e|[a0 n0]] eqn:E0;
    [done|].
  unfold bind at 1 in H.
  destruct (transformRows clock dateParse createdBy rows (S index) n0)
    as [e|[l n1]] eqn:E1; [done|].
  injection H as <- <-.
  destruct i as [|i]; simpl in Hi, Ha.
  - injection Hi as <-. injection Ha as <-. rewrite Nat.add_0_r. by exists n, n0.
  - destruct (IH _ _ _ _ E1 i row a Hi Ha) as (k & k' & Hk).
    exists k, k'. by replace (index + S i)%nat with (S index + i)%nat by lia.
Qed.

(** X6.  Every row of an import carries the request's [createdBy], the
    number of its line in the sheet (its index plus two: the header is
    line one) and a status: the status cell when it has one, "Active"
    otherwise. *)
Theorem row_stamps createdBy rawData assets n' i a :
  transformRows clock dateParse createdBy rawData 0 0 = inr (assets, n') ->
  assets !! i = Some a ->
  exists row,
    rawData !! i = Some row
    /\ a !! "createdBy" = Some createdBy
    /\ a !! "_rowIndex" = Some (VNum (Z.of_nat i + 2))
    /\ a !! "status"
       = Some (if truthy (mappedText "status" row) then mappedText "status" row
               else VStr "Active").
Proof.
  intros H Ha.
  destruct (transformRows_rows _ _ _ _ _ _ _ _ H) as (Hlen & _).
  assert (is_Some (rawData !! i)) as [row Hrow].
  { apply lookup_lt_is_Some. rewrite <- Hlen. by eapply lookup_lt_Some. }
  exists row. split; [done|].
  destruct (transformRows_each _ _ _ _ _ _ H i row a Hrow Ha) as (k & k' & Ht).
  pose proof (transformRow_inr_result _ _ _ _ _ _ Ht) as R.
  split; [|split].
  - rewrite (transformRow_lookup_other _ _ _ _ _ _ _ _ "createdBy" Ht); try done.
    + apply mapColumns_createdBy.
    + cbv [textFields]. rewrite !not_elem_of_cons. repeat split; try done.
      apply not_elem_of_nil.
  - apply get_lookup; [|done]. by rewrite (rr_rowIndex _ _ _ _ _ _ _ _ R).
  - pose proof (rr_status _ _ _ _ _ _ _ _ R) as Hs.
    apply get_lookup; [done|].
    destruct (truthy (mappedText "status" row)) eqn:T; [|done].
    intros E. by rewrite E in T.
Qed.

End Stamps.

Lemma row_stamps_witness :
  exists a row,
    sampleAssets !! 1%nat = Some a
    /\ sampleRows !! 1%nat = Some row
    /\ a !! "createdBy" = Some (VStr "u1")
    /\ a !! "_rowIndex" = Some (VNum 3).
Proof.
  destruct (lookup_lt_is_Some_2 sampleAssets 1) as [a Ha].
  { assert (length sampleAssets = 2%nat) as -> by (vm_compute; reflexivity). lia. }
  destruct (row_stamps sampleClock sampleDateParse (VStr "u1") sampleRows sampleAssets
              sampleReads 1 a sampleRows_transformed Ha)
    as (row & Hrow & Hc & Hr & _).
  exists a, row. split; [exact Ha|]. split; [exact Hrow|]. split; [exact Hc | exact Hr].
Defined.

(** ** Batches *)

Lemma length_concat_le {A} (n : nat) (ls : list (list A)) :
  Forall (fun l => (length l <= n)%nat) ls ->
  (length (concat ls) <= length ls * n)%nat.
Proof.
  induction 1 as [|l ls Hl _ IH]; [done|].
  cbn [concat length]. rewrite length_app. lia.
Qed.

Section Batches.
Variable S : Type.
Variable insertMany : S -> list asset -> (error + list asset) * S.
Variable clock : nat -> Z.
Variable dateParse : string -> option Z.

(** X7.  An upload that keeps at least one row hands the kept rows to the
    store in order, in batches of 500 with a shorter last one: no batch is
    empty, the k-th batch is rows 500k to 500k+499, the batches together
    are exactly the kept rows, and there are as few batches as that
    allows. *)
Theorem upload_batches req st log rawData assets n' :
  up_file req = Some (inr rawData) ->
  truthy (up_createdBy req) = true ->
  rawData ≠ [] -> (length rawData <= 5000)%nat ->
  transformRows clock dateParse (up_createdBy req) rawData 0 0 = inr (assets, n') ->
  validAssetsOf assets ≠ [] ->
  exists r st' handed,
    uploadExcel (S * list (list asset)) (recording insertMany) clock dateParse
      req (st, log) = Some (Sent r, (st', log ++ handed))
    /\ concat handed = validAssetsOf assets
    /\ Forall (fun b => b ≠ [] /\ (length b <= 500)%nat) handed
    /\ (forall k b, handed !! k = Some b ->
          b = take 500 (drop (k * 500) (validAssetsOf assets)))
    /\ ((length handed - 1) * 500 < length (validAssetsOf assets)
        <= length handed * 500)%nat.
Proof.
  intros Hf T Hne Hlen Ht Hv.
  destruct (uploadExcel_inserted _ (recording insertMany) clock dateParse
              req (st, log) rawData assets n' Hf T Hne Hlen Ht Hv)
    as ([st' log'] & r & msg & Hloop & Hup).
  apply insertLoop_recording in Hloop as (handed & -> & Hc & HF & Hk).
  rewrite drop_0 in Hc.
  eexists _, st', handed. split; [exact Hup|]. split; [exact Hc|].
  split; [exact HF|]. split; [intros k b Hb; by rewrite (Hk k b Hb)|].
  split.
  - destruct handed as [|b0 handed'] eqn:Eh using rev_ind.
    + simpl. destruct (validAssetsOf assets); [done | simpl; lia].
    + clear IHhanded'. rewrite length_app. cbn [length].
      replace (length handed' + 1 - 1)%nat with (length handed') by lia.
      assert ((handed' ++ [b0]) !! length handed' = Some b0) as Hl
        by apply list_lookup_middle, eq_refl.
      pose proof (Hk _ _ Hl) as Eb. cbn [Nat.add] in Eb.
      apply Forall_app in HF as [_ HF]. apply Forall_singleton in HF as [Hb0 _].
      destruct (decide (length handed' * 500 < length (validAssetsOf assets))%nat)
        as [|Hge]; [done|].
      exfalso. apply Hb0. rewrite Eb. rewrite drop_ge; [done|].
      unfold batchSize. lia.
  - rewrite <- Hc. apply length_concat_le.
    eapply Forall_impl; [exact HF|]. by intros b [_ ?].
Qed.

End Batches.

Lemma upload_batches_witness :
  exists r st' handed,
    uploadExcel (list asset * list (list asset)) (recording storeDown)
      sampleClock sampleDateParse (sampleUpload sampleRows) ([], [])
    = Some (Sent r, (st', [] ++ handed))
    /\ concat handed = validAssetsOf sampleAssets
    /\ length handed = 1%nat.
Proof.
  destruct (upload_batches (list asset) storeDown sampleClock sampleDateParse
              (sampleUpload sampleRows) [] [] sampleRows sampleAssets sampleReads
              eq_refl eq_refl) as (r & st' & handed & Hu & Hc & _ & _ & Hn1 & Hn2).
  - done.
  - simpl. lia.
  - apply sampleRows_transformed.
  - assert (length (validAssetsOf sampleAssets) = 1%nat) as H by (vm_compute; reflexivity).
    intros E. pose proof (eq_trans (eq_sym H) (f_equal length E)) as C. discriminate C.
  - exists r, st', handed. split; [exact Hu|]. split; [exact Hc|].
    assert (length (validAssetsOf sampleAssets) = 1%nat) as H by (vm_compute; reflexivity).
    rewrite H in Hn1, Hn2. lia.
Defined.

(** ** The outcomes of an upload *)

Section Outcomes.
Variable S : Type.
Variable insertMany : S -> list asset -> (error + list asset) * S.
Variable clock : nat -> Z.
Variable dateParse : string -> option Z.

(** X8.  [uploadExcel] always ends, the batch loop included.  It answers
    400, answers 201, or calls [next]; whenever the answer is not 201 the
    store is as it was before the request. *)
Theorem upload_outcomes req st :
  exists o st',
    uploadExcel S insertMany clock dateParse req st = Some (o, st')
    /\ match o with
       | Sent r => (status r = 400%Z /\ success r = false /\ st' = st)
                   \/ (status r = 201%Z /\ success r = true)
       | Next _ => st' = st
       end.
Proof.
  unfold uploadExcel.
  destruct (up_file req) as [[err|rawData]|].
  3:{ eexists _, _. split; [reflexivity|]. by left. }
  - destruct (truthy (up_createdBy req)); cbn [negb].
    + eexists _, _. split; [reflexivity|]. unfold uploadCatch.
      destruct (err_message err) as [m|]; [|done].
      destruct (JsString.includes "Encrypted" m); [by left | done].
    + eexists _, _. split; [reflexivity|]. by left.
  - destruct (truthy (up_createdBy req)); cbn [negb].
    2:{ eexists _, _. split; [reflexivity|]. by left. }
    destruct (length rawData =? 0)%nat.
    { eexists _, _. split; [reflexivity|]. by left. }
    destruct (5000 <? length rawData)%nat.
    { eexists _, _. split; [reflexivity|]. by left. }
    destruct (transformRows _ _ _ _ _ _) as [err|[assets n']].
    + eexists _, _. split; [reflexivity|]. unfold uploadCatch.
      destruct (err_message err) as [m|]; [|done].
      destruct (JsString.includes "Encrypted" m); [by left | done].
    + destruct (length (validAssetsOf assets) =? 0)%nat.
      { eexists _, _. split; [reflexivity|]. by left. }
      destruct (insertLoop_total S insertMany (length (validAssetsOf assets)) 0
                  (validAssetsOf assets) st {| inserted := []; errors := [] |})
        as (st' & r & Hl); [lia|].
      rewrite Hl. eexists _, _. split; [reflexivity|]. by right.
Qed.

(** X9.  The report of an upload that reaches the store: [totalRows] is
    the number of rows of the sheet, [skippedEmptyRows] the number of rows
    not kept, [created] and [failed] the numbers of documents and of
    errors the batches gave, and [insertErrors] the first 50 errors at
    most, whatever [failed] is. *)
Theorem upload_report req st rawData assets n' :
  up_file req = Some (inr rawData) ->
  truthy (up_createdBy req) = true ->
  rawData ≠ [] -> (length rawData <= 5000)%nat ->
  transformRows clock dateParse (up_createdBy req) rawData 0 0 = inr (assets, n') ->
  validAssetsOf assets ≠ [] ->
  exists st' res r body shown,
    insertLoop S insertMany (length (validAssetsOf assets)) 0 (validAssetsOf assets) st
      {| inserted := []; errors := [] |} = Some (st', res)
    /\ uploadExcel S insertMany clock dateParse req st = Some (Sent r, st')
    /\ status r = 201%Z /\ data r = Some body
    /\ message r = "Excel processed: " +:+ JsString.ofNat (length (inserted res))
                   +:+ " created, " +:+ JsString.ofNat (length (errors res))
                   +:+ " failed"
    /\ body !! "totalRows" = Some (DNum (Z.of_nat (length rawData)))
    /\ body !! "created" = Some (DNum (Z.of_nat (length (inserted res))))
    /\ body !! "failed" = Some (DNum (Z.of_nat (length (errors res))))
    /\ body !! "skippedEmptyRows"
       = Some (DNum (Z.of_nat (length rawData - length (validAssetsOf assets))))
    /\ (length (validAssetsOf assets) <= length rawData)%nat
    /\ body !! "insertErrors" = Some (DObjects shown)
    /\ shown = take 50 (errors res) /\ (length shown <= 50)%nat.
Proof.
  intros Hf T Hne Hlen Ht Hv.
  destruct (insertLoop_total S insertMany (length (validAssetsOf assets)) 0
              (validAssetsOf assets) st {| inserted := []; errors := [] |})
    as (st' & res & Hl); [lia|].
  assert (length (validAssetsOf assets) <= length rawData)%nat as Hle.
  { destruct (transformRows_rows _ _ _ _ _ _ _ _ Ht) as (Hlen' & _).
    rewrite validAssetsOf_length, <- Hlen'. apply filter_length_le. }
  assert (uploadExcel S insertMany clock dateParse req st
          = Some (Sent (send 201
              (Some {[ "totalRows" := DNum (Z.of_nat (length rawData));
                       "created" := DNum (Z.of_nat (length (inserted res)));
                       "failed" := DNum (Z.of_nat (length (errors res)));
                       "skippedEmptyRows" :=
                         DNum (Z.of_nat (length rawData)
                               - Z.of_nat (length (validAssetsOf assets)));
                       "insertErrors" := DObjects (take 50 (errors res)) ]})
              ("Excel processed: " +:+ JsString.ofNat (length (inserted res))
               +:+ " created, " +:+ JsString.ofNat (length (errors res))
               +:+ " failed")), st')) as Hu.
  { unfold uploadExcel. rewrite Hf, T. cbn [negb].
    destruct rawData as [|row rest]; [done|].
    replace (length (row :: rest) =? 0)%nat with false by done.
    replace (5000 <? length (row :: rest))%nat with false
      by (symmetry; by apply Nat.ltb_ge).
    rewrite Ht.
    destruct (validAssetsOf assets) as [|v vs] eqn:Ev; [done|].
    replace (length (v :: vs) =? 0)%nat with false by done.
    rewrite Hl. reflexivity. }
  exists st', res. eexists _, _, (take 50 (errors res)).
  split; [exact Hl|]. split; [exact Hu|].
  split; [done|]. split; [reflexivity|]. split; [reflexivity|].
  split; [by rewrite lookup_insert_eq|].
  split; [repeat (rewrite lookup_insert_ne by done); by rewrite lookup_insert_eq|].
  split; [repeat (rewrite lookup_insert_ne by done); by rewrite lookup_insert_eq|].
  split.
  { repeat (rewrite lookup_insert_ne by done). rewrite lookup_insert_eq.
    do 2 f_equal. lia. }
  split; [exact Hle|].
  split; [repeat (rewrite lookup_insert_ne by done); by rewrite lookup_singleton_eq|].
  split; [done|]. rewrite length_take. lia.
Qed.

End Outcomes.

Lemma upload_report_witness :
  exists st' res r body,
    uploadExcel (list asset) sampleInsertMany
      sampleClock sampleDateParse (sampleUpload sampleRows) sampleStore
    = Some (Sent r, st')
    /\ insertLoop (list asset) sampleInsertMany
         (length (validAssetsOf sampleAssets)) 0 (validAssetsOf sampleAssets) sampleStore
         {| inserted := []; errors := [] |} = Some (st', res)
    /\ data r = Some body
    /\ body !! "totalRows" = Some (DNum 2).
Proof.
  destruct (upload_report (list asset)
              sampleInsertMany
              sampleClock sampleDateParse (sampleUpload sampleRows) sampleStore
              sampleRows sampleAssets sampleReads eq_refl eq_refl)
    as (st' & res & r & body & shown & Hl & Hu & _ & Hd & _ & Ht & _).
  - done.
  - simpl. lia.
  - apply sampleRows_transformed.
  - assert (length (validAssetsOf sampleAssets) = 1%nat) as H by (vm_compute; reflexivity).
    intros E. pose proof (eq_trans (eq_sym H) (f_equal length E)) as C. discriminate C.
  - exists st', res, r, body. split; [exact Hu|]. split; [exact Hl|].
    split; [exact Hd | exact Ht].
Defined.

(** ** The error handler *)

Lemma match_11000 {A} (c : Z) (a b : A) :
  c ≠ 11000%Z -> match c with 11000%Z => a | _ => b end = b.
Proof.
  intros H. destruct c as [|p|p]; try reflexivity.
  repeat (destruct p as [p|p|]; try reflexivity).
  by destruct H.
Qed.

Lemma errorHandler_steps err :
  errorHandler err
  = let base :=
      if String.eqb (err_name err) "CastError" then (400%Z, "Invalid ID format")
      else (match err_statusCode err with
            | Some c => if (c =? 0)%Z then 500%Z else c
            | None => 500%Z
            end, orElse (err_message err) "Server Error") in
    let step2 : error + (Z * string) :=
      if bool_decide (err_code err = Some 11000%Z) then
        match err_keyValue err with
        | Some keys => inr (409%Z, "Duplicate: " +:+ List.hd "undefined" keys)
        | None => inl (typeError "Cannot convert undefined or null to object")
        end
      else inr base in
    match step2 with
    | inl e => inl e
    | inr (status, message) =>
        if String.eqb (err_name err) "ValidationError" then
          match err_errors err with
          | Some msgs => inr {| status := 400; success := false; data := None;
                                message := String.concat ", " msgs |}
          | None => inl (typeError "Cannot convert undefined or null to object")
          end
        else inr {| status := status; success := false; data := None;
                    message := message |}
    end.
Proof.
  unfold errorHandler. cbv zeta.
  destruct (String.eqb (err_name err) "CastError");
    (destruct (err_code err) as [c|]; [|reflexivity];
     destruct (decide (c = 11000%Z)) as [->|Hc];
     [reflexivity|];
     rewrite bool_decide_eq_false_2 by congruence;
     by rewrite match_11000).
Qed.

(** X10.  The error handler throws itself, a TypeError, for an error with
    code 11000 and no [keyValue], whatever its name, and for a
    ValidationError without [errors].  Whenever it answers, [success] is
    false and the status is picked in a fixed order: a ValidationError
    with [errors] gives 400 with its messages joined by ", ", whatever its
    status, and whatever its code when a code 11000 comes with [keyValue];
    otherwise a code 11000 with [keyValue] gives 409 naming the first key;
    otherwise a CastError gives 400; otherwise the status is the error's
    own non-zero [statusCode], or 500, and the message the error's, or
    "Server Error". *)
Theorem errorHandler_precedence err :
  (forall r, errorHandler err = inr r ->
     success r = false /\ data r = None
     /\ (status r = 400%Z \/ status r = 409%Z \/ status r = 500%Z
         \/ (err_statusCode err = Some (status r) /\ status r ≠ 0%Z)))
  /\ (forall msgs,
        err_name err = "ValidationError" -> err_errors err = Some msgs ->
        (err_code err = Some 11000%Z -> is_Some (err_keyValue err)) ->
        errorHandler err
        = inr {| status := 400; success := false; data := None;
                 message := String.concat ", " msgs |})
  /\ (forall keys,
        err_name err ≠ "ValidationError" ->
        err_code err = Some 11000%Z -> err_keyValue err = Some keys ->
        errorHandler err
        = inr {| status := 409; success := false; data := None;
                 message := "Duplicate: " +:+ List.hd "undefined" keys |})
  /\ (err_name err = "CastError" -> err_code err ≠ Some 11000%Z ->
      errorHandler err
      = inr {| status := 400; success := false; data := None;
               message := "Invalid ID format" |})
  /\ (err_name err ≠ "ValidationError" -> err_name err ≠ "CastError" ->
      err_code err ≠ Some 11000%Z ->
      errorHandler err
      = inr {| status := match err_statusCode err with
                         | Some c => if (c =? 0)%Z then 500%Z else c
                         | None => 500%Z
                         end;
               success := false; data := None;
               message := orElse (err_message err) "Server Error" |})
  /\ (err_code err = Some 11000%Z -> err_keyValue err = None ->
      errorHandler err = inl (typeError "Cannot convert undefined or null to object"))
  /\ (err_name err = "ValidationError" -> err_errors err = None ->
      errorHandler err = inl (typeError "Cannot convert undefined or null to object")).
Proof.
  rewrite errorHandler_steps. cbv zeta.
  split; [|split; [|split; [|split; [|split; [|split]]]]].
  6:{ intros Hc Hk. rewrite bool_decide_eq_true_2 by done. by rewrite Hk. }
  6:{ intros En Ee. rewrite En, Ee. cbn [String.eqb Ascii.eqb Bool.eqb].
      case_bool_decide as Hc.
      - by destruct (err_keyValue err).
      - by destruct (String.eqb "ValidationError" "CastError"). }
  - intros r.
    destruct (bool_decide (err_code err = Some 11000%Z)).
    + destruct (err_keyValue err); [|done].
      destruct (String.eqb (err_name err) "ValidationError").
      * destruct (err_errors err); [|done]. intros [= <-]. cbn. tauto.
      * intros [= <-]. cbn. tauto.
    + destruct (String.eqb (err_name err) "CastError");
        destruct (String.eqb (err_name err) "ValidationError");
        try (destruct (err_errors err); [|done]);
        intros [= <-]; cbn [status success data]; try tauto.
      destruct (err_statusCode err) as [c0|]; [|tauto].
      destruct (Z.eqb_spec c0 0); [tauto|]. tauto.
  - intros msgs En Ee Hk. rewrite En, Ee. simpl.
    case_bool_decide as Hc.
    + destruct (Hk Hc) as [keys ->]. done.
    + by destruct (String.eqb (err_name err) "CastError").
  - intros keys Hn Hc Hk. rewrite bool_decide_eq_true_2 by done. rewrite Hk.
    apply String.eqb_neq in Hn. by rewrite Hn.
  - intros En Hc. rewrite bool_decide_eq_false_2 by done. by rewrite En.
  - intros Hv Hn Hc. rewrite bool_decide_eq_false_2 by done.
    apply String.eqb_neq in Hv, Hn. by rewrite Hv, Hn.
Qed.

Lemma errorHandler_precedence_witness :
  errorHandler networkError
  = inr {| status := 500; success := false; data := None;
           message := "connection lost" |}.
Proof.
  refine (proj1 (proj2 (proj2 (proj2 (proj2 (errorHandler_precedence networkError)))))
            _ _ _);
    done.
Defined.

(** * The listing handlers *)

(** ** Pagination *)

Lemma ceilDiv_bounds total l :
  (1 <= l)%Z ->
  exists tp, Listing.ceilDiv total (Some l) = Some tp
             /\ ((tp - 1) * l < total <= tp * l)%Z.
Proof.
  intros Hl. exists (- ((- total) / l))%Z. split; [reflexivity|].
  pose proof (Z.div_mod (- total) l ltac:(lia)) as Hd.
  pose proof (Z.mod_pos_bound (- total) l ltac:(lia)) as Hm.
  nia.
Qed.

(** X11.  When [page] and [limit] start with a number, the page being at
    most [maxSafePage] and the count of documents a non-negative integer
    up to [maxSafeInteger] (so that the doubles of the code hold every
    number exactly), the page is at least 1, the page size is between 1
    and 100, the number of documents skipped is that of the pages before,
    and [totalPages] is the least number of pages of that size that hold
    all the documents. *)
Theorem paginate_bounds page limit total onPage p l :
  Listing.parseInt (default "1" page) = Some p ->
  Listing.parseInt (default "20" limit) = Some l ->
  (p <= Listing.maxSafePage)%Z ->
  (0 <= total <= Listing.maxSafeInteger)%Z ->
  exists c L tp,
    Listing.currentPage (Listing.paginate page limit total onPage) = Some c
    /\ Listing.itemsPerPage (Listing.paginate page limit total onPage) = Some L
    /\ Listing.totalPages (Listing.paginate page limit total onPage) = Some tp
    /\ c = Z.max 1 p /\ L = Z.max 1 (Z.min 100 l)
    /\ (1 <= c)%Z /\ (1 <= L <= 100)%Z
    /\ Listing.skipOf page limit = Some ((c - 1) * L)%Z /\ (0 <= (c - 1) * L)%Z
    /\ ((tp - 1) * L < total <= tp * L)%Z
    /\ (0 <= tp <= total)%Z
    /\ (total = 0%Z -> tp = 0%Z)
    /\ ((c - 1) * L <= Listing.maxSafeInteger)%Z.
Proof.
  intros Hp Hl Hpb Htb. unfold Listing.maxSafePage in Hpb.
  unfold Listing.maxSafeInteger in *.
  destruct (ceilDiv_bounds total (Z.max 1 (Z.min 100 l)) ltac:(lia)) as (tp & Ht & Hb).
  exists (Z.max 1 p), (Z.max 1 (Z.min 100 l)), tp.
  unfold Listing.paginate, Listing.skipOf, Listing.currentPageOf, Listing.pageLimitOf.
  rewrite Hp, Hl. cbn [Listing.currentPage Listing.itemsPerPage Listing.totalPages
                       Listing.mathMax Listing.mathMin fmap option_fmap option_map].
  split; [done|]. split; [done|]. split; [exact Ht|]. split; [done|]. split; [done|].
  split; [lia|]. split; [lia|]. split; [done|]. split; [nia|]. split; [exact Hb|].
  split; [nia|]. split; nia.
Qed.

(** X12.  With such [page], [limit] and count, [hasNextPage] holds exactly
    when documents remain after the page, and [nextPage] is then the page
    after; [hasPrevPage] holds exactly from page 2 on, and [prevPage] is
    then the page before, at least 1. *)
Theorem paginate_navigation page limit total onPage p l :
  Listing.parseInt (default "1" page) = Some p ->
  Listing.parseInt (default "20" limit) = Some l ->
  (p <= Listing.maxSafePage)%Z ->
  (0 <= total <= Listing.maxSafeInteger)%Z ->
  let pg := Listing.paginate page limit total onPage in
  let c := Z.max 1 p in
  let L := Z.max 1 (Z.min 100 l) in
  (Listing.hasNextPage pg = true <-> (c * L < total)%Z)
  /\ Listing.nextPage pg
     = (if Listing.hasNextPage pg then Some (Some (c + 1)%Z) else None)
  /\ (Listing.hasPrevPage pg = true <-> (1 < c)%Z)
  /\ Listing.prevPage pg
     = (if Listing.hasPrevPage pg then Some (Some (c - 1)%Z) else None)
  /\ (Listing.hasPrevPage pg = true -> (1 <= c - 1)%Z).
Proof.
  intros Hp Hl _ _ pg c L.
  destruct (ceilDiv_bounds total L ltac:(lia)) as (tp & Ht & Hb).
  assert (Listing.hasNextPage pg = (c <? tp)%Z) as Hn.
  { unfold pg, Listing.paginate, Listing.currentPageOf, Listing.pageLimitOf.
    rewrite Hp, Hl. cbn [Listing.hasNextPage Listing.mathMax Listing.mathMin fmap
                        option_fmap option_map]. fold L. by rewrite Ht. }
  assert (Listing.hasPrevPage pg = (1 <? c)%Z) as Hv.
  { unfold pg, Listing.paginate, Listing.currentPageOf. by rewrite Hp. }
  assert (Listing.nextPage pg
          = if Listing.hasNextPage pg then Some (Some (c + 1)%Z) else None) as Hnp.
  { unfold pg, Listing.paginate, Listing.currentPageOf, Listing.pageLimitOf.
    rewrite Hp, Hl. reflexivity. }
  assert (Listing.prevPage pg
          = if Listing.hasPrevPage pg then Some (Some (c - 1)%Z) else None) as Hpp.
  { unfold pg, Listing.paginate, Listing.currentPageOf. rewrite Hp. reflexivity. }
  split; [|split; [exact Hnp | split; [|split; [exact Hpp|]]]].
  - rewrite Hn, Z.ltb_lt. split; intros; nia.
  - by rewrite Hv, Z.ltb_lt.
  - rewrite Hv, Z.ltb_lt. lia.
Qed.

(** X13.  A [page] that does not start with a number ("", "abc") makes the
    current page NaN: nothing is skipped by a number, and the pagination
    offers neither a next nor a previous page, however many documents
    match.  A [limit] that does not start with a number makes the page
    size and the number of pages NaN and offers no next page. *)
Theorem paginate_nan page limit total onPage :
  (Listing.parseInt (default "1" page) = None ->
     let pg := Listing.paginate page limit total onPage in
     Listing.currentPage pg = None /\ Listing.skipOf page limit = None
     /\ Listing.hasNextPage pg = false /\ Listing.hasPrevPage pg = false
     /\ Listing.nextPage pg = None /\ Listing.prevPage pg = None)
  /\ (Listing.parseInt (default "20" limit) = None ->
     let pg := Listing.paginate page limit total onPage in
     Listing.itemsPerPage pg = None /\ Listing.totalPages pg = None
     /\ Listing.skipOf page limit = None
     /\ Listing.hasNextPage pg = false /\ Listing.nextPage pg = None).
Proof.
  split; intros H pg; unfold pg, Listing.paginate, Listing.skipOf,
    Listing.currentPageOf, Listing.pageLimitOf; rewrite H; cbn.
  - done.
  - destruct (Listing.parseInt (default "1" page)); cbn; done.
Qed.

(** ** Exact-match filters *)

Lemma split_nonempty sep s : Listing.split sep s ≠ [].
Proof.
  destruct s as [|c s]; [done|]. cbn [Listing.split].
  destruct (Ascii.eqb c sep); [done|]. by destruct (Listing.split sep s).
Qed.

Lemma split_no_sep sep s part :
  part ∈ Listing.split sep s -> occurs sep part = false.
Proof.
  revert part. induction s as [|c s IH]; intros part Hin.
  - apply list_elem_of_singleton in Hin as ->. done.
  - cbn [Listing.split] in Hin. destruct (Ascii.eqb c sep) eqn:E.
    + apply elem_of_cons in Hin as [->|Hin]; [done | by apply IH].
    + destruct (Listing.split sep s) as [|h t] eqn:Es.
      * by destruct (split_nonempty sep s).
      * apply elem_of_cons in Hin as [->|Hin].
        -- cbn [occurs]. rewrite E. apply IH, list_elem_of_here.
        -- by apply IH, list_elem_of_further.
Qed.

Lemma split_join sep s :
  String.concat (String sep "") (Listing.split sep s) = s.
Proof.
  induction s as [|c s IH]; [done|]. cbn [Listing.split].
  destruct (Ascii.eqb_spec c sep) as [->|Hne].
  - destruct (Listing.split sep s) as [|h t] eqn:Es.
    + by destruct (split_nonempty sep s).
    + cbn [String.concat] in *. by rewrite IH.
  - destruct (Listing.split sep s) as [|h t] eqn:Es.
    + by destruct (split_nonempty sep s).
    + destruct t as [|h' t]; cbn [String.concat] in *; by rewrite <- IH.
Qed.

Lemma trimStart_occurs c s :
  occurs c (JsString.trimStart s) = true -> occurs c s = true.
Proof.
  induction s as [|x s IH]; [done|]. cbn [JsString.trimStart].
  destruct (JsString.isWhiteSpace x); [|done].
  intros H. cbn [occurs]. rewrite (IH H). apply orb_true_r.
Qed.

Lemma trimEnd_occurs c s :
  occurs c (JsString.trimEnd s) = true -> occurs c s = true.
Proof.
  induction s as [|x s IH]; [done|]. cbn [JsString.trimEnd].
  destruct (JsString.trimEnd s) as [|y r] eqn:E.
  - destruct (JsString.isWhiteSpace x); [done|].
    cbn [occurs]. rewrite orb_false_r. intros ->. done.
  - cbn [occurs] in *. intros H. apply orb_true_iff in H as [->|H]; [done|].
    rewrite (IH H). apply orb_true_r.
Qed.

Lemma trim_occurs c s : occurs c (JsString.trim s) = true -> occurs c s = true.
Proof. intros H. by apply trimStart_occurs, trimEnd_occurs. Qed.

Lemma valuesOf_elem raw v :
  v ∈ Listing.valuesOf raw
  <-> v ≠ "" /\ exists part, part ∈ Listing.split "," raw /\ v = JsString.trim part.
Proof.
  unfold Listing.valuesOf. rewrite list_elem_of_In, filter_In, <- list_elem_of_In.
  rewrite list_elem_of_fmap, negb_true_iff, String.eqb_neq. split.
  - intros [(part & -> & Hin) Hne]. split; [done|]. by exists part.
  - intros [Hne (part & Hin & ->)]. split; [|done]. by exists part.
Qed.

(** X14.  An exact-match filter is read as a comma-separated list: its
    values are the non-empty trimmed parts, in order; none is empty or
    contains a comma.  Two or more values make an [$in] condition, one
    value an equality with it, and a filter of commas and blanks only an
    equality with [undefined]. *)
Theorem filter_values raw :
  String.concat "," (Listing.split "," raw) = raw
  /\ (forall v, v ∈ Listing.valuesOf raw
               <-> v ≠ "" /\ exists part, part ∈ Listing.split "," raw
                                         /\ v = JsString.trim part)
  /\ (forall v, v ∈ Listing.valuesOf raw -> occurs "," v = false)
  /\ match Listing.conditionOf raw with
     | Listing.CIn values =>
         values = Listing.valuesOf raw /\ (2 <= length values)%nat
     | Listing.CEq (Some v) => Listing.valuesOf raw = [v]
     | Listing.CEq None => Listing.valuesOf raw = []
     end.
Proof.
  split; [apply split_join|]. split; [apply valuesOf_elem|]. split.
  - intros v Hv. apply valuesOf_elem in Hv as [_ (part & Hin & ->)].
    destruct (occurs "," (JsString.trim part)) eqn:E; [|done].
    apply trim_occurs in E. by rewrite (split_no_sep _ _ _ Hin) in E.
  - unfold Listing.conditionOf.
    destruct (1 <? length (Listing.valuesOf raw))%nat eqn:E.
    + apply Nat.ltb_lt in E. split; [done | lia].
    + apply Nat.ltb_ge in E.
      destruct (Listing.valuesOf raw) as [|v [|w l]]; cbn in *; [done | done | lia].
Qed.

Lemma exactFilter_inl filters e f :
  Listing.exactFilter filters (inl e) f = inl e.
Proof. done. Qed.

Lemma foldl_exactFilter_inl filters e fields :
  foldl (Listing.exactFilter filters) (inl e) fields = inl e.
Proof. induction fields as [|f fields IH]; [done|]. exact IH. Qed.

Lemma foldl_exactFilter_inr filters fields : forall q,
  (forall f, f ∈ fields -> filters !! f ≠ Some Listing.QOther) ->
  exists q',
    foldl (Listing.exactFilter filters) (inr q) fields = inr q'
    /\ forall f, q' !! f = if decide (f ∈ fields)
                          then match exactCondition filters f with
                               | Some c => Some c
                               | None => q !! f
                               end
                          else q !! f.
Proof.
  induction fields as [|g fields IH] using rev_ind; intros q Hok.
  - exists q. split; [done|]. intros f. by rewrite decide_False by apply not_elem_of_nil.
  - destruct (IH q) as (q1 & H1 & Hl).
    { intros f Hf. apply Hok, elem_of_app. by left. }
    rewrite foldl_app, H1. cbn [foldl Listing.exactFilter].
    assert (filters !! g ≠ Some Listing.QOther) as Hg.
    { apply Hok, elem_of_app. right. apply list_elem_of_here. }
    assert (exists q',
              match filters !! g with
              | Some (Listing.QString raw) =>
                  if negb (raw =? "")
                  then inr (<[g:=Listing.conditionOf raw]> q1) else inr q1
              | Some Listing.QOther =>
                  inl (typeError "filters[f].split is not a function")
              | None => inr q1
              end = (inr q' : error + gmap string Listing.condition)
              /\ forall f, q' !! f = if decide (f = g)
                                    then match exactCondition filters f with
                                         | Some c => Some c
                                         | None => q1 !! f
                                         end
                                    else q1 !! f) as (q' & -> & Hq').
    { unfold exactCondition. destruct (filters !! g) as [[raw|]|] eqn:Eg; [|done|].
      - destruct (String.eqb raw "") eqn:Er; cbn [negb].
        + exists q1. split; [done|]. intros f. case_decide as Ef; [|done].
          subst f. by rewrite Eg, Er.
        + eexists. split; [done|]. intros f. case_decide as Ef.
          * subst f. by rewrite Eg, Er, lookup_insert_eq.
          * by rewrite lookup_insert_ne.
      - exists q1. split; [done|]. intros f. case_decide as Ef; [|done].
        subst f. by rewrite Eg. }
    exists q'. split; [done|]. intros f. rewrite Hq', Hl.
    destruct (decide (f = g)) as [->|Hne].
    + rewrite (decide_True (P := g ∈ fields ++ [g])).
      2:{ apply elem_of_app. right. apply list_elem_of_here. }
      destruct (exactCondition filters g); [done|].
      destruct (decide (g ∈ fields)); done.
    + destruct (decide (f ∈ fields)) as [Hin|Hout].
      * rewrite decide_True; [done|]. apply elem_of_app. by left.
      * rewrite decide_False; [done|]. rewrite elem_of_app, list_elem_of_singleton.
        tauto.
Qed.

Lemma foldl_exactFilter_error filters fields : forall q e,
  foldl (Listing.exactFilter filters) (inr q) fields = inl e ->
  e = typeError "filters[f].split is not a function".
Proof.
  induction fields as [|g fields IH] using rev_ind; intros q e H; [done|].
  rewrite foldl_app in H. cbn [foldl] in H.
  destruct (foldl (Listing.exactFilter filters) (inr q) fields) as [e'|q'] eqn:E.
  - cbn in H. injection H as <-. by eapply IH.
  - cbn [Listing.exactFilter] in H.
    destruct (filters !! g) as [[raw|]|]; [|by injection H|done].
    by destruct (negb (raw =? "")).
Qed.

(** X15.  The exact-match fields are the only filters that reach the
    query this way: a field of the list with a non-empty string parameter
    gets its condition, every other key gets none, and a parameter that is
    an array or an object ends the handler with a TypeError. *)
Theorem exact_filters fields filters :
  ((forall f, f ∈ fields -> filters !! f ≠ Some Listing.QOther) ->
   exists q,
     Listing.exactFilters fields filters = inr q
     /\ forall f, q !! f = if decide (f ∈ fields) then exactCondition filters f
                          else None)
  /\ ((exists f, f ∈ fields /\ filters !! f = Some Listing.QOther) ->
      Listing.exactFilters fields filters
      = inl (typeError "filters[f].split is not a function")).
Proof.
  split.
  - intros Hok. destruct (foldl_exactFilter_inr filters fields ∅ Hok) as (q & Hq & Hl).
    exists q. split; [exact Hq|]. intros f. rewrite Hl, lookup_empty.
    destruct (decide (f ∈ fields)); [|done]. by destruct (exactCondition filters f).
  - intros (f & Hin & Hf). unfold Listing.exactFilters.
    apply list_elem_of_split in Hin as (l1 & l2 & ->).
    rewrite foldl_app. cbn [foldl].
    destruct (foldl (Listing.exactFilter filters) (inr ∅) l1) as [e|q] eqn:E1.
    + rewrite (foldl_exactFilter_error _ _ _ _ E1). apply foldl_exactFilter_inl.
    + cbn [Listing.exactFilter]. rewrite Hf. apply foldl_exactFilter_inl.
Qed.

Lemma paginate_bounds_witness :
  exists c L tp,
    Listing.currentPage (Listing.paginate (Some "2") (Some "250") 120 100) = Some c
    /\ Listing.itemsPerPage (Listing.paginate (Some "2") (Some "250") 120 100) = Some L
    /\ Listing.totalPages (Listing.paginate (Some "2") (Some "250") 120 100) = Some tp
    /\ c = 2%Z /\ L = 100%Z /\ ((tp - 1) * L < 120 <= tp * L)%Z.
Proof.
  destruct (paginate_bounds (Some "2") (Some "250") 120 100 2 250 eq_refl eq_refl
              ltac:(unfold Listing.maxSafePage; lia)
              ltac:(unfold Listing.maxSafeInteger; lia))
    as (c & L & tp & Hc & HL & Ht & -> & -> & _ & _ & _ & _ & Hb & _).
  exists 2%Z, 100%Z, tp. repeat split; try assumption; lia.
Defined.

Lemma paginate_navigation_witness :
  Listing.hasNextPage (Listing.paginate (Some "2") (Some "10") 35 10) = true
  <-> (2 * 10 < 35)%Z.
Proof.
  exact (proj1 (paginate_navigation (Some "2") (Some "10") 35 10 2 10 eq_refl eq_refl
                  ltac:(unfold Listing.maxSafePage; lia)
                  ltac:(unfold Listing.maxSafeInteger; lia))).
Defined.

Lemma paginate_nan_witness :
  Listing.currentPage (Listing.paginate (Some "abc") None 35 10) = None
  /\ Listing.hasNextPage (Listing.paginate (Some "abc") None 35 10) = false.
Proof.
  destruct (proj1 (paginate_nan (Some "abc") None 35 10) eq_refl)
    as (H1 & _ & H2 & _).
  split; [exact H1 | exact H2].
Defined.

Lemma exact_filters_witness :
  exists q,
    Listing.exactFilters Listing.listFields
      {[ "device" := Listing.QString "Laptop, Desktop";
         "colour" := Listing.QString "red" ]} = inr q
    /\ q !! "device" = Some (Listing.CIn ["Laptop"; "Desktop"])
    /\ q !! "colour" = None.
Proof.
  destruct (proj1 (exact_filters Listing.listFields
              {[ "device" := Listing.QString "Laptop, Desktop";
                 "colour" := Listing.QString "red" ]})) as (q & Hq & Hl).
  - intros f _. destruct (decide (f = "device")) as [->|?];
      [by rewrite lookup_insert_eq|].
    rewrite lookup_insert_ne by done.
    destruct (decide (f = "colour")) as [->|?]; [by rewrite lookup_singleton_eq|].
    by rewrite lookup_singleton_ne.
  - exists q. split; [exact Hq|]. split.
    + rewrite Hl. vm_compute. reflexivity.
    + rewrite Hl. vm_compute. reflexivity.
Defined.

(** * Creating one asset *)

Section CreateAsset.
Variable S : Type.
Variable existsSerial : S -> list nat -> error + bool.
Variable create : S -> asset -> (error + asset) * S.

(** X16.  [createAsset] calls [Asset.create] at most once, and only for a
    body whose [createdBy] is truthy and whose [serialNumber] is a string
    that, upper-cased, no document has.  What it hands over is the request
    body as received, and the answer is then 201 with the created document
    or the store's error.  In every other case the answer is 400, 409 or
    an error, and the store is as it was. *)
Theorem createAsset_store_call body st log o st' log' :
  SingleAsset.createAsset (S * list asset) (fun s => existsSerial s.1)
    (SingleAsset.recordingCreate create) body (st, log) = (o, (st', log')) ->
  (log' = log /\ st' = st
   /\ match o with
      | SingleAsset.Sent r =>
          SingleAsset.status r = 400%Z \/ SingleAsset.status r = 409%Z
      | SingleAsset.Next _ => True
      end)
  \/ (log' = log ++ [body]
      /\ truthy (get body "createdBy") = true
      /\ (exists s, get body "serialNumber" = VStr s
                    /\ existsSerial st (JsString.toUpperCase s) = inr false)
      /\ match o with
         | SingleAsset.Sent r =>
             SingleAsset.status r = 201%Z
             /\ exists doc, create st body = (inr doc, st')
                            /\ SingleAsset.data r = Some doc
         | SingleAsset.Next e => create st body = (inl e, st')
         end).
Proof.
  unfold SingleAsset.createAsset.
  destruct (truthy (get body "createdBy")) eqn:Hc; cbn [negb].
  2:{ intros [= <- <- <-]. left. split; [done|]. split; [done|]. by left. }
  destruct (get body "serialNumber") as [| |b|n|s|t] eqn:Hs; cbn [SingleAsset.toUpperCaseOf];
    try (intros [= <- <- <-]; by left).
  cbn [fst].
  destruct (existsSerial st (JsString.toUpperCase s)) as [e|[|]] eqn:He.
  - intros [= <- <- <-]. by left.
  - intros [= <- <- <-]. left. split; [done|]. split; [done|]. by right.
  - unfold SingleAsset.recordingCreate. cbn [fst snd].
    destruct (create st body) as [[e|doc] st1] eqn:Hcr.
    + intros [= <- <- <-]. right.
      split; [done|]. split; [done|]. split; [by exists s|done].
    + intros [= <- <- <-]. right.
      split; [done|]. split; [done|]. split; [by exists s|].
      split; [done|]. by exists doc.
Qed.

(** X17.  [createAsset] called with a creator and a [serialNumber] that is
    not a string (missing, for one) does not answer 400: the call of
    [toUpperCase] throws, the store is not touched, and the error handler
    answers 500. *)
Theorem createAsset_serial_not_a_string body st :
  truthy (get body "createdBy") = true ->
  (forall s, get body "serialNumber" <> VStr s) ->
  exists e m,
    SingleAsset.createAsset S existsSerial create body st = (SingleAsset.Next e, st)
    /\ err_name e = "TypeError"
    /\ errorHandler e = inr {| status := 500; success := false; data := None;
                               message := m |}.
Proof.
  intros Hc Hs. unfold SingleAsset.createAsset. rewrite Hc. cbn [negb].
  destruct (get body "serialNumber") as [| |b|n|s|t] eqn:E;
    cbn [SingleAsset.toUpperCaseOf];
    try (eexists _, _; split; [reflexivity|]; split; reflexivity).
  by destruct (Hs s).
Qed.

End CreateAsset.

Lemma createAsset_store_call_witness :
  [sampleBody] = [] ++ [sampleBody]
  /\ exists s, get sampleBody "serialNumber" = VStr s
                /\ sampleExists sampleStore (JsString.toUpperCase s) = inr false.
Proof.
  destruct (createAsset_store_call (list asset) sampleExists sampleCreate
              sampleBody sampleStore []
              (SingleAsset.Sent (SingleAsset.send 201 (Some sampleBody) "Asset created"))
              (sampleStore ++ [sampleBody]) [sampleBody] eq_refl)
    as [(H & _)|(H & _ & Hs & _)].
  - discriminate H.
  - exact (conj H Hs).
Defined.

Lemma createAsset_serial_not_a_string_witness :
  exists e m,
    SingleAsset.createAsset (list asset) sampleExists sampleCreate
      {[ "createdBy" := VStr "u1" ]} sampleStore = (SingleAsset.Next e, sampleStore)
    /\ err_name e = "TypeError"
    /\ errorHandler e = inr {| status := 500; success := false; data := None;
                               message := m |}.
Proof.
  apply (createAsset_serial_not_a_string (list asset) sampleExists sampleCreate
           {[ "createdBy" := VStr "u1" ]} sampleStore).
  - reflexivity.
  - intros s. vm_compute. discriminate.
Defined.

(** * The earlier revision *)

#[local] Opaque Earlier.columnMap.

Lemma filter_negb_length {A} (p : A -> bool) (l : list A) :
  (length (List.filter (fun x => negb (p x)) l) =? 0)%nat = forallb p l.
Proof.
  induction l as [|x l IH]; [done|]. cbn [List.filter forallb].
  by destruct (p x).
Qed.

Lemma filter_split_length {A} (p : A -> bool) (l : list A) :
  (length (List.filter p l) + length (List.filter (fun x => negb (p x)) l)
   = length l)%nat.
Proof.
  induction l as [|x l IH]; [done|]. cbn [List.filter].
  destruct (p x); cbn [negb length]; lia.
Qed.

Lemma filter_none_all {A} (p : A -> bool) (l : list A) :
  Forall (fun x => p x = false) l ->
  List.filter p l = [] /\ List.filter (fun x => negb (p x)) l = l.
Proof.
  induction 1 as [|x l Hx _ [IH1 IH2]]; [done|]. cbn [List.filter].
  rewrite Hx. cbn [negb]. by rewrite IH1, IH2.
Qed.

Lemma missingOf_complete a :
  (length (Earlier.missingOf a) =? 0)%nat = complete a.
Proof. apply filter_negb_length. Qed.

Lemma validate_foldl assets : forall acc,
  foldl Earlier.validateRow acc assets
  = (acc.1 ++ (delete "_rowIndex" <$> List.filter complete assets),
     acc.2 ++ (rowError <$> List.filter (fun a => negb (complete a)) assets)).
Proof.
  induction assets as [|a assets IH]; intros [v e].
  - cbn [foldl List.filter fmap list_fmap fst snd]. by rewrite !app_nil_r.
  - cbn [foldl List.filter]. rewrite IH. unfold Earlier.validateRow.
    rewrite missingOf_complete. destruct (complete a); cbn [negb fst snd].
    + by rewrite fmap_cons, <- app_assoc.
    + by rewrite fmap_cons, <- app_assoc.
Qed.

Lemma validate_filter assets :
  Earlier.validate assets
  = (delete "_rowIndex" <$> List.filter complete assets,
     rowError <$> List.filter (fun a => negb (complete a)) assets).
Proof. unfold Earlier.validate. by rewrite validate_foldl. Qed.

Lemma missingOf_required a f :
  f ∈ Earlier.missingOf a <-> f ∈ Earlier.requiredFields /\ truthy (get a f) = false.
Proof.
  unfold Earlier.missingOf. rewrite !list_elem_of_In, filter_In.
  by rewrite negb_true_iff.
Qed.

(** X18.  The earlier revision sorts the rows by [requiredFields]: the
    rows with every required field truthy are kept, in order and without
    their [_rowIndex]; every other row gives one validation error, in
    order, that carries the row's number and the required fields the row
    lacks, at least one.  No row is lost and none is counted twice. *)
Theorem earlier_validation_partition assets :
  (Earlier.validate assets).1 = delete "_rowIndex" <$> List.filter complete assets
  /\ Earlier.ve_row <$> (Earlier.validate assets).2
     = (fun a => get a "_rowIndex") <$> List.filter (fun a => negb (complete a)) assets
  /\ Forall (fun e => Earlier.ve_missing e <> []
                      /\ forall f, f ∈ Earlier.ve_missing e -> f ∈ Earlier.requiredFields)
            (Earlier.validate assets).2
  /\ (length (Earlier.validate assets).1 + length (Earlier.validate assets).2
      = length assets)%nat.
Proof.
  rewrite validate_filter. cbn [fst snd]. split; [done|]. split; [|split].
  - rewrite <- list_fmap_compose. done.
  - apply Forall_fmap, Forall_forall. intros a Ha.
    apply list_elem_of_In, filter_In in Ha as [_ Ha].
    unfold compose. cbn [rowError Earlier.ve_missing].
    split.
    + intros E. rewrite <- missingOf_complete, E in Ha. discriminate.
    + intros f Hf. by apply missingOf_required in Hf as [? _].
  - rewrite !length_fmap. apply filter_split_length.
Qed.

Section EarlierUpload.
Variable S : Type.
Variable insertMany : S -> list asset -> (error + list asset) * S.
Variable dateParse : string -> option Z.

Lemma earlier_mapColumn_other f row :
  Forall (fun kv : string * value =>
            Earlier.columnMap !! JsString.trim (JsString.toLowerCase kv.1) <> Some f) row ->
  forall a, foldl (Earlier.mapColumn dateParse) a row !! f = a !! f.
Proof.
  induction 1 as [|kv row Hkv _ IH]; intros a; [done|].
  cbn [foldl]. rewrite IH. unfold Earlier.mapColumn.
  destruct (Earlier.columnMap !! _) as [g|] eqn:E; [|done].
  destruct (truthy (VStr g)); [|done].
  rewrite lookup_insert_ne; [done|]. intros ->. by apply Hkv.
Qed.

Lemma earlier_transformRow_rowIndex createdBy row index :
  get (Earlier.transformRow dateParse createdBy row index) "_rowIndex"
  = VNum (Z.of_nat index + 2).
Proof. unfold Earlier.transformRow. apply get_insert_eq. Qed.

Lemma earlier_no_serial createdBy row index :
  Forall (fun kv : string * value =>
            Earlier.columnMap !! JsString.trim (JsString.toLowerCase kv.1)
            <> Some "serialNumber") row ->
  get (Earlier.transformRow dateParse createdBy row index) "serialNumber" = VUndefined.
Proof.
  intros H. unfold Earlier.transformRow, get.
  rewrite lookup_insert_ne by done.
  rewrite (earlier_mapColumn_other _ _ H).
  by rewrite lookup_singleton_ne.
Qed.

(** X19.  The earlier [uploadExcel] generates no serial number: when no
    column of the sheet maps to [serialNumber], every row is a validation
    error that names [serialNumber] among the missing fields, shows 'N/A'
    as serial and carries the sheet row number (index + 2); the answer is
    400 'No valid records found' and the store is not called. *)
Theorem earlier_upload_requires_serial req st rawData :
  up_file req = Some (inr rawData) ->
  truthy (up_createdBy req) = true ->
  rawData <> [] -> (length rawData <= 5000)%nat ->
  Forall (fun row : rawRow =>
    Forall (fun kv : string * value =>
              Earlier.columnMap !! JsString.trim (JsString.toLowerCase kv.1)
              <> Some "serialNumber") row) rawData ->
  exists verrs,
    Earlier.uploadExcel S insertMany dateParse req st
    = Some (Earlier.UploadSent
              (Earlier.sendUpload 400 (Some (Earlier.NoValid verrs))
                 "No valid records found"), st)
    /\ length verrs = length rawData
    /\ forall k e, verrs !! k = Some e ->
         Earlier.ve_row e = VNum (Z.of_nat k + 2)
         /\ "serialNumber" ∈ Earlier.ve_missing e
         /\ Earlier.ve_serialNumber e = VStr "N/A".
Proof.
  intros Hf Hc Hne Hlen Hrows.
  set (assets := Earlier.transformRows dateParse (up_createdBy req) rawData).
  assert (forall k a, assets !! k = Some a ->
            exists row, rawData !! k = Some row
              /\ a = Earlier.transformRow dateParse (up_createdBy req) row k) as Hk.
  { intros k a Ha. unfold assets, Earlier.transformRows in Ha.
    rewrite list_lookup_imap in Ha.
    destruct (rawData !! k) as [row|]; [|done].
    exists row. split; [done|]. by injection Ha as <-. }
  assert (forall k a, assets !! k = Some a ->
            get a "serialNumber" = VUndefined
            /\ get a "_rowIndex" = VNum (Z.of_nat k + 2)) as Hs.
  { intros k a Ha. apply Hk in Ha as (row & Hr & ->).
    split; [|apply earlier_transformRow_rowIndex].
    apply earlier_no_serial. rewrite Forall_forall in Hrows.
    apply Hrows. by eapply list_elem_of_lookup_2. }
  assert (Forall (fun a => complete a = false) assets) as Hall.
  { apply Forall_lookup. intros k a Ha. apply Hs in Ha as [Ha _].
    unfold complete, Earlier.requiredFields. cbn [forallb]. by rewrite Ha. }
  apply filter_none_all in Hall as [F1 F2].
  exists (rowError <$> assets). split; [|split].
  - unfold Earlier.uploadExcel. rewrite Hf, Hc. cbn [negb].
    replace (length rawData =? 0)%nat with false
      by (symmetry; apply Nat.eqb_neq; by destruct rawData).
    replace (5000 <? length rawData)%nat with false
      by (symmetry; apply Nat.ltb_ge; lia).
    fold assets. rewrite validate_filter, F1, F2. reflexivity.
  - rewrite length_fmap. unfold assets, Earlier.transformRows. apply length_imap.
  - intros k e He. rewrite list_lookup_fmap in He.
    destruct (assets !! k) as [a|] eqn:Ha; [|done]. injection He as <-.
    destruct (Hs _ _ Ha) as [Hsn Hri]. cbn [rowError Earlier.ve_row
      Earlier.ve_missing Earlier.ve_serialNumber]. rewrite Hsn, Hri.
    split; [done|]. split; [|done].
    apply missingOf_required. rewrite Hsn. split; [|done].
    unfold Earlier.requiredFields. apply list_elem_of_here.
Qed.

(** X20.  The earlier [uploadExcel] always ends, the batch loop included.
    It calls [next] only with the error reading the file threw; no cell
    makes the normaliser throw and no store failure is forwarded.
    Whenever the answer is not 201 the store is as it was. *)
Theorem earlier_upload_outcomes req st :
  exists o st',
    Earlier.uploadExcel S insertMany dateParse req st = Some (o, st')
    /\ match o with
       | Earlier.UploadSent r =>
           (Earlier.ur_status r = 400%Z /\ st' = st) \/ Earlier.ur_status r = 201%Z
       | Earlier.UploadNext e => st' = st /\ up_file req = Some (inl e)
       end.
Proof.
  unfold Earlier.uploadExcel.
  destruct (up_file req) as [[err|rawData]|].
  3:{ eexists _, _. split; [reflexivity|]. by left. }
  - destruct (truthy (up_createdBy req)); cbn [negb].
    + eexists _, _. split; [reflexivity|]. unfold Earlier.uploadCatch.
      destruct (err_message err) as [m|]; [|done].
      destruct (JsString.includes "Encrypted" m); [by left | done].
    + eexists _, _. split; [reflexivity|]. by left.
  - destruct (truthy (up_createdBy req)); cbn [negb].
    2:{ eexists _, _. split; [reflexivity|]. by left. }
    destruct (length rawData =? 0)%nat.
    { eexists _, _. split; [reflexivity|]. by left. }
    destruct (5000 <? length rawData)%nat.
    { eexists _, _. split; [reflexivity|]. by left. }
    destruct (Earlier.validate _) as [valid verrs].
    destruct (length valid =? 0)%nat.
    { eexists _, _. split; [reflexivity|]. by left. }
    destruct (insertLoop_total S insertMany (length valid) 0 valid st
                {| inserted := []; errors := [] |}) as (st' & r & Hl); [lia|].
    rewrite Hl. eexists _, _. split; [reflexivity|]. by right.
Qed.

End EarlierUpload.

(** X21.  The accounting of the earlier upload report.  The rows handed to
    the store, batch after batch, are exactly the rows that passed the
    validation; [totalRows] is their number plus the number of validation
    errors; [failed] adds the validation errors to the errors of the
    store; each of the two lists shown stops at 50 entries. *)
Theorem earlier_upload_accounting (S : Type)
    (insertMany : S -> list asset -> (error + list asset) * S)
    (dateParse : string -> option Z) req st log r st' log' :
  Earlier.uploadExcel (S * list (list asset)) (recording insertMany) dateParse
    req (st, log) = Some (Earlier.UploadSent r, (st', log')) ->
  Earlier.ur_status r = 201%Z ->
  exists rawData batches created insertErrors,
    up_file req = Some (inr rawData)
    /\ log' = log ++ batches
    /\ let v := Earlier.validate
                  (Earlier.transformRows dateParse (up_createdBy req) rawData) in
       concat batches = v.1
       /\ Earlier.ur_data r
          = Some (Earlier.Report (length v.1 + length v.2) created
                    (length insertErrors + length v.2)
                    (take 50 v.2) (take 50 insertErrors)).
Proof.
  unfold Earlier.uploadExcel.
  destruct (up_file req) as [[err|rawData]|]; [| |by intros [= <- <- <-]].
  - destruct (truthy (up_createdBy req)); cbn [negb]; [|by intros [= <- <- <-]].
    unfold Earlier.uploadCatch. destruct (err_message err) as [m|]; [|done].
    destruct (JsString.includes "Encrypted" m); [by intros [= <- <- <-] | done].
  - destruct (truthy (up_createdBy req)); cbn [negb]; [|by intros [= <- <- <-]].
    destruct (length rawData =? 0)%nat; [by intros [= <- <- <-]|].
    destruct (5000 <? length rawData)%nat; [by intros [= <- <- <-]|].
    pose proof (earlier_validation_partition
                  (Earlier.transformRows dateParse (up_createdBy req) rawData))
      as (_ & _ & _ & Hlen).
    assert (length (Earlier.transformRows dateParse (up_createdBy req) rawData)
            = length rawData) as Hr by apply length_imap.
    rewrite Hr in Hlen. clear Hr.
    destruct (Earlier.validate _) as [valid verrs] eqn:Ev. cbn [fst snd] in Hlen.
    destruct (length valid =? 0)%nat; [by intros [= <- <- <-]|].
    destruct (insertLoop _ _ _ _ _ _ _) as [[[st1 log1] r1]|] eqn:Hl; [|done].
    intros [= <- <- <-] _.
    apply insertLoop_recording in Hl as (batches & -> & Hc & _).
    rewrite drop_0 in Hc.
    exists rawData, batches, (length (inserted r1)), (errors r1).
    split; [done|]. split; [done|]. cbv zeta. rewrite Ev. cbn [fst snd].
    split; [exact Hc|].
    cbn [Earlier.sendUpload Earlier.ur_data]. by rewrite Hlen.
Qed.

(** X22.  The earlier [bulkCreateAssets] calls the store at most once: for
    an array of 1 to 100 assets, which it hands over as received (no
    [createdBy] is added), and not at all otherwise (400).  After the call
    the answer is 201 with [created] the number of assets listed, or the
    store's error when it carries no [insertedDocs]. *)
Theorem earlier_bulk_store_call (S : Type)
    (insertMany : S -> list asset -> (error + list asset) * S)
    assets st log o st' log' :
  Earlier.bulkCreateAssets (S * list (list asset)) (recording insertMany)
    assets (st, log) = (o, (st', log')) ->
  (log' = log /\ st' = st
   /\ (forall l, assets = AnArray l -> l = [] \/ (100 < length l)%nat)
   /\ exists m, o = Earlier.BulkSent (Earlier.sendBulk 400 None m))
  \/ (exists l, assets = AnArray l /\ (1 <= length l <= 100)%nat
        /\ log' = log ++ [l]
        /\ match o with
           | Earlier.BulkSent r =>
               Earlier.br_status r = 201%Z
               /\ exists docs,
                    Earlier.br_data r
                    = Some {| Earlier.bb_created := length docs;
                              Earlier.bb_assets := docs |}
           | Earlier.BulkNext e =>
               insertMany st l = (inl e, st') /\ err_insertedDocs e = None
           end).
Proof.
  unfold Earlier.bulkCreateAssets.
  destruct assets as [|v|l].
  - intros [= <- <- <-]. left. split; [done|]. split; [done|]. split; [done|]. by eexists.
  - intros [= <- <- <-]. left. split; [done|]. split; [done|]. split; [done|]. by eexists.
  - destruct (length l =? 0)%nat eqn:E0.
    { intros [= <- <- <-]. left. split; [done|]. split; [done|].
      split; [|by eexists]. intros l' [= <-]. left.
      apply Nat.eqb_eq in E0. by destruct l. }
    destruct (100 <? length l)%nat eqn:E1.
    { intros [= <- <- <-]. left. split; [done|]. split; [done|].
      split; [|by eexists]. intros l' [= <-]. right. by apply Nat.ltb_lt. }
    apply Nat.eqb_neq in E0. apply Nat.ltb_ge in E1.
    unfold recording. cbn [fst snd].
    destruct (insertMany st l) as [[err|docs] st1] eqn:Hi.
    + destruct (err_insertedDocs err) as [docs|] eqn:Hd.
      * intros [= <- <- <-]. right. exists l. split; [done|]. split; [lia|].
        split; [done|]. split; [done|]. by exists docs.
      * intros [= <- <- <-]. right. exists l. split; [done|]. split; [lia|].
        split; [done|]. done.
    + intros [= <- <- <-]. right. exists l. split; [done|]. split; [lia|].
      split; [done|]. split; [done|]. by exists docs.
Qed.

Lemma earlier_upload_requires_serial_witness :
  exists verrs,
    Earlier.uploadExcel (list asset) acceptAll sampleDateParse
      (sampleUpload [rowBlankDevice; rowLowercaseDevice]) sampleStore
    = Some (Earlier.UploadSent
              (Earlier.sendUpload 400 (Some (Earlier.NoValid verrs))
                 "No valid records found"), sampleStore)
    /\ length verrs = 2%nat
    /\ forall k e, verrs !! k = Some e ->
         Earlier.ve_row e = VNum (Z.of_nat k + 2)
         /\ "serialNumber" ∈ Earlier.ve_missing e
         /\ Earlier.ve_serialNumber e = VStr "N/A".
Proof.
  apply (earlier_upload_requires_serial (list asset) acceptAll sampleDateParse
           (sampleUpload [rowBlankDevice; rowLowercaseDevice]) sampleStore
           [rowBlankDevice; rowLowercaseDevice]).
  - reflexivity.
  - reflexivity.
  - discriminate.
  - cbn [length]. lia.
  - repeat constructor; vm_compute; discriminate.
Defined.

Lemma earlier_upload_accounting_witness :
  exists r st' log',
    Earlier.uploadExcel (list asset * list (list asset)) (recording acceptAll)
      sampleDateParse (sampleUpload [rowComplete; rowBlankDevice]) ([], [])
    = Some (Earlier.UploadSent r, (st', log'))
    /\ exists rawData batches created insertErrors,
         up_file (sampleUpload [rowComplete; rowBlankDevice]) = Some (inr rawData)
         /\ log' = [] ++ batches
         /\ let v := Earlier.validate
                       (Earlier.transformRows sampleDateParse
                          (up_createdBy (sampleUpload [rowComplete; rowBlankDevice]))
                          rawData) in
            concat batches = v.1
            /\ Earlier.ur_data r
               = Some (Earlier.Report (length v.1 + length v.2) created
                         (length insertErrors + length v.2)
                         (take 50 v.2) (take 50 insertErrors)).
Proof.
  assert (match Earlier.uploadExcel (list asset * list (list asset))
                  (recording acceptAll) sampleDateParse
                  (sampleUpload [rowComplete; rowBlankDevice]) ([], []) with
          | Some (Earlier.UploadSent r, _) => Earlier.ur_status r
          | _ => 0%Z
          end = 201%Z) as Hs by (vm_compute; reflexivity).
  destruct (Earlier.uploadExcel _ _ _ _ _) as [[[r|e] [st' log']]|] eqn:E;
    try discriminate Hs.
  exists r, st', log'. split; [reflexivity|].
  exact (earlier_upload_accounting (list asset) acceptAll sampleDateParse
           (sampleUpload [rowComplete; rowBlankDevice]) [] [] r st' log' E Hs).
Defined.

Lemma earlier_bulk_store_call_witness :
  exists l, AnArray [sampleAsset] = AnArray l /\ (1 <= length l <= 100)%nat
            /\ [[sampleAsset]] = [] ++ [l].
Proof.
  destruct (earlier_bulk_store_call (list asset) acceptAll
              (AnArray [sampleAsset]) [] []
              (Earlier.BulkSent
                 (Earlier.sendBulk 201
                    (Some {| Earlier.bb_created := 1;
                             Earlier.bb_assets := [sampleAsset] |})
                    "1 assets created"))
              [sampleAsset] [[sampleAsset]] eq_refl)
    as [(H & _)|(l & Ha & Hl & Hlog & _)].
  - discriminate H.
  - exists l. exact (conj Ha (conj Hl Hlog)).
Defined.
